(* ===== verification/_CoqProject ===== *)
-Q . S2P
Prelude.v
JsValue.v
Dates.v
Schedule.v
WeatherStats.v
Units.v
WeatherTriggers.v
WeatherManager.v
Http.v
Schema.v
Crons.v
App.v
