(* ===== verification/Prelude.v ===== *)
(** * Weather-monitoring-System: a verification development

    The program (Node.js, [src/]) polls a weather provider for one city,
    keeps running statistics of the observations, evaluates user-defined
    threshold triggers on each observation, and periodically stores a
    summary in MongoDB.  Its parts and how they interact:
    - [app.js] asks the city, the temperature unit and up to two triggers on
      the terminal, builds one [WeatherManager] and starts two [node-cron]
      jobs on it;
    - the polling job ([cron/weather_cron.js]) calls [get_weather]
      ([services/openweather_manager.js], which builds the URL and calls
      [fetchData] of [services/http_manager.js]) and hands the observation
      to [WeatherManager.addWeatherData];
    - [WeatherManager] ([services/weather_manager.js]) converts units
      ([utils/utils.js], [utils/enums.js]), records the observation in its
      [WeatherStats] ([services/weather_stats.js]) and evaluates its
      [WeatherTrigger]s ([services/weather_triggers.js]);
    - the persistence job ([cron/weather_save_cron.js]) takes
      [getDailySummary()], dates it "yesterday" and stores it through the
      [WeatherSummary] model ([models/weather_stats_schema.js]).

    ** Files, in dependency order
    - [Prelude]: the exceptions ([js_exn]) and outcomes ([outcome]) of
      JavaScript code; the effect monad [eff S E A := S -> S * list E *
      outcome A] (state, printed lines, result) with [catch] and [finally];
      boolean comparison on [Q]; the hint databases [weather] and
      [weather_rw].
    - [JsValue]: the ECMAScript semantics the program relies on: Numbers as
      [NaN], the infinities and exact rationals; [ToNumber] on strings (the
      whole StringToNumber grammar); the relational operators and [===];
      truthiness; property reads and writes on an object literal, whose
      missing keys fall back to [Object.prototype].
    - [WeatherStats]: [WeatherStats] ([Module WeatherStats]: [create],
      [resetStats], [add_stats], [getAverageTemperature],
      [getDailySummary]); the reference aggregate of a history
      ([Module StatsSpec]) and the refinement proof ([StatsRefinement]).
    - [Dates]: the [Date] methods the program calls, on a time value in
      milliseconds (UTC): [getDate] and [setDate] through the civil
      calendar (Hinnant's [civil_from_days]), and [toISOString] with its
      zero-padded fields and expanded years.
    - [Schedule]: [node-cron]'s five-field expressions ([parse_cron],
      [cron_matches], in UTC, second 0); the two tasks the jobs are
      scheduled as ([createWeatherCron_task], [saveWeatherCronJob_task]:
      expression and options object, [scheduled] and [timezone]), and the
      firings of a task in a day.
    - [Units]: [kelvinToCelsius], [celsiusToFahrenheit], [TemperatureType],
      and [logErrorToFile] as an append to the contents of
      [cron_error.log].
    - [WeatherTriggers]: [WeatherTrigger] and [isTriggered].
    - [WeatherManager]: [WeatherManager] in the [eff] monad (its state is
      the manager, its output the console lines of [checkWeatherTriggers]);
      the reference list of fired triggers ([ManagerSpec]).
    - [Http]: [buildUrlWithParams] with the [URLSearchParams] serializer and
      its parser ([UrlEncoding]); [fetchData] as a structural recursion on
      its [retries] argument, against a network given as the answer to each
      request; [get_weather].
    - [Schema]: what [WeatherSummary.create] stores or rejects.
    - [Crons]: the two jobs on Node's event loop.  The global state [sys]
      holds the shared manager, the flag [isJobRunning], the handlers
      suspended at their [await], the stored documents and the contents of
      [cron_error.log];
      each handler is split at its [await] into a tick and a continuation,
      [handle] runs one event, and [reachable] (an inductive relation) is
      the set of states of every interleaving.
    - [App]: [connectToDB] ([utils/mongo_db.js]) on the outcome of
      [mongoose.connect], [askMultipleQuestions] over the lines typed, and
      [main].

    ** What is proved (the claims C1..C39 of the manifest)
    - Statistics: the incremental [add_stats] refines the reference
      aggregate of the history (temperatures, sum, extrema, frequencies,
      first-reached dominant condition), so the daily summary reports the
      true extrema, mean and dominant condition; the cached dominant
      frequency equals the maximum of the frequency table; in every
      history a condition named [__proto__] is never counted and never
      dominant, and one named like another member of [Object.prototype]
      is counted one short ([NaN] after its first observation).
    - Triggers and manager: [isTriggered] on every operator and threshold
      kind, when it throws; [addWeatherData] against the reference list of
      fired triggers, and the abort of the whole pass on an unsupported
      operator; unit conversion in both modes; the rules [>] and [<=] are
      complementary exactly when the comparison is defined.
    - HTTP: [get_weather] resolves to data exactly when an attempt within
      the retry budget succeeds after only retried failures; [fetchData]
      makes between 1 and [retries + 1] requests; HTTP status errors and
      connection resets are not retried; the URL's query parses back to
      the city and key (a round trip of the urlencoded format).
    - Jobs: at most one fetch in flight (invariant over [reachable]); a
      tick during a fetch is dropped; every fetch completion releases the
      flag; errors never escape the polling handler; every stored or
      pending summary is the summary of a prefix of the observations; what
      a save stores; [cron_error.log] only ever grows by whole lines,
      one per failed polling cycle (its contents before start-up are not
      modelled: the file is taken to start empty); one polling cycle composed with
      [get_weather] records the provider's observation or logs the
      [TypeError]; the persistence job, unguarded, can run twice at once
      and store the later-dated summary first (an explicit event list
      replayed by [exec] from a reachable state); the "yesterday"
      computation, and its midnight race for every pair of instants
      around midnight: the firing day itself mid-month, a month back on
      the 1st (using a second era check, [Dates.next_day_check], of how
      the day of the month advances).
    - Schedules and the error log: with their options, the persistence
      task fires 480 times a UTC day and the polling task 1440 times,
      so a run of the event loop within one day whose persistence timer
      fires when node-cron schedules it starts at most 480 persistence
      runs and stores at most 480 documents (the composition of
      [Schedule] with [Crons.exec]), against their comments
      ("daily", "every 5 minutes"); every [logErrorToFile] line of the
      years 1970 to 9999 is a 24-character timestamp, the error text and
      a newline.
    - Start-up: the configuration a successful start-up schedules, the
      rejection of unknown units; only the exact answer [Y] adds a trigger
      (a lemma of [App], no longer a claim).

    ** Choices of the model
    - Numbers are exact rationals: rounding of binary64, overflow and [-0]
      are not modelled ([300.15 - 273.15] is [27] in both); results that
      depend on rounding are outside the model.
    - No fuel is needed: every loop of the program is structural ([for ...
      of] over an array, the retry counter); non-termination appears only
      as a question that is never answered ([None] in [App]).
    - Time values are integers (milliseconds, UTC); [getDate] and [setDate]
      use the civil calendar.  The bound on [civil_from_days] (months
      1..12, days 1..31, years 0..9999 for times up to
      [max_four_digit_time]) is proved by evaluating all 146097 days of
      one 400-year era ([Dates.era_check], by [vm_compute]); every other
      day reduces to that era, so the check covers all times.
    - Strings are byte sequences ([string]); [toLowerCase] is modelled on
      ASCII.

    ** Not modelled
    - Mongoose beyond validation: the connection is the outcome passed to
      [connectToDB], a write a boolean per save.
    - The file system beyond appending to [cron_error.log] (the file is a
      string), [console] formatting, [dotenv], [readline] beyond the list
      of lines, and the timers of [node-cron]: the [Crons] model lets a
      timer fire at any point of an interleaving, and [Schedule] states
      when node-cron fires them.
    - The concurrency inside [fetchData]: its retries are folded into the
      settlement of the polling job's [await], since they touch no shared
      state.
    - The lines of [src/] no definition translates are [require] and
      [module.exports] statements, [dotenv.config()] and the creation of
      the [readline] interface: they bind names and carry no behaviour the
      model does not already take as input. *)

From stdpp Require Export base list gmap strings options.
From Stdlib Require Export QArith Lqa.

(** Shared notation, the effect monad of the JavaScript handlers, automation
    and the generic lemmas on lists, options and rationals. *)

Declare Scope weather_scope.
Delimit Scope weather_scope with W.


(** ** Outcomes of JavaScript code

    A JavaScript statement either completes normally with a value or throws.
    Only the two error classes the program raises or hits are modelled:
    [Error] (explicit [throw new Error(..)]) and [TypeError] (reading a
    property of [undefined]). *)

Inductive js_exn :=
| Error (msg : string)
| TypeError (msg : string).

Inductive outcome (A : Type) :=
| Return (a : A)
| Throw (e : js_exn).
Arguments Return {A} a.
Arguments Throw {A} e.

(** The [message] property of an error object. *)
Definition exn_message (e : js_exn) : string :=
  match e with Error m | TypeError m => m end.

#[export] Instance js_exn_eq_dec : EqDecision js_exn.
Proof. solve_decision. Defined.

(** ** The effect monad

    [eff S E A] is the code of a JavaScript function that reads and writes a
    state of type [S], prints console lines of type [E] and returns an [A] or
    throws.  Writes made before a [throw] persist, as they do in
    JavaScript: the state and the output are returned on both paths. *)

Definition eff (S E A : Type) : Type := S -> S * list E * outcome A.

Section Eff.
Context {S E : Type}.

Definition eff_ret {A} (a : A) : eff S E A := fun s => (s, [], Return a).

Definition eff_bind {A B} (f : A -> eff S E B) (m : eff S E A) : eff S E B :=
  fun s =>
    match m s with
    | (s1, o1, Return a) =>
        match f a s1 with (s2, o2, r) => (s2, o1 ++ o2, r) end
    | (s1, o1, Throw e) => (s1, o1, Throw e)
    end.

Definition eff_throw {A} (e : js_exn) : eff S E A := fun s => (s, [], Throw e).
Definition eff_get : eff S E S := fun s => (s, [], Return s).
Definition eff_put (s' : S) : eff S E unit := fun _ => (s', [], Return tt).
Definition eff_modify (f : S -> S) : eff S E unit := fun s => (f s, [], Return tt).
Definition eff_emit (e : E) : eff S E unit := fun s => (s, [e], Return tt).

(** [try { m } catch (e) { h e }] *)
Definition eff_catch {A} (m : eff S E A) (h : js_exn -> eff S E A) : eff S E A :=
  fun s =>
    match m s with
    | (s1, o1, Throw e) => match h e s1 with (s2, o2, r) => (s2, o1 ++ o2, r) end
    | r => r
    end.

(** [try { m } finally { fin }]: [fin] runs on both paths, and the outcome
    of [m] is kept when [fin] completes normally. *)
Definition eff_finally {A} (m : eff S E A) (fin : eff S E unit) : eff S E A :=
  fun s =>
    match m s with
    | (s1, o1, r) =>
        match fin s1 with
        | (s2, o2, Return _) => (s2, o1 ++ o2, r)
        | (s2, o2, Throw e) => (s2, o1 ++ o2, Throw e)
        end
    end.

(** Lift a computation on a part of the state. *)
Definition eff_focus {T A} (get : S -> T) (set : T -> S -> S)
    (m : eff T E A) : eff S E A :=
  fun s => match m (get s) with (t, o, r) => (set t s, o, r) end.

(** Relabel the console output of a computation. *)
Definition eff_map_out {E' A} (f : E -> E') (m : eff S E A) : eff S E' A :=
  fun s => match m s with (s', o, r) => (s', map f o, r) end.
End Eff.

(** Lift an outcome computed purely into the effect monad. *)
Definition eff_lift {S E A} (o : outcome A) : eff S E A := fun s => (s, [], o).

#[export] Instance eff_ret_inst {S E} : MRet (eff S E) := @eff_ret S E.
#[export] Instance eff_bind_inst {S E} : MBind (eff S E) := @eff_bind S E.


(** ** Rationals: boolean comparisons *)

Definition Qltb (x y : Q) : bool := match (x ?= y)%Q with Lt => true | _ => false end.

Lemma Qltb_iff x y : Qltb x y = true <-> (x < y)%Q.
Proof. unfold Qltb. rewrite Qlt_alt. destruct (x ?= y)%Q; intuition congruence. Qed.

Lemma Qltb_false x y : Qltb x y = false <-> (y <= x)%Q.
Proof.
  unfold Qltb. rewrite Qle_alt, <- (Qcompare_antisym x y).
  destruct (x ?= y)%Q; simpl; intuition congruence.
Qed.

Lemma Qcompare_inject_Z (a b : Z) : (inject_Z a ?= inject_Z b)%Q = Z.compare a b.
Proof. unfold Qcompare, inject_Z; simpl. by rewrite !Z.mul_1_r. Qed.

Lemma Qltb_inject_Z (a b : Z) : Qltb (inject_Z a) (inject_Z b) = Z.ltb a b.
Proof.
  unfold Qltb. rewrite Qcompare_inject_Z. unfold Z.ltb. by destruct (Z.compare a b).
Qed.

Lemma inject_Z_succ (n : Z) : (inject_Z n + 1)%Q = inject_Z (n + 1).
Proof. unfold inject_Z, Qplus; simpl. f_equal. lia. Qed.

Create HintDb weather discriminated.
Create Rewrite HintDb weather_rw.
#[export] Hint Rewrite Qltb_inject_Z inject_Z_succ : weather_rw.

(** ** Lists: the maximum of a measure over a list *)

Section ListMax.
Context {A : Type} (f : A -> nat).

Lemma list_max_map_ub (l : list A) x : In x l -> (f x <= list_max (map f l))%nat.
Proof.
  intros Hx. assert (Hle := proj1 (list_max_le (map f l) _) (le_n _)).
  rewrite Forall_forall in Hle. apply Hle, list_elem_of_In, in_map, Hx.
Qed.

Lemma list_max_map_attained (l : list A) :
  l ≠ [] -> exists x, In x l /\ f x = list_max (map f l).
Proof.
  induction l as [|a l IH]; [done|]. intros _. simpl.
  destruct l as [|b l].
  - exists a. simpl. split; [by left | lia].
  - destruct IH as (x & Hx & Hfx); [done|].
    destruct (Nat.le_ge_cases (f a) (list_max (map f (b :: l)))).
    + exists x. split; [by right|]. lia.
    + exists a. split; [by left|]. lia.
Qed.
End ListMax.

Lemma Z_ltb_of_nat (a b : nat) : (Z.of_nat a <? Z.of_nat b)%Z = bool_decide (a < b)%nat.
Proof. destruct (Z.ltb_spec (Z.of_nat a) (Z.of_nat b)); case_bool_decide; lia. Qed.
#[export] Hint Rewrite Z_ltb_of_nat : weather_rw.

(** ** Strings: appending *)

(** stdpp makes [String.append] [simpl never]; its cons equation is
    applied by conversion. *)
Lemma string_app_cons x (a b : string) : (String x a ++ b)%string = String x (a ++ b).
Proof. reflexivity. Qed.

Lemma string_app_assoc (a b c : string) : (a ++ b ++ c)%string = ((a ++ b) ++ c)%string.
Proof. induction a as [|x a IH]; [done|]. by rewrite !string_app_cons, IH. Qed.

Lemma string_app_nil_r (a : string) : (a ++ EmptyString)%string = a.
Proof. induction a as [|x a IH]; [done|]. by rewrite string_app_cons, IH. Qed.
#[export] Hint Rewrite string_app_nil_r : weather_rw.

(** Unfold the effect monad's combinators to their state-passing code. *)
Ltac eff_unfold :=
  unfold mbind, mret, eff_bind_inst, eff_ret_inst, eff_bind, eff_ret, eff_get, eff_put,
    eff_emit, eff_throw, eff_catch, eff_finally, eff_lift, eff_modify, eff_focus, eff_map_out in *.
