(* ===== verification/JsValue.v ===== *)
(** * JavaScript values

    The part of the ECMAScript semantics the program relies on, written out
    so that the component models can use it: numbers with their special
    values, [ToNumber] on strings, the relational and strict-equality
    operators of [WeatherTrigger.isTriggered], truthiness, and property
    reads on a plain object literal ([{}]), whose missing keys fall back to
    [Object.prototype]. *)

From S2P Require Import Prelude.
From Stdlib Require Import Ascii String.
Open Scope string_scope.

(** ** Numbers

    A JavaScript number is an IEEE double.  The model keeps its special
    values ([NaN], the two infinities) and represents finite values exactly
    as rationals: rounding and overflow to infinity are not modelled, nor is
    the sign of zero. *)

Inductive num :=
| NaN
| NegInf
| PosInf
| Fin (q : Q).

Definition num_of_Z (z : Z) : num := Fin (inject_Z z).

Definition num_neg (a : num) : num :=
  match a with
  | NaN => NaN | NegInf => PosInf | PosInf => NegInf | Fin x => Fin (- x)
  end.

(** Number::add (ECMA-262 6.1.6.1.7). *)
Definition num_add (a b : num) : num :=
  match a, b with
  | NaN, _ | _, NaN => NaN
  | PosInf, NegInf | NegInf, PosInf => NaN
  | PosInf, _ | _, PosInf => PosInf
  | NegInf, _ | _, NegInf => NegInf
  | Fin x, Fin y => Fin (x + y)
  end.

(** Number::subtract is [x + (-y)]. *)
Definition num_sub (a b : num) : num := num_add a (num_neg b).

(** The sign of a non-NaN number. *)
Definition num_sign (a : num) : comparison :=
  match a with
  | NaN => Eq | NegInf => Lt | PosInf => Gt | Fin x => (x ?= 0)%Q
  end.

Definition inf_of_sign (c : comparison) : num :=
  match c with Lt => NegInf | Gt => PosInf | Eq => NaN end.

Definition sign_mul (c d : comparison) : comparison :=
  match c, d with
  | Eq, _ | _, Eq => Eq
  | Lt, Lt | Gt, Gt => Gt
  | _, _ => Lt
  end.

(** Number::multiply. *)
Definition num_mul (a b : num) : num :=
  match a, b with
  | NaN, _ | _, NaN => NaN
  | Fin x, Fin y => Fin (x * y)
  | _, _ => inf_of_sign (sign_mul (num_sign a) (num_sign b))
  end.

(** Number::divide; a finite number divided by zero is an infinity of its
    sign, [0/0] is [NaN]. *)
Definition num_div (a b : num) : num :=
  match a, b with
  | NaN, _ | _, NaN => NaN
  | Fin x, Fin y => if Qeq_bool y 0 then inf_of_sign (num_sign a) else Fin (x / y)
  | Fin _, _ => Fin 0
  | _, Fin _ => inf_of_sign (sign_mul (num_sign a) (match num_sign b with Eq => Gt | c => c end))
  | _, _ => NaN
  end.

(** Number::lessThan; [None] is the [undefined] result of a comparison with
    [NaN]. *)
Definition num_less (a b : num) : option bool :=
  match a, b with
  | NaN, _ | _, NaN => None
  | Fin x, Fin y => Some (Qltb x y)
  | NegInf, NegInf => Some false
  | NegInf, _ => Some true
  | PosInf, _ => Some false
  | Fin _, PosInf => Some true
  | Fin _, NegInf => Some false
  end.

(** Number::equal: [NaN] equals nothing. *)
Definition num_eqb (a b : num) : bool :=
  match a, b with
  | Fin x, Fin y => Qeq_bool x y
  | NegInf, NegInf | PosInf, PosInf => true
  | _, _ => false
  end.

(** ** Strings and [ToNumber]

    Strings are ASCII strings; code units beyond ASCII are not modelled.
    [string_to_number] is StringToNumber (ECMA-262 7.1.4.1.1) on them:
    surrounding white space is trimmed, the empty string is [0], then the
    whole rest must be a [StrDecimalLiteral] (with [Infinity] and an
    exponent) or a hexadecimal, octal or binary integer literal, and
    anything else is [NaN]. *)

Definition js_white_space (c : ascii) : bool :=
  bool_decide (nat_of_ascii c ∈ [9; 10; 11; 12; 13; 32]%nat).

Fixpoint drop_ws (l : list ascii) : list ascii :=
  match l with
  | c :: l' => if js_white_space c then drop_ws l' else l
  | [] => []
  end.

Definition trim_ws (l : list ascii) : list ascii := rev (drop_ws (rev (drop_ws l))).

Definition digit_value (base : Z) (c : ascii) : option Z :=
  let n := Z.of_nat (nat_of_ascii c) in
  let d := if (48 <=? n)%Z && (n <=? 57)%Z then Some (n - 48)%Z
           else if (97 <=? n)%Z && (n <=? 102)%Z then Some (n - 87)%Z
           else if (65 <=? n)%Z && (n <=? 70)%Z then Some (n - 55)%Z
           else None in
  match d with Some v => if (v <? base)%Z then Some v else None | None => None end.

(** The maximal run of digits at the head of the input. *)
Fixpoint take_digits (base : Z) (l : list ascii) : list Z * list ascii :=
  match l with
  | c :: l' =>
      match digit_value base c with
      | Some d => let '(ds, r) := take_digits base l' in (d :: ds, r)
      | None => ([], l)
      end
  | [] => ([], [])
  end.

Definition digits_to_Z (base : Z) (ds : list Z) : Z :=
  fold_left (fun acc d => acc * base + d)%Z ds 0%Z.

(** [m * 10^e] as an exact rational. *)
Definition scale10 (m e : Z) : Q :=
  if (0 <=? e)%Z then inject_Z (m * 10 ^ e) else Qmake m (Z.to_pos (10 ^ (- e))).

Definition ascii_list_eqb (l1 l2 : list ascii) : bool := bool_decide (l1 = l2).

(** [SignedInteger] of an exponent part, consuming the whole input. *)
Definition parse_exponent (l : list ascii) : option Z :=
  let '(sign, l') :=
    match l with
    | "+"%char :: r => (1%Z, r)
    | "-"%char :: r => ((-1)%Z, r)
    | _ => (1%Z, l)
    end in
  match take_digits 10 l' with
  | ([], _) => None
  | (ds, []) => Some (sign * digits_to_Z 10 ds)%Z
  | _ => None
  end.

(** [StrUnsignedDecimalLiteral], consuming the whole input. *)
Definition parse_unsigned_decimal (l : list ascii) : option num :=
  if ascii_list_eqb l (list_ascii_of_string "Infinity") then Some PosInf else
  let '(ip, r1) := take_digits 10 l in
  let '(fp, r2) :=
    match r1 with
    | "."%char :: r => take_digits 10 r
    | _ => ([], r1)
    end in
  let e :=
    match r2 with
    | [] => Some 0%Z
    | "e"%char :: r | "E"%char :: r => parse_exponent r
    | _ => None
    end in
  match ip, fp, e with
  | [], [], _ => None
  | _, _, None => None
  | _, _, Some ex =>
      Some (Fin (scale10 (digits_to_Z 10 (ip ++ fp)%list) (ex - Z.of_nat (List.length fp))))
  end.

Definition parse_str_decimal (l : list ascii) : option num :=
  match l with
  | "+"%char :: r => parse_unsigned_decimal r
  | "-"%char :: r => num_neg <$> parse_unsigned_decimal r
  | _ => parse_unsigned_decimal l
  end.

Definition non_decimal_base (c : ascii) : option Z :=
  match c with
  | "x"%char | "X"%char => Some 16%Z
  | "o"%char | "O"%char => Some 8%Z
  | "b"%char | "B"%char => Some 2%Z
  | _ => None
  end.

Definition parse_non_decimal (l : list ascii) : option num :=
  match l with
  | "0"%char :: c :: r =>
      match non_decimal_base c with
      | Some b =>
          match take_digits b r with
          | ([], _) => None
          | (ds, []) => Some (num_of_Z (digits_to_Z b ds))
          | _ => None
          end
      | None => None
      end
  | _ => None
  end.

Definition string_to_number (s : string) : num :=
  let l := trim_ws (list_ascii_of_string s) in
  match l with
  | [] => Fin 0
  | _ =>
      match parse_non_decimal l with
      | Some n => n
      | None => default NaN (parse_str_decimal l)
      end
  end.




(** ** Values *)

(** [JObj p] is an object; [p] is the string its [ToPrimitive] gives (its
    [toString()]), which is all the operators below observe of it. *)
Inductive jsval :=
| JUndef
| JNull
| JBool (b : bool)
| JNum (n : num)
| JStr (s : string)
| JObj (prim : string).

Definition to_primitive (v : jsval) : jsval :=
  match v with JObj p => JStr p | _ => v end.

(** ToNumber (ECMA-262 7.1.4). *)
Definition to_number (v : jsval) : num :=
  match to_primitive v with
  | JUndef => NaN
  | JNull => Fin 0
  | JBool b => if b then Fin 1 else Fin 0
  | JNum n => n
  | JStr s => string_to_number s
  | JObj _ => NaN
  end.

(** ToBoolean (ECMA-262 7.1.2). *)
Definition truthy (v : jsval) : bool :=
  match v with
  | JUndef | JNull => false
  | JBool b => b
  | JNum (Fin q) => negb (Qeq_bool q 0)
  | JNum NaN => false
  | JNum _ => true
  | JStr s => negb (String.eqb s EmptyString)
  | JObj _ => true
  end.

(** String comparison by code units: a proper prefix is smaller. *)
Definition string_ltb (a b : string) : bool :=
  match String.compare a b with Lt => true | _ => false end.

(** IsLessThan (ECMA-262 7.2.13); [None] is [undefined]. *)
Definition is_less_than (x y : jsval) : option bool :=
  match to_primitive x, to_primitive y with
  | JStr a, JStr b => Some (string_ltb a b)
  | px, py => num_less (to_number px) (to_number py)
  end.

(** The four relational operators (ECMA-262 13.10.1). *)
Definition js_lt (x y : jsval) : bool := default false (is_less_than x y).
Definition js_gt (x y : jsval) : bool := default false (is_less_than y x).
Definition js_le (x y : jsval) : bool :=
  match is_less_than y x with Some false => true | _ => false end.
Definition js_ge (x y : jsval) : bool :=
  match is_less_than x y with Some false => true | _ => false end.

(** IsStrictlyEqual (ECMA-262 7.2.15).  Objects compare by identity; the
    only objects in the model are the built-ins of [Object.prototype], each
    identified by its distinct [toString()]. *)
Definition strict_eq (x y : jsval) : bool :=
  match x, y with
  | JUndef, JUndef | JNull, JNull => true
  | JBool a, JBool b => Bool.eqb a b
  | JNum a, JNum b => num_eqb a b
  | JStr a, JStr b => String.eqb a b
  | JObj a, JObj b => String.eqb a b
  | _, _ => false
  end.

(** ** Plain objects

    A property read [o[k]] on an object created by the literal [{}] finds an
    own property first, then the properties of [Object.prototype]: its
    methods (functions) and the [__proto__] accessor, which returns
    [Object.prototype] itself.  The strings are those of Node's V8. *)

Definition object_prototype_keys : list string :=
  ["constructor"; "__defineGetter__"; "__defineSetter__"; "hasOwnProperty";
   "__lookupGetter__"; "__lookupSetter__"; "isPrototypeOf";
   "propertyIsEnumerable"; "toString"; "valueOf"; "__proto__"; "toLocaleString"].

Definition proto_get (k : string) : jsval :=
  if bool_decide (k = "__proto__") then JObj "[object Object]"
  else if bool_decide (k = "constructor") then JObj "function Object() { [native code] }"
  else if bool_decide (k ∈ object_prototype_keys)
  then JObj ("function " ++ k ++ "() { [native code] }")
  else JUndef.

(** A key that [Object.prototype] does not define: reading it on a fresh
    object gives [undefined], and writing it creates an own property. *)
Definition plain_key (k : string) : bool := bool_decide (k ∉ object_prototype_keys).

(** [o[k]] for an object whose own properties are numbers. *)
Definition obj_get (own : gmap string num) (k : string) : jsval :=
  match own !! k with Some n => JNum n | None => proto_get k end.

(** [o[k] = n] for a number [n]: the [__proto__] setter ignores a value that
    is not an object, every other key becomes an own data property. *)
Definition obj_set (own : gmap string num) (k : string) (n : num) : gmap string num :=
  if bool_decide (k = "__proto__") then own else <[k := n]> own.

(** ** Decimal text

    The text a user types for a number: a string of decimal digits. *)

Definition digit_char (d : Z) : ascii := ascii_of_nat (48 + Z.to_nat d).

Definition decimal_digits_string (ds : list Z) : string :=
  string_of_list_ascii (map digit_char ds).

Definition is_digit (d : Z) : Prop := (0 <= d < 10)%Z.

(** ** Lemmas *)

Lemma plain_key_not_proto k : plain_key k = true -> k ≠ "__proto__".
Proof. unfold plain_key. intros H ->. apply bool_decide_eq_true in H. apply H. set_solver. Qed.

Lemma proto_get_plain k : plain_key k = true -> proto_get k = JUndef.
Proof.
  unfold plain_key, proto_get. intros H. apply bool_decide_eq_true in H.
  repeat case_bool_decide; subst; try done; set_solver.
Qed.

Lemma obj_get_plain own k :
  plain_key k = true ->
  obj_get own k = match own !! k with Some n => JNum n | None => JUndef end.
Proof. intros H. unfold obj_get. by rewrite proto_get_plain. Qed.

Lemma obj_set_plain own k n : plain_key k = true -> obj_set own k n = <[k := n]> own.
Proof.
  intros H. unfold obj_set. rewrite bool_decide_eq_false_2; [done|]. by apply plain_key_not_proto.
Qed.

Lemma is_less_than_num a b : is_less_than (JNum a) (JNum b) = num_less a b.
Proof. reflexivity. Qed.

Lemma is_less_than_num_str n s :
  is_less_than (JNum n) (JStr s) = num_less n (string_to_number s).
Proof. reflexivity. Qed.

Lemma is_less_than_str_num s n :
  is_less_than (JStr s) (JNum n) = num_less (string_to_number s) n.
Proof. reflexivity. Qed.

Lemma to_number_num n : to_number (JNum n) = n.
Proof. reflexivity. Qed.

Lemma num_less_fin x y : num_less (Fin x) (Fin y) = Some (Qltb x y).
Proof. reflexivity. Qed.

Lemma truthy_num_of_Z z : truthy (JNum (num_of_Z z)) = negb (z =? 0)%Z.
Proof.
  unfold truthy, num_of_Z. f_equal. destruct (Z.eqb_spec z 0) as [->|Hz]; [done|].
  apply not_true_iff_false. rewrite Qeq_bool_iff. unfold Qeq; simpl. lia.
Qed.

Lemma num_add_of_Z a b : num_add (num_of_Z a) (num_of_Z b) = num_of_Z (a + b).
Proof. unfold num_of_Z; simpl. by rewrite inject_Z_plus. Qed.

Lemma js_gt_num_of_Z a b : js_gt (JNum (num_of_Z a)) (JNum (num_of_Z b)) = (b <? a)%Z.
Proof. unfold js_gt; simpl. by rewrite Qltb_inject_Z. Qed.

Lemma js_gt_fin x y : js_gt (JNum (Fin x)) (JNum (Fin y)) = Qltb y x.
Proof. reflexivity. Qed.

Lemma js_lt_fin x y : js_lt (JNum (Fin x)) (JNum (Fin y)) = Qltb x y.
Proof. reflexivity. Qed.

#[export] Hint Rewrite to_number_num js_gt_num_of_Z js_gt_fin js_lt_fin is_less_than_num is_less_than_num_str is_less_than_str_num
  num_less_fin num_add_of_Z : weather_rw.

Example string_to_number_tests :
  string_to_number "30" = num_of_Z 30 /\ string_to_number "  30 " = num_of_Z 30 /\
  string_to_number EmptyString = Fin 0 /\ string_to_number "abc" = NaN /\
  string_to_number "0x1F" = num_of_Z 31 /\ string_to_number "1e3" = num_of_Z 1000 /\
  string_to_number "-2.5" = Fin (Qmake (-25) 10) /\ string_to_number "." = NaN /\
  string_to_number "-Infinity" = NegInf /\ string_to_number "5." = num_of_Z 5.
Proof. vm_compute. repeat split. Qed.

Ltac enum_digit d :=
  let H := fresh in
  assert (H : d = 0%Z \/ d = 1%Z \/ d = 2%Z \/ d = 3%Z \/ d = 4%Z \/ d = 5%Z
              \/ d = 6%Z \/ d = 7%Z \/ d = 8%Z \/ d = 9%Z) by (unfold is_digit in *; lia);
  destruct_or! H; subst d.

Lemma digit_value_digit_char d : is_digit d -> digit_value 10 (digit_char d) = Some d.
Proof. intros Hd. enum_digit d; vm_compute; reflexivity. Qed.

Lemma js_white_space_digit d : is_digit d -> js_white_space (digit_char d) = false.
Proof. intros Hd. enum_digit d; vm_compute; reflexivity. Qed.

Lemma take_digits_cons base c l :
  take_digits base (c :: l) =
  match digit_value base c with
  | Some d => let '(ds, r) := take_digits base l in (d :: ds, r)
  | None => ([], c :: l)
  end.
Proof. reflexivity. Qed.

Lemma take_digits_digits ds :
  Forall is_digit ds -> take_digits 10 (map digit_char ds) = (ds, []).
Proof.
  induction 1 as [|d ds Hd _ IH]; [done|].
  rewrite map_cons, take_digits_cons, digit_value_digit_char, IH by done. done.
Qed.

Lemma drop_ws_digits ds :
  ds ≠ [] -> Forall is_digit ds -> drop_ws (map digit_char ds) = map digit_char ds.
Proof.
  intros Hne Hds. destruct ds as [|d ds']; [done|].
  apply Forall_cons in Hds as [Hd _]. rewrite map_cons. unfold drop_ws.
  by rewrite js_white_space_digit.
Qed.

Lemma trim_ws_digits ds :
  ds ≠ [] -> Forall is_digit ds -> trim_ws (map digit_char ds) = map digit_char ds.
Proof.
  intros Hne Hds. unfold trim_ws.
  rewrite drop_ws_digits, <- map_rev, drop_ws_digits, map_rev, rev_involutive; try done.
  - destruct ds as [|d ds']; [done|]. simpl. intros H. by apply app_eq_nil in H as [_ ?].
  - by apply List.Forall_rev.
Qed.

Lemma non_decimal_base_digit d : is_digit d -> non_decimal_base (digit_char d) = None.
Proof. intros Hd. enum_digit d; reflexivity. Qed.

Lemma parse_non_decimal_digits ds :
  Forall is_digit ds -> parse_non_decimal (map digit_char ds) = None.
Proof.
  intros Hds. destruct ds as [|d0 [|d1 ds']]; [done| |].
  - apply Forall_cons in Hds as [Hd0 _]. enum_digit d0; reflexivity.
  - apply Forall_cons in Hds as [Hd0 Hds]. apply Forall_cons in Hds as [Hd1 _].
    rewrite !map_cons. destruct (decide (d0 = 0%Z)) as [->|Hne].
    + change (digit_char 0) with "0"%char. unfold parse_non_decimal.
      by rewrite non_decimal_base_digit.
    + enum_digit d0; try done; reflexivity.
Qed.

Lemma parse_str_decimal_digits d ds :
  is_digit d ->
  parse_str_decimal (digit_char d :: ds) = parse_unsigned_decimal (digit_char d :: ds).
Proof. intros Hd. enum_digit d; reflexivity. Qed.

Lemma not_infinity_digits d ds :
  is_digit d -> ascii_list_eqb (digit_char d :: ds) (list_ascii_of_string "Infinity") = false.
Proof. intros Hd. enum_digit d; reflexivity. Qed.

(** ToNumber of a string of decimal digits is the number they denote: the
    parser inverts the decimal notation. *)
Lemma string_to_number_digits ds :
  ds ≠ [] -> Forall is_digit ds ->
  string_to_number (decimal_digits_string ds) = num_of_Z (digits_to_Z 10 ds).
Proof.
  intros Hne Hds. unfold string_to_number, decimal_digits_string.
  rewrite list_ascii_of_string_of_list_ascii, trim_ws_digits, parse_non_decimal_digits by done.
  destruct ds as [|d ds']; [done|]. pose proof (Forall_inv Hds) as Hd.
  rewrite map_cons, parse_str_decimal_digits by done.
  unfold parse_unsigned_decimal. rewrite not_infinity_digits, <- map_cons, take_digits_digits by done.
  cbv beta iota zeta. unfold default, scale10. rewrite app_nil_r. simpl Z.sub.
  by rewrite Z.mul_1_r.
Qed.
