(* ===== verification/Dates.v ===== *)
(** * Dates: JavaScript time values

    The part of [Date] the program uses: [getDate] and [setDate] (the save
    job's "yesterday", [src/cron/weather_save_cron.js] line 11) and
    [toISOString] (the timestamp of every line [logErrorToFile] writes,
    [src/utils/utils.js] line 14).  A time value is an integer number of
    milliseconds since 1970-01-01T00:00:00Z.  [getDate] and [setDate]
    use the process's local time zone; the model takes it to be UTC, the
    zone both cron jobs are scheduled in.  The calendar is Hinnant's
    [civil_from_days]; its month and day are bounded by a computation over
    one 400-year era, the period of the Gregorian calendar. *)

From S2P Require Import Prelude.
From Stdlib Require Import Ascii String DecimalString DecimalN.
Local Open Scope Z_scope.

(** ** Time values

    A JavaScript [Date] is a time value in milliseconds since the epoch.
    The process is taken to run with [TZ=UTC], so local time is UTC. *)

Definition msPerDay : Z := 86400000.

(** [Day(t)] (ECMA-262 21.4.1.3). *)
Definition Day (t : Z) : Z := t / msPerDay.

(** The proleptic Gregorian date (year, month 1-12, day 1-31) of a day
    number counted from 1970-01-01. *)
Definition civil_from_days (z0 : Z) : Z * Z * Z :=
  let z := z0 + 719468 in
  let era := z / 146097 in
  let doe := z - era * 146097 in
  let yoe := (doe - doe / 1460 + doe / 36524 - doe / 146096) / 365 in
  let y := yoe + era * 400 in
  let doy := doe - (365 * yoe + yoe / 4 - yoe / 100) in
  let mp := (5 * doy + 2) / 153 in
  let d := doy - (153 * mp + 2) / 5 + 1 in
  let m := if mp <? 10 then mp + 3 else mp - 9 in
  ((if m <=? 2 then y + 1 else y), m, d)%Z.

(** [date.getDate()]: DateFromTime (ECMA-262 21.4.1.9). *)
Definition getDate (t : Z) : Z := (civil_from_days (Day t)).2.

(** [date.setDate(dt)]: the same year, month and time of day with the day
    of the month replaced by [dt], which may lie outside the month
    ([MakeDay] counts days from the first of the month). *)
Definition setDate (t dt : Z) : Z := (t + (dt - getDate t) * msPerDay)%Z.


(** The year offset within its 400-year era, the month and the day, as
    [civil_from_days] computes them from the day of the era [doe]. *)
Definition civil_of_doe (doe : Z) : Z * Z * Z :=
  let yoe := (doe - doe / 1460 + doe / 36524 - doe / 146096) / 365 in
  let doy := doe - (365 * yoe + yoe / 4 - yoe / 100) in
  let mp := (5 * doy + 2) / 153 in
  let d := doy - (153 * mp + 2) / 5 + 1 in
  let m := if mp <? 10 then mp + 3 else mp - 9 in
  ((if m <=? 2 then yoe + 1 else yoe), m, d).

(** [HourFromTime], [MinFromTime], [SecFromTime], [msFromTime] (ECMA-262
    21.4.1.14). *)
Definition HourFromTime (t : Z) : Z := (t / 3600000) mod 24.
Definition MinFromTime (t : Z) : Z := (t / 60000) mod 60.
Definition SecFromTime (t : Z) : Z := (t / 1000) mod 60.
Definition msFromTime (t : Z) : Z := t mod 1000.

(** The decimal digits of a non-negative integer, and left padding with
    zeros to a width. *)
Definition decimal (n : Z) : string := NilEmpty.string_of_uint (N.to_uint (Z.to_N n)).
Definition zero_pad (w : nat) (s : string) : string :=
  (string_of_list_ascii (repeat "0"%char (w - String.length s)) ++ s)%string.

(** The year field: four digits for years 0 to 9999, otherwise a sign and
    six digits (the expanded years of ECMA-262 21.4.1.32). *)
Definition year_string (y : Z) : string :=
  if ((0 <=? y) && (y <=? 9999))%Z then zero_pad 4 (decimal y)
  else ((if (y <? 0)%Z then "-" else "+") ++ zero_pad 6 (decimal (Z.abs y)))%string.

(** [Date.prototype.toISOString] (ECMA-262 21.4.4.36) on a valid time
    value: [YYYY-MM-DDTHH:mm:ss.sssZ]. *)
Definition toISOString (t : Z) : string :=
  let '(y, m, d) := civil_from_days (Day t) in
  (year_string y ++ "-" ++ zero_pad 2 (decimal m) ++ "-" ++ zero_pad 2 (decimal d) ++ "T" ++
   zero_pad 2 (decimal (HourFromTime t)) ++ ":" ++ zero_pad 2 (decimal (MinFromTime t)) ++ ":" ++
   zero_pad 2 (decimal (SecFromTime t)) ++ "." ++ zero_pad 3 (decimal (msFromTime t)) ++ "Z")%string.

(** The last time value [toISOString] writes with a four-digit year:
    9999-12-31T23:59:59.999Z. *)
Definition max_four_digit_time : Z := 253402300799999.

(** ** The calendar over one era *)

(** What one era of [civil_of_doe] satisfies: month in 1..12, day in
    1..31, year offset in 0..400, and at most 399 up to the day of era of
    9999-12-31. *)
Definition era_ok (doe : Z) : bool :=
  let '(o, m, d) := civil_of_doe doe in
  ((1 <=? m) && (m <=? 12) && (1 <=? d) && (d <=? 31) && (0 <=? o) && (o <=? 400)
   && (negb (doe <=? 146036) || (o <=? 399)))%Z.

(** A boolean property on the [n] integers from [z] on. *)
(** The day of the month after the day [doe] of an era is the next
    number, or the 1st after a day of at least 28. *)
Definition next_day_ok (doe : Z) : bool :=
  let d := (civil_of_doe doe).2 in
  let d' := (civil_of_doe ((doe + 1) mod 146097)).2 in
  (d' =? d + 1) || ((d' =? 1) && (28 <=? d)).

Fixpoint all_from (p : Z -> bool) (n : nat) (z : Z) : bool :=
  match n with
  | O => true
  | S n' => p z && all_from p n' (z + 1)
  end.

(** The decimal digits of [n] fit in [w] characters. *)
Definition decimal_fits (w : nat) (n : Z) : bool := (String.length (decimal n) <=? w)%nat.

(** ** Facts on the calendar and on [toISOString] *)

Lemma all_from_spec p n z k : all_from p n z = true -> z <= k < z + Z.of_nat n -> p k = true.
Proof.
  revert z. induction n as [|n IH]; intros z; cbn [all_from]; [lia|].
  intros [Hz Hn]%andb_prop Hk. destruct (Z.eq_dec k z) as [->|Hne]; [done|].
  apply (IH (z + 1)); [done | lia].
Qed.

Lemma era_check : all_from era_ok 146097 0 = true.
Proof. vm_compute. reflexivity. Qed.

Lemma era_ok_all doe : 0 <= doe < 146097 -> era_ok doe = true.
Proof.
  intros H. apply (all_from_spec era_ok 146097 0); [exact era_check|].
  replace (Z.of_nat 146097) with 146097 by (vm_compute; reflexivity). lia.
Qed.

(** [civil_from_days] is the era's year plus what [civil_of_doe] gives on
    the day of the era. *)
Lemma civil_from_days_doe z0 :
  civil_from_days z0 =
  let '(o, m, d) := civil_of_doe ((z0 + 719468) mod 146097) in
  (o + (z0 + 719468) / 146097 * 400, m, d).
Proof.
  unfold civil_from_days, civil_of_doe.
  rewrite (Z.mod_eq (z0 + 719468) 146097) by lia.
  replace ((z0 + 719468) - 146097 * ((z0 + 719468) / 146097))
    with (z0 + 719468 - (z0 + 719468) / 146097 * 146097) by lia.
  cbv zeta. destruct (_ <? 10); destruct (_ <=? 2); f_equal; f_equal; lia.
Qed.

Lemma next_day_check : all_from next_day_ok 146097 0 = true.
Proof. vm_compute. reflexivity. Qed.

Lemma civil_day_of_doe z0 :
  (civil_from_days z0).2 = (civil_of_doe ((z0 + 719468) mod 146097)).2.
Proof. rewrite civil_from_days_doe. by destruct (civil_of_doe _) as [[o m] d]. Qed.

(** The day of the month of the next day. *)
Lemma getDate_next_day tA tB :
  Day tB = Day tA + 1 ->
  getDate tB = getDate tA + 1 \/ (getDate tB = 1 /\ 28 <= getDate tA).
Proof.
  intros H. unfold getDate. rewrite H, !civil_day_of_doe.
  set (doe := (Day tA + 719468) mod 146097).
  assert (Hd : 0 <= doe < 146097) by (apply Z.mod_pos_bound; lia).
  replace ((Day tA + 1 + 719468) mod 146097) with ((doe + 1) mod 146097)
    by (unfold doe; rewrite Zplus_mod_idemp_l; f_equal; lia).
  pose proof (all_from_spec next_day_ok 146097 0 doe next_day_check) as Hn.
  replace (Z.of_nat 146097) with 146097 in Hn by (vm_compute; reflexivity).
  specialize (Hn ltac:(lia)). unfold next_day_ok in Hn.
  apply orb_prop in Hn as [Hn|Hn]; [left; lia|]. apply andb_prop in Hn as [H1 H2]. right. lia.
Qed.

Lemma civil_bounds z0 :
  let '(y, m, d) := civil_from_days z0 in 1 <= m <= 12 /\ 1 <= d <= 31.
Proof.
  rewrite civil_from_days_doe.
  pose proof (era_ok_all ((z0 + 719468) mod 146097) (Z.mod_pos_bound _ 146097 ltac:(lia))) as H.
  unfold era_ok in H. destruct (civil_of_doe _) as [[o m] d].
  repeat (apply andb_prop in H as [H ?]). lia.
Qed.

Lemma getDate_bounds t : 1 <= getDate t <= 31.
Proof.
  unfold getDate. pose proof (civil_bounds (Day t)) as H.
  destruct (civil_from_days (Day t)) as [[y m] d]. cbn. lia.
Qed.

Lemma civil_year_bounds z0 :
  0 <= z0 <= 2932896 -> let '(y, m, d) := civil_from_days z0 in 0 <= y <= 9999.
Proof.
  intros Hz. rewrite civil_from_days_doe.
  pose proof (Z.mod_pos_bound (z0 + 719468) 146097 ltac:(lia)) as Hb.
  pose proof (era_ok_all _ Hb) as H. pose proof (Z.div_mod (z0 + 719468) 146097 ltac:(lia)).
  unfold era_ok in H. destruct (civil_of_doe _) as [[o m] d].
  repeat (apply andb_prop in H as [H ?]).
  assert (4 <= (z0 + 719468) / 146097 < 25)
    by (split; [apply Z.div_le_lower_bound | apply Z.div_lt_upper_bound]; lia).
  destruct (Z.eq_dec ((z0 + 719468) / 146097) 24) as [He|He].
  - assert ((z0 + 719468) mod 146097 <= 146036) by lia.
    rewrite orb_true_iff, negb_true_iff, Z.leb_gt, Z.leb_le in *. lia.
  - lia.
Qed.


Lemma string_length_append s1 s2 :
  String.length (s1 ++ s2)%string = (String.length s1 + String.length s2)%nat.
Proof. induction s1 as [|c s1 IH]; simpl; [reflexivity|]. by rewrite IH. Qed.

Lemma length_string_of_list_ascii l : String.length (string_of_list_ascii l) = List.length l.
Proof. induction l as [|c l IH]; simpl; [reflexivity|]. by rewrite IH. Qed.

Lemma zero_pad_length w s : (String.length s <= w)%nat -> String.length (zero_pad w s) = w.
Proof.
  intros H. unfold zero_pad. rewrite string_length_append, length_string_of_list_ascii, repeat_length.
  lia.
Qed.

Lemma decimal_fits_range w n k :
  all_from (decimal_fits w) k 0 = true -> 0 <= n < Z.of_nat k ->
  (String.length (decimal n) <= w)%nat.
Proof.
  intros Hall Hn. apply Nat.leb_le. apply (all_from_spec (decimal_fits w) k 0 n Hall). lia.
Qed.

Lemma decimal_fits_2 n : 0 <= n < 100 -> (String.length (decimal n) <= 2)%nat.
Proof.
  intros H. apply (decimal_fits_range 2 n 100); [vm_compute; reflexivity|].
  replace (Z.of_nat 100) with 100 by (vm_compute; reflexivity). lia.
Qed.

Lemma decimal_fits_3 n : 0 <= n < 1000 -> (String.length (decimal n) <= 3)%nat.
Proof.
  intros H. apply (decimal_fits_range 3 n 1000); [vm_compute; reflexivity|].
  replace (Z.of_nat 1000) with 1000 by (vm_compute; reflexivity). lia.
Qed.

Lemma decimal_fits_4 n : 0 <= n < 10000 -> (String.length (decimal n) <= 4)%nat.
Proof.
  intros H. apply (decimal_fits_range 4 n 10000); [vm_compute; reflexivity|].
  replace (Z.of_nat 10000) with 10000 by (vm_compute; reflexivity). lia.
Qed.

Lemma pad2_length n : 0 <= n < 100 -> String.length (zero_pad 2 (decimal n)) = 2%nat.
Proof. intros H. by apply zero_pad_length, decimal_fits_2. Qed.

(** On the time values of years 1970 to 9999, [toISOString] writes
    exactly 24 characters. *)
Lemma toISOString_length t :
  0 <= t <= max_four_digit_time -> String.length (toISOString t) = 24%nat.
Proof.
  intros Ht. unfold toISOString.
  assert (HD : 0 <= Day t < 2932897)
    by (unfold Day, msPerDay, max_four_digit_time in *; split;
        [apply Z.div_pos | apply Z.div_lt_upper_bound]; lia).
  assert (HD' : 0 <= Day t <= 2932896) by lia.
  pose proof (civil_bounds (Day t)) as Hb. pose proof (civil_year_bounds (Day t) HD') as Hy.
  destruct (civil_from_days (Day t)) as [[y m] d].
  assert (Hys : year_string y = zero_pad 4 (decimal y))
    by (unfold year_string; by rewrite (proj2 (andb_true_iff _ _) (conj (proj2 (Z.leb_le _ _) (proj1 Hy))
                                                            (proj2 (Z.leb_le _ _) (proj2 Hy))))).
  rewrite Hys. rewrite !string_length_append.
  rewrite zero_pad_length by (apply decimal_fits_4; lia).
  unfold HourFromTime, MinFromTime, SecFromTime, msFromTime.
  rewrite !pad2_length
    by (lia || match goal with |- context [?a mod ?b] => pose proof (Z.mod_pos_bound a b); lia end).
  rewrite zero_pad_length by (apply decimal_fits_3; pose proof (Z.mod_pos_bound t 1000); lia).
  reflexivity.
Qed.
