(* ===== verification/Schedule.v ===== *)
(** * Schedule: when the two jobs fire

    [createWeatherCron] schedules the polling job with the expression
    ["*/1 * * * *"] ([src/cron/weather_cron.js] line 13) and
    [saveWeatherCronJob] the persistence job with ["*/3 * * * *"]
    ([src/cron/weather_save_cron.js] line 6), both in the time zone UTC;
    the line after it, commented out, schedules it with ["00 00 * * *"].
    node-cron reads five fields (minute, hour, day of month, month, day of
    week) and fires at second 0 of every minute all five fields match.
    Only the field forms the program uses are modelled: [*], [*/n] and a
    number.  A task pairs the expression with the options object passed
    to [cron.schedule] ([scheduled], [timezone]); only the zone the program
    names, UTC, is modelled. *)

From S2P Require Import Prelude Dates.
From Stdlib Require Import Ascii String.
Local Open Scope Z_scope.

Inductive cron_field :=
| AnyValue               (* * *)
| StepValue (n : Z)      (* */n: every value divisible by n *)
| FixedValue (v : Z).    (* a number *)

Record cron_expr := mk_cron {
  c_minute : cron_field;
  c_hour : cron_field;
  c_day : cron_field;
  c_month : cron_field;
  c_weekday : cron_field;
}.

(** Splitting on spaces, dropping empty words. *)
Fixpoint words_acc (l : list ascii) (cur : list ascii) : list (list ascii) :=
  match l with
  | [] => match cur with [] => [] | _ => [rev cur] end
  | c :: l' =>
      if Ascii.eqb c " "%char then
        match cur with [] => words_acc l' [] | _ => rev cur :: words_acc l' [] end
      else words_acc l' (c :: cur)
  end.

Definition digit_of (c : ascii) : option Z :=
  let n := Z.of_nat (nat_of_ascii c) in
  if (48 <=? n) && (n <=? 57) then Some (n - 48) else None.

Fixpoint number_acc (l : list ascii) (acc : Z) : option Z :=
  match l with
  | [] => Some acc
  | c :: l' => match digit_of c with Some d => number_acc l' (10 * acc + d) | None => None end
  end.

Definition parse_number (l : list ascii) : option Z :=
  match l with [] => None | _ => number_acc l 0 end.

Definition parse_field (w : list ascii) : option cron_field :=
  match w with
  | ["*"%char] => Some AnyValue
  | "*"%char :: "/"%char :: n => option_map StepValue (parse_number n)
  | _ => option_map FixedValue (parse_number w)
  end.

(** A five-field expression. *)
Definition parse_cron (s : string) : option cron_expr :=
  match map parse_field (words_acc (list_ascii_of_string s) []) with
  | [Some mi; Some h; Some d; Some mo; Some wd] => Some (mk_cron mi h d mo wd)
  | _ => None
  end.

Definition field_matches (f : cron_field) (v : Z) : bool :=
  match f with
  | AnyValue => true
  | StepValue n => (n >? 0) && (v mod n =? 0)
  | FixedValue k => v =? k
  end.

(** Whether an expression fires at time [t] (UTC). *)
Definition cron_matches (e : cron_expr) (t : Z) : bool :=
  let '(_, month, day) := civil_from_days (Day t) in
  (t mod 60000 =? 0) && field_matches (c_minute e) (MinFromTime t)
  && field_matches (c_hour e) (HourFromTime t) && field_matches (c_day e) day
  && field_matches (c_month e) month && field_matches (c_weekday e) ((Day t + 4) mod 7).

(** Whether the expression text fires at [t]; an expression node-cron
    would reject never fires. *)
Definition schedule_fires (expr : string) (t : Z) : bool :=
  match parse_cron expr with Some e => cron_matches e t | None => false end.

(** The expressions of the two jobs, and the daily one left in a comment. *)
Definition poll_schedule : string := "*/1 * * * *".
Definition save_schedule : string := "*/3 * * * *".
Definition commented_daily_schedule : string := "00 00 * * *".

(** The number of firings in the UTC day [d]: one check per minute start,
    the only instants an expression can match. *)
Definition firings_in_day (expr : string) (d : Z) : nat :=
  List.length (List.filter (fun k => schedule_fires expr (d * msPerDay + Z.of_nat k * 60000)) (seq 0 1440)).

(** The options object passed to [cron.schedule]: whether the task starts
    at once (node-cron's default when the key is missing is [true]) and the
    time zone its fields are read in. *)
Record cron_options := mk_options { scheduled : bool; timezone : string }.

(** A scheduled task: the expression and its options (the handler is the
    [Crons] model). *)
Record cron_task := mk_task { task_expression : string; task_options : cron_options }.

(** The offset from UTC, in milliseconds, of the zones the program names;
    other zones are outside the model. *)
Definition zone_offset (tz : string) : option Z :=
  if String.eqb tz "UTC" then Some 0 else None.

(** Whether a task fires at the UTC time [t]. *)
Definition task_fires (k : cron_task) (t : Z) : bool :=
  scheduled (task_options k) &&
  match zone_offset (timezone (task_options k)) with
  | Some off => schedule_fires (task_expression k) (t + off)
  | None => false
  end.

(** [{ scheduled: true, timezone: 'UTC' }] of [createWeatherCron]. *)
Definition createWeatherCron_options : cron_options := mk_options true "UTC".

(** [{ timezone: 'UTC' }] of [saveWeatherCronJob]; [scheduled] takes its
    default. *)
Definition saveWeatherCronJob_options : cron_options := mk_options true "UTC".

Definition createWeatherCron_task : cron_task := mk_task poll_schedule createWeatherCron_options.
Definition saveWeatherCronJob_task : cron_task := mk_task save_schedule saveWeatherCronJob_options.

(** The number of firings of a task in the UTC day [d]. *)
Definition task_firings_in_day (k : cron_task) (d : Z) : nat :=
  List.length (List.filter (fun m => task_fires k (d * msPerDay + Z.of_nat m * 60000)) (seq 0 1440)).

(** The part of [cron_matches] that depends only on the day. *)
Definition day_matches (e : cron_expr) (d : Z) : bool :=
  let '(_, month, day) := civil_from_days d in
  field_matches (c_day e) day && field_matches (c_month e) month && field_matches (c_weekday e) ((d + 4) mod 7).

(** ** Facts on the schedules *)

Lemma minute_start_fields d k :
  0 <= k < 1440 ->
  (d * msPerDay + k * 60000) mod 60000 = 0 /\ MinFromTime (d * msPerDay + k * 60000) = k mod 60 /\
  HourFromTime (d * msPerDay + k * 60000) = k / 60 /\ Day (d * msPerDay + k * 60000) = d.
Proof.
  intros Hk. unfold MinFromTime, HourFromTime, Day, msPerDay.
  replace (d * 86400000 + k * 60000) with ((d * 1440 + k) * 60000) by ring.
  rewrite Z.mod_mul, Z.div_mul by lia. split_and!; [done| |  |].
  - replace (d * 1440 + k) with (k + (d * 24) * 60) by ring. by rewrite Z.mod_add by lia.
  - replace ((d * 1440 + k) * 60000) with (k * 60000 + (d * 24) * 3600000) by ring.
    rewrite Z.div_add by lia. replace 3600000 with (60 * 60000) by reflexivity.
    rewrite Z.div_mul_cancel_r by lia. rewrite Z.mod_add by lia.
    apply Z.mod_small. split; [apply Z.div_pos | apply Z.div_lt_upper_bound]; lia.
  - replace ((d * 1440 + k) * 60000) with (k * 60000 + d * 86400000) by ring.
    rewrite Z.div_add by lia. rewrite (Z.div_small (k * 60000)) by lia. lia.
Qed.

Lemma cron_matches_minute_start e d k :
  0 <= k < 1440 ->
  cron_matches e (d * msPerDay + k * 60000) =
  field_matches (c_minute e) (k mod 60) && field_matches (c_hour e) (k / 60) && day_matches e d.
Proof.
  intros Hk. destruct (minute_start_fields d k Hk) as (H0 & Hm & Hh & Hd).
  unfold cron_matches, day_matches. rewrite Hd, H0, Hm, Hh.
  destruct (civil_from_days d) as [[y mo] dy]. cbn [Z.eqb]. by rewrite <- !andb_assoc.
Qed.

(** Counting the firings of a parsed expression over the minutes of a day:
    the day either matches, and then the minute and hour fields decide, or
    it does not and nothing fires. *)
Lemma firings_in_day_parsed expr e d :
  parse_cron expr = Some e ->
  firings_in_day expr d =
  if day_matches e d
  then List.length (List.filter (fun k => field_matches (c_minute e) (Z.of_nat k mod 60)
                                          && field_matches (c_hour e) (Z.of_nat k / 60)) (seq 0 1440))
  else 0%nat.
Proof.
  intros He. unfold firings_in_day, schedule_fires. rewrite He.
  rewrite (filter_ext_in _ (fun k => field_matches (c_minute e) (Z.of_nat k mod 60)
                                     && field_matches (c_hour e) (Z.of_nat k / 60) && day_matches e d)).
  2: { intros k Hk%in_seq. apply cron_matches_minute_start. lia. }
  destruct (day_matches e d).
  - f_equal. apply filter_ext. intros k. apply andb_true_r.
  - rewrite (filter_ext _ (fun _ => false)) by (intros k; apply andb_false_r).
    by induction (seq 0 1440).
Qed.

Lemma day_matches_any e d :
  c_day e = AnyValue -> c_month e = AnyValue -> c_weekday e = AnyValue -> day_matches e d = true.
Proof.
  intros H1 H2 H3. unfold day_matches. rewrite H1, H2, H3. by destruct (civil_from_days d) as [[? ?] ?].
Qed.

(** A started task read in UTC fires exactly when its expression does. *)
Lemma task_fires_utc k t :
  scheduled (task_options k) = true -> timezone (task_options k) = "UTC" ->
  task_fires k t = schedule_fires (task_expression k) t.
Proof.
  intros Hs Hz. unfold task_fires. rewrite Hs, Hz. unfold zone_offset. rewrite String.eqb_refl.
  by rewrite andb_true_l, Z.add_0_r.
Qed.

Lemma task_firings_utc k d :
  scheduled (task_options k) = true -> timezone (task_options k) = "UTC" ->
  task_firings_in_day k d = firings_in_day (task_expression k) d.
Proof.
  intros Hs Hz. unfold task_firings_in_day, firings_in_day.
  apply (f_equal _), filter_ext. intros m. by apply task_fires_utc.
Qed.

(** node-cron fires only at the start of a minute. *)
Lemma schedule_fires_minute expr t : schedule_fires expr t = true -> t mod 60000 = 0.
Proof.
  unfold schedule_fires. destruct (parse_cron expr) as [e|]; [|done]. unfold cron_matches.
  destruct (civil_from_days (Day t)) as [[y mo] dy]. intros H.
  repeat (apply andb_prop in H as [H _]). by apply Z.eqb_eq.
Qed.

(** A minute start of the UTC day [d] is [d * msPerDay + k * 60000] for
    the minute [k] of the day. *)
Lemma minute_of_day d t :
  t mod 60000 = 0 -> d * msPerDay <= t < (d + 1) * msPerDay ->
  (Z.to_nat ((t - d * msPerDay) / 60000) < 1440)%nat /\
  t = d * msPerDay + Z.of_nat (Z.to_nat ((t - d * msPerDay) / 60000)) * 60000.
Proof.
  unfold msPerDay. intros Hm Ht.
  assert (Hu : (t - d * 86400000) mod 60000 = 0).
  { replace (t - d * 86400000) with (t + (- d * 1440) * 60000) by ring. by rewrite Z.mod_add. }
  pose proof (Z.div_exact (t - d * 86400000) 60000 ltac:(lia)) as Hx.
  assert (0 <= (t - d * 86400000) / 60000 < 1440).
  { split; [apply Z.div_pos | apply Z.div_lt_upper_bound]; lia. }
  rewrite Z2Nat.id by lia. split; [lia|]. apply Hx in Hu. lia.
Qed.

(** Distinct instants of one UTC day at which a started UTC task fires
    are at most as many as its firings that day. *)
Lemma task_fire_times_bound k d (ts : list Z) :
  scheduled (task_options k) = true -> timezone (task_options k) = "UTC" ->
  NoDup ts ->
  Forall (fun t => task_fires k t = true /\ d * msPerDay <= t < (d + 1) * msPerDay) ts ->
  (List.length ts <= task_firings_in_day k d)%nat.
Proof.
  intros Hs Hz Hnd Hts. set (f t := Z.to_nat ((t - d * msPerDay) / 60000)).
  assert (Hf : forall t, t ∈ ts -> task_fires k t = true /\
                 (f t < 1440)%nat /\ t = d * msPerDay + Z.of_nat (f t) * 60000).
  { intros t Ht. rewrite Forall_forall in Hts. destruct (Hts t Ht) as [Hfire Hday].
    split; [done|]. apply minute_of_day; [|done].
    rewrite task_fires_utc in Hfire by done. by apply schedule_fires_minute in Hfire. }
  rewrite <- (length_fmap f ts). unfold task_firings_in_day. apply submseteq_length, NoDup_submseteq.
  - apply NoDup_fmap_2_strong; [|done]. intros x y Hx Hy Hxy.
    rewrite (proj2 (proj2 (Hf x Hx))), (proj2 (proj2 (Hf y Hy))). by rewrite Hxy.
  - intros m (t & -> & Ht)%list_elem_of_fmap. destruct (Hf t Ht) as (Hfire & Hlt & Heq).
    apply list_elem_of_In, filter_In. split.
    + apply in_seq. lia.
    + by rewrite <- Heq.
Qed.

(** The firings per day of the two tasks. *)
Lemma saveWeatherCronJob_task_firings d : task_firings_in_day saveWeatherCronJob_task d = 480%nat.
Proof.
  rewrite task_firings_utc by reflexivity.
  erewrite firings_in_day_parsed; [|vm_compute; reflexivity].
  rewrite day_matches_any by reflexivity. vm_compute. reflexivity.
Qed.

Module ScheduleProps.

(** C16. Every UTC day the persistence task, documented as running at
    00:00 and named "daily", fires 480 times (every third minute) and the
    polling task, documented as running every 5 minutes, 1440 times, both
    with their options (started, zone UTC); the daily expression left in a
    comment, with the same options, would fire once. *)
Theorem save_schedule_fires_480_times_a_day d :
  task_firings_in_day saveWeatherCronJob_task d = 480%nat /\
  task_firings_in_day createWeatherCron_task d = 1440%nat /\
  task_firings_in_day (mk_task commented_daily_schedule saveWeatherCronJob_options) d = 1%nat.
Proof.
  split; [apply saveWeatherCronJob_task_firings|].
  rewrite !task_firings_utc by reflexivity. cbn [task_expression createWeatherCron_task].
  split;
    (erewrite firings_in_day_parsed; [|vm_compute; reflexivity]);
    (rewrite day_matches_any by reflexivity); vm_compute; reflexivity.
Qed.
End ScheduleProps.
