(* ===== verification/WeatherStats.v ===== *)
(** * WeatherStats: the running statistics of one city

    Models [src/services/weather_stats.js]: the class [WeatherStats], its
    constructor and [resetStats], [add_stats], [getAverageTemperature] and
    [getDailySummary].  The frequency table [weatherFrequency] is the plain
    object literal [{}] of the source, modelled with the property-read rules
    of [JsValue] (own numeric properties in a [gmap], [Object.prototype]
    behind them).  The second half states the aggregate the class promises
    as a reference definition over the history of observations and proves
    that the incremental code computes it. *)

From S2P Require Import Prelude JsValue.
From Stdlib Require Import Ascii String.
Open Scope string_scope.

(** The argument of [add_stats] ([weather_data] in the source), as built by
    [WeatherManager.addWeatherData] from the provider's response. *)
Module WeatherData.
Record t := mk {
  temperature : num;
  maxTemperature : num;
  minTemperature : num;
  condition : string;
}.
End WeatherData.

(** The object returned by [getDailySummary]. *)
Module DailySummary.
Record t := mk {
  city : string;
  maxTemperature : num;
  minTemperature : num;
  avgTemperature : num;
  dominantWeather : string;
  dominantWeatherFrequency : jsval;
}.
End DailySummary.

Module WeatherStats.

(** The fields of a [WeatherStats] instance. *)
Record t := mk {
  city : string;
  temperatures : list num;
  maxTemperature : num;
  minTemperature : num;
  sumTemperature : num;
  weatherFrequency : gmap string num;
  dominantWeather : string;
  dominantWeatherFrequency : jsval;
}.

(** [resetStats()] (lines 10-18): every field but [city] back to its
    initial value. *)
Definition resetStats (s : t) : t :=
  {| city := city s;
     temperatures := [];
     maxTemperature := NegInf;
     minTemperature := PosInf;
     sumTemperature := Fin 0;
     weatherFrequency := ∅;
     dominantWeather := EmptyString;
     dominantWeatherFrequency := JNum (Fin 0) |}.

(** [new WeatherStats(city)] (lines 2-5): set [city], then [resetStats]. *)
Definition create (c : string) : t :=
  resetStats {| city := c; temperatures := []; maxTemperature := NaN;
                minTemperature := NaN; sumTemperature := NaN;
                weatherFrequency := ∅; dominantWeather := EmptyString;
                dominantWeatherFrequency := JUndef |}.

(** Step 2 of [add_stats] (lines 47-51): [if (freq[c]) freq[c]++ else
    freq[c] = 1], with the JavaScript reading of [freq[c]]. *)
Definition bump_frequency (freq : gmap string num) (c : string) : gmap string num :=
  let v := obj_get freq c in
  if truthy v then obj_set freq c (num_add (to_number v) (Fin 1))
  else obj_set freq c (Fin 1).

(** [add_stats(weather_data)] (lines 31-58). *)
Definition add_stats (d : WeatherData.t) (s : t) : t :=
  let '(WeatherData.mk temperature maxT minT condition) := d in
  let temperatures' := (temperatures s ++ [temperature])%list in
  let sum' := num_add (sumTemperature s) temperature in
  let max' := if js_gt (JNum maxT) (JNum (maxTemperature s)) then maxT
              else maxTemperature s in
  let min' := if js_lt (JNum minT) (JNum (minTemperature s)) then minT
              else minTemperature s in
  let freq' := bump_frequency (weatherFrequency s) condition in
  let v := obj_get freq' condition in
  let '(dom, domf) :=
    if js_gt v (dominantWeatherFrequency s) then (condition, v)
    else (dominantWeather s, dominantWeatherFrequency s) in
  {| city := city s;
     temperatures := temperatures';
     maxTemperature := max';
     minTemperature := min';
     sumTemperature := sum';
     weatherFrequency := freq';
     dominantWeather := dom;
     dominantWeatherFrequency := domf |}.

(** [getAverageTemperature()] (lines 65-70). *)
Definition getAverageTemperature (s : t) : num :=
  if bool_decide (List.length (temperatures s) = 0%nat) then Fin 0
  else num_div (sumTemperature s) (num_of_Z (Z.of_nat (List.length (temperatures s)))).

(** [getDailySummary()] (lines 77-86). *)
Definition getDailySummary (s : t) : DailySummary.t :=
  {| DailySummary.city := city s;
     DailySummary.maxTemperature := maxTemperature s;
     DailySummary.minTemperature := minTemperature s;
     DailySummary.avgTemperature := getAverageTemperature s;
     DailySummary.dominantWeather := dominantWeather s;
     DailySummary.dominantWeatherFrequency := dominantWeatherFrequency s |}.

(** A sequence of [add_stats] calls, oldest observation first. *)
Definition add_all (h : list WeatherData.t) (s : t) : t :=
  fold_left (fun acc d => add_stats d acc) h s.

End WeatherStats.

(** ** The aggregate [WeatherStats] promises

    A reference definition of each statistic as a function of the whole
    history of observations, computed from scratch. *)
Module StatsSpec.

Definition count (h : list string) (c : string) : nat := count_occ string_dec h c.

(** The highest frequency of any condition ([0] for no observation). *)
Definition max_count (h : list string) : nat := list_max (map (count h) h).

(** The first position at which some condition reaches frequency [M],
    scanning the history from the oldest observation; [seen] is the
    prefix already scanned. *)
Fixpoint first_reaching (M : nat) (seen h : list string) : option string :=
  match h with
  | [] => None
  | x :: h' =>
      if bool_decide (count (seen ++ [x]) x = M) then Some x
      else first_reaching M (seen ++ [x]) h'
  end.

(** The dominant condition: a condition of highest frequency, the one that
    reached that frequency first; [""] for no observation. *)
Definition dominant_ref (h : list string) : string :=
  default EmptyString (first_reaching (max_count h) [] h).

(** The own property of the frequency table for condition [c]. *)
Definition freq_entry (h : list string) (c : string) : option num :=
  match count h c with 0%nat => None | n => Some (num_of_Z (Z.of_nat n)) end.

Definition finite (n : num) : bool := match n with Fin _ => true | _ => false end.
Definition qval (n : num) : Q := match n with Fin q => q | _ => 0 end.

(** The inputs the class is meant for: finite temperatures and a condition
    that is not a key of [Object.prototype]. *)
Definition obs_ok (d : WeatherData.t) : bool :=
  finite (WeatherData.temperature d) && finite (WeatherData.maxTemperature d)
  && finite (WeatherData.minTemperature d) && plain_key (WeatherData.condition d).

Definition Qsum (l : list Q) : Q := fold_left Qplus l 0.

(** [m] is the greatest of [l] ([-Infinity] for the empty list), and
    [m] the least of [l] ([Infinity] for the empty list). *)
Definition is_max (l : list num) (m : num) : Prop :=
  match l with
  | [] => m = NegInf
  | _ => m ∈ l /\ Forall (fun x => (qval x <= qval m)%Q) l
  end.
Definition is_min (l : list num) (m : num) : Prop :=
  match l with
  | [] => m = PosInf
  | _ => m ∈ l /\ Forall (fun x => (qval m <= qval x)%Q) l
  end.

Definition conds (h : list WeatherData.t) : list string := map WeatherData.condition h.

(** The relation between a history and the state that ingested it. *)
Record stats_inv (h : list WeatherData.t) (s : WeatherStats.t) : Prop := {
  inv_temps : WeatherStats.temperatures s = map WeatherData.temperature h;
  inv_sum : WeatherStats.sumTemperature s
            = Fin (Qsum (map (fun d => qval (WeatherData.temperature d)) h));
  inv_max : is_max (map WeatherData.maxTemperature h) (WeatherStats.maxTemperature s);
  inv_min : is_min (map WeatherData.minTemperature h) (WeatherStats.minTemperature s);
  inv_freq : forall c, WeatherStats.weatherFrequency s !! c = freq_entry (conds h) c;
  inv_dom : WeatherStats.dominantWeather s = dominant_ref (conds h);
  inv_domf : WeatherStats.dominantWeatherFrequency s
             = JNum (num_of_Z (Z.of_nat (max_count (conds h))));
}.

End StatsSpec.

(** Sample observations for the concrete runs below. *)
Module StatsSamples.
Definition obs (t : Z) (c : string) : WeatherData.t :=
  WeatherData.mk (num_of_Z t) (num_of_Z (t + 2)) (num_of_Z (t - 2)) c.

Definition sample_history : list WeatherData.t :=
  [WeatherData.mk (num_of_Z 10) (num_of_Z 12) (num_of_Z 8) "Clear";
   WeatherData.mk (num_of_Z 20) (num_of_Z 25) (num_of_Z 3) "Rain"].
End StatsSamples.

(** ** Frequencies and the first-reached dominant condition *)

Module StatsFacts.
Import StatsSpec.

Lemma count_snoc h c x :
  count (h ++ [c]) x = (count h x + if bool_decide (c = x) then 1 else 0)%nat.
Proof.
  unfold count. rewrite count_occ_app. simpl.
  destruct (string_dec c x); case_bool_decide; simplify_eq; lia.
Qed.

Lemma count_le_max h x : (count h x <= max_count h)%nat.
Proof.
  destruct (in_dec string_dec x h) as [Hin|Hnin].
  - by apply (list_max_map_ub (count h)).
  - unfold count. rewrite (count_occ_not_In string_dec h x) in Hnin. lia.
Qed.

Lemma max_count_snoc h c :
  max_count (h ++ [c]) = Nat.max (max_count h) (S (count h c)).
Proof.
  apply Nat.le_antisymm.
  - apply list_max_le, Forall_forall. intros n Hn.
    apply list_elem_of_In, in_map_iff in Hn as (x & <- & _).
    rewrite count_snoc. pose proof (count_le_max h x).
    case_bool_decide; subst; lia.
  - apply Nat.max_lub.
    + destruct h as [|y h']; [apply Nat.le_0_l|].
      destruct (list_max_map_attained (count (y :: h')) (y :: h')) as (x & Hx & Hm);
        [done|].
      unfold max_count at 1. rewrite <- Hm.
      etransitivity; [|apply count_le_max with (x := x)]. rewrite count_snoc. lia.
    + etransitivity; [|apply count_le_max with (x := c)].
      rewrite count_snoc, bool_decide_eq_true_2 by done. lia.
Qed.

Lemma first_reaching_snoc M seen h c :
  first_reaching M seen (h ++ [c]) =
  match first_reaching M seen h with
  | Some x => Some x
  | None => if bool_decide (count (seen ++ h ++ [c]) c = M) then Some c else None
  end.
Proof.
  revert seen. induction h as [|x h IH]; intros seen; simpl.
  - done.
  - case_bool_decide; [done|]. rewrite IH. by rewrite <- app_assoc.
Qed.

Lemma first_reaching_none M seen h :
  (forall x, (count (seen ++ h) x < M)%nat) -> first_reaching M seen h = None.
Proof.
  revert seen. induction h as [|x h IH]; intros seen Hlt; simpl; [done|].
  rewrite bool_decide_eq_false_2.
  - apply IH. intros y. rewrite <- app_assoc. apply Hlt.
  - intros Heq. specialize (Hlt x). unfold count in *.
    rewrite count_occ_app in Heq, Hlt. simpl in *.
    destruct (string_dec x x); [|done]. lia.
Qed.

Lemma first_reaching_new_max h c :
  (max_count h < S (count h c))%nat ->
  first_reaching (max_count (h ++ [c])) [] (h ++ [c]) = Some c.
Proof.
  intros Hlt. rewrite max_count_snoc, Nat.max_r, first_reaching_snoc by lia.
  rewrite first_reaching_none.
  - rewrite app_nil_l, count_snoc, (bool_decide_eq_true_2 (c = c)) by done.
    rewrite bool_decide_eq_true_2; [done | lia].
  - intros x. pose proof (count_le_max h x). simpl. lia.
Qed.


(** Appending one condition: it becomes dominant exactly when its new
    frequency exceeds the old highest one. *)
Lemma first_reaching_max h : h ≠ [] -> is_Some (first_reaching (max_count h) [] h).
Proof.
  induction h as [|c h IH] using rev_ind; [done|]. intros _.
  destruct (decide (max_count h < S (count h c))%nat) as [Hlt|Hge].
  - by rewrite first_reaching_new_max.
  - rewrite max_count_snoc, Nat.max_l, first_reaching_snoc by lia.
    destruct h as [|y h']; [compute in Hge; lia|].
    by destruct IH as [x ->].
Qed.

(** Appending one condition: it becomes dominant exactly when its new
    frequency exceeds the old highest one. *)
Lemma dominant_snoc h c :
  first_reaching (max_count (h ++ [c])) [] (h ++ [c]) =
  if bool_decide (max_count h < S (count h c))%nat then Some c
  else first_reaching (max_count h) [] h.
Proof.
  case_bool_decide as Hlt; [by apply first_reaching_new_max|].
  rewrite max_count_snoc, Nat.max_l, first_reaching_snoc by lia.
  destruct h as [|y h']; [compute in Hlt; lia|].
  by destruct (first_reaching_max (y :: h')) as [x ->].
Qed.
End StatsFacts.

(** ** Each statistic after one more observation *)


(** ** Each statistic after one more observation *)


(** ** Each statistic after one more observation *)


(** ** Each statistic after one more observation *)

Module StatsStep.
Import StatsSpec StatsFacts.

Lemma is_max_snoc l m x :
  Forall (fun y => finite y = true) l -> finite x = true -> is_max l m ->
  is_max (l ++ [x]) (if js_gt (JNum x) (JNum m) then x else m).
Proof.
  destruct x as [| | |qx]; try discriminate. intros Hfin _.
  destruct l as [|y l]; simpl.
  { intros ->. simpl. split; [set_solver|]. constructor; [simpl; lra | constructor]. }
  intros [Hm Hle].
  assert (Hmf : finite m = true) by (rewrite Forall_forall in Hfin; by apply Hfin).
  destruct m as [| | |qm]; try discriminate. rewrite js_gt_fin.
  rewrite app_comm_cons, Forall_app.
  destruct (Qltb qm qx) eqn:E; [apply Qltb_iff in E | apply Qltb_false in E].
  - split; [set_solver|]. split.
    + eapply Forall_impl; [exact Hle|]. simpl. intros z Hz. lra.
    + constructor; [simpl; lra | constructor].
  - split; [set_solver|]. split; [done|].
    constructor; [simpl; lra | constructor].
Qed.

Lemma is_min_snoc l m x :
  Forall (fun y => finite y = true) l -> finite x = true -> is_min l m ->
  is_min (l ++ [x]) (if js_lt (JNum x) (JNum m) then x else m).
Proof.
  destruct x as [| | |qx]; try discriminate. intros Hfin _.
  destruct l as [|y l]; simpl.
  { intros ->. simpl. split; [set_solver|]. constructor; [simpl; lra | constructor]. }
  intros [Hm Hle].
  assert (Hmf : finite m = true) by (rewrite Forall_forall in Hfin; by apply Hfin).
  destruct m as [| | |qm]; try discriminate. rewrite js_lt_fin.
  rewrite app_comm_cons, Forall_app.
  destruct (Qltb qx qm) eqn:E; [apply Qltb_iff in E | apply Qltb_false in E].
  - split; [set_solver|]. split.
    + eapply Forall_impl; [exact Hle|]. simpl. intros z Hz. lra.
    + constructor; [simpl; lra | constructor].
  - split; [set_solver|]. split; [done|].
    constructor; [simpl; lra | constructor].
Qed.

Lemma Qsum_snoc l x : Qsum (l ++ [x]) = (Qsum l + x)%Q.
Proof. unfold Qsum. by rewrite fold_left_app. Qed.

Section Bump.
Context (freq : gmap string num) (h : list string) (c : string).
Hypothesis Hplain : plain_key c = true.
Hypothesis Hfreq : forall k, freq !! k = freq_entry h k.

Lemma obj_get_freq :
  obj_get freq c = match count h c with
                   | 0%nat => JUndef
                   | n => JNum (num_of_Z (Z.of_nat n)) end.
Proof using Hplain Hfreq.
  rewrite obj_get_plain, Hfreq by done. unfold freq_entry. by destruct (count h c).
Qed.

Lemma freq_entry_snoc_other k :
  c ≠ k -> freq_entry (h ++ [c]) k = freq !! k.
Proof using Hfreq.
  intros Hne. rewrite Hfreq. unfold freq_entry.
  by rewrite count_snoc, bool_decide_eq_false_2, Nat.add_0_r by done.
Qed.

Lemma bump_frequency_lookup k :
  WeatherStats.bump_frequency freq c !! k = freq_entry (h ++ [c]) k.
Proof using Hplain Hfreq.
  unfold WeatherStats.bump_frequency. rewrite obj_get_freq, obj_set_plain, obj_set_plain by done.
  destruct (decide (c = k)) as [<-|Hne].
  2: { rewrite freq_entry_snoc_other by done.
       destruct (truthy _); rewrite lookup_insert_ne by done; done. }
  unfold freq_entry. rewrite count_snoc, bool_decide_eq_true_2 by done.
  replace (count h c + 1)%nat with (S (count h c)) by lia.
  destruct (count h c) as [|n].
  - cbn [truthy]. by rewrite lookup_insert_eq.
  - rewrite truthy_num_of_Z, (proj2 (Z.eqb_neq _ _)), to_number_num by lia.
    cbn [negb]. change (Fin 1) with (num_of_Z 1).
    rewrite num_add_of_Z, lookup_insert_eq. do 2 f_equal. lia.
Qed.

Lemma bump_frequency_get :
  obj_get (WeatherStats.bump_frequency freq c) c
  = JNum (num_of_Z (Z.of_nat (S (count h c)))).
Proof using Hplain Hfreq.
  rewrite obj_get_plain, bump_frequency_lookup by done. unfold freq_entry.
  rewrite count_snoc, bool_decide_eq_true_2 by done.
  by replace (count h c + 1)%nat with (S (count h c)) by lia.
Qed.
End Bump.
End StatsStep.


(** ** The refinement: the incremental state is the reference aggregate *)

Module StatsRefinement.
Import StatsSpec StatsFacts StatsStep.

Lemma obs_ok_fields d :
  obs_ok d = true ->
  finite (WeatherData.temperature d) = true /\ finite (WeatherData.maxTemperature d) = true
  /\ finite (WeatherData.minTemperature d) = true /\ plain_key (WeatherData.condition d) = true.
Proof. unfold obs_ok. intros H. repeat (apply andb_prop in H as [H ?]). auto. Qed.

Lemma Forall_obs_ok_finite (f : WeatherData.t -> num) h :
  (forall d, obs_ok d = true -> finite (f d) = true) ->
  Forall (fun d => obs_ok d = true) h -> Forall (fun y => finite y = true) (map f h).
Proof. intros Hf Hh. apply Forall_map. eapply Forall_impl; [exact Hh|]. auto. Qed.

Lemma create_inv c : stats_inv [] (WeatherStats.create c).
Proof. by constructor. Qed.

Lemma add_stats_inv h s d :
  Forall (fun d => obs_ok d = true) h -> obs_ok d = true ->
  stats_inv h s -> stats_inv (h ++ [d]) (WeatherStats.add_stats d s).
Proof.
  intros Hh Hd [Htemps Hsum Hmax Hmin Hfreq Hdom Hdomf].
  destruct (obs_ok_fields d Hd) as (Ht & Hmx & Hmn & Hc).
  destruct d as [t mx mn c]; simpl in *.
  unfold WeatherStats.add_stats.
  rewrite (bump_frequency_get _ (conds h)), Hdomf, js_gt_num_of_Z, Z_ltb_of_nat by done.
  unfold conds in *. rewrite <- Hdomf.
  assert (Hfreq' : forall k, WeatherStats.bump_frequency (WeatherStats.weatherFrequency s) c !! k
                             = freq_entry (map WeatherData.condition h ++ [c])%list k).
  { intros k. by apply bump_frequency_lookup. }
  assert (Hmax' := is_max_snoc _ _ mx
    (Forall_obs_ok_finite WeatherData.maxTemperature h (fun d H => proj1 (proj2 (obs_ok_fields d H))) Hh)
    Hmx Hmax).
  assert (Hmin' := is_min_snoc _ _ mn
    (Forall_obs_ok_finite WeatherData.minTemperature h (fun d H => proj1 (proj2 (proj2 (obs_ok_fields d H)))) Hh)
    Hmn Hmin).
  destruct t as [| | |qt]; try discriminate.
  assert (Hc' : conds (h ++ [WeatherData.mk (Fin qt) mx mn c]) = (map WeatherData.condition h ++ [c])%list)
    by (unfold conds; by rewrite map_app).
  destruct (bool_decide _) eqn:Hlt;
    [apply bool_decide_eq_true in Hlt | apply bool_decide_eq_false in Hlt];
    cbv beta iota zeta; constructor;
    cbn [WeatherStats.temperatures WeatherStats.sumTemperature
         WeatherStats.maxTemperature WeatherStats.minTemperature
         WeatherStats.weatherFrequency WeatherStats.dominantWeather
         WeatherStats.dominantWeatherFrequency]; rewrite ?Hc', ?map_app;
    cbn [map qval WeatherData.temperature]; rewrite ?Htemps, ?Hsum, ?Qsum_snoc;
    try done; unfold dominant_ref; rewrite ?dominant_snoc, ?max_count_snoc.
  - by rewrite bool_decide_eq_true_2.
  - rewrite Nat.max_r; [done | lia].
  - by rewrite bool_decide_eq_false_2, Hdom.
  - rewrite Hdomf, Nat.max_l; [done | lia].
Qed.

Lemma add_all_inv h s0 h0 :
  Forall (fun d => obs_ok d = true) (h0 ++ h) -> stats_inv h0 s0 ->
  stats_inv (h0 ++ h) (WeatherStats.add_all h s0).
Proof.
  revert s0 h0. induction h as [|d h IH]; intros s0 h0 Hok Hinv; simpl.
  - by rewrite app_nil_r.
  - replace (h0 ++ d :: h)%list with ((h0 ++ [d]) ++ h)%list in * by by rewrite <- app_assoc.
    apply IH; [done|].
    apply Forall_app in Hok as [Hok _]. apply Forall_app in Hok as [Hok Hd].
    apply add_stats_inv; [done | by inversion Hd | done].
Qed.
Lemma inject_Z_of_nat_nonzero (n : nat) :
  n ≠ 0%nat -> Qeq_bool (inject_Z (Z.of_nat n)) 0 = false.
Proof.
  intros Hn. apply not_true_iff_false. rewrite Qeq_bool_iff. unfold Qeq; simpl. lia.
Qed.

Lemma add_stats_city d s : WeatherStats.city (WeatherStats.add_stats d s) = WeatherStats.city s.
Proof.
  destruct d. unfold WeatherStats.add_stats. cbv zeta. by destruct (js_gt (obj_get _ _) _).
Qed.

Lemma add_all_city h s : WeatherStats.city (WeatherStats.add_all h s) = WeatherStats.city s.
Proof.
  unfold WeatherStats.add_all. revert s. induction h as [|d h IH]; intros s; [done|].
  cbn [fold_left]. rewrite IH. apply add_stats_city.
Qed.

Lemma first_reaching_elem M seen h x : first_reaching M seen h = Some x -> x ∈ h.
Proof.
  revert seen. induction h as [|y h IH]; intros seen; cbn; [done|].
  case_bool_decide; [intros [= ->]; by left|]. intros Hx. right. eapply IH; eauto.
Qed.

Lemma dominant_ref_elem h : h ≠ [] -> dominant_ref h ∈ h.
Proof.
  intros Hh. unfold dominant_ref. destruct (first_reaching_max h Hh) as [x Hx].
  rewrite Hx. eapply first_reaching_elem; eauto.
Qed.

Lemma is_max_finite l m : l ≠ [] -> Forall (fun y => finite y = true) l -> is_max l m -> finite m = true.
Proof.
  destruct l as [|x l]; [done|]. intros _ Hf [Hm _]. rewrite Forall_forall in Hf. by apply Hf.
Qed.

Lemma is_min_finite l m : l ≠ [] -> Forall (fun y => finite y = true) l -> is_min l m -> finite m = true.
Proof.
  destruct l as [|x l]; [done|]. intros _ Hf [Hm _]. rewrite Forall_forall in Hf. by apply Hf.
Qed.

(** The summary of a non-empty history of valid observations has finite
    extrema and average, and its dominant condition is one observed. *)
Lemma summary_of_history_fields c h :
  h ≠ [] -> Forall (fun d => obs_ok d = true) h ->
  let sm := WeatherStats.getDailySummary (WeatherStats.add_all h (WeatherStats.create c)) in
  DailySummary.city sm = c /\
  finite (DailySummary.maxTemperature sm) = true /\ finite (DailySummary.minTemperature sm) = true /\
  finite (DailySummary.avgTemperature sm) = true /\ DailySummary.dominantWeather sm ∈ conds h.
Proof.
  intros Hh Hok. pose proof (add_all_inv h (WeatherStats.create c) [] Hok (create_inv c)) as Hinv.
  destruct Hinv as [Ht Hs Hmax Hmin _ Hdom _]. cbn [app] in *.
  assert (Hl : forall A B (f : A -> B) l, l ≠ [] -> map f l ≠ []) by (intros ? ? ? [|] ?; done).
  cbv zeta. unfold WeatherStats.getDailySummary. cbn [DailySummary.city DailySummary.maxTemperature
    DailySummary.minTemperature DailySummary.avgTemperature DailySummary.dominantWeather].
  split_and!.
  - by rewrite add_all_city.
  - eapply is_max_finite; [by apply Hl | | exact Hmax].
    apply Forall_obs_ok_finite; [|done]. intros d Hd. apply obs_ok_fields in Hd. tauto.
  - eapply is_min_finite; [by apply Hl | | exact Hmin].
    apply Forall_obs_ok_finite; [|done]. intros d Hd. apply obs_ok_fields in Hd. tauto.
  - unfold WeatherStats.getAverageTemperature. rewrite Ht, Hs, length_map.
    destruct h as [|d h']; [done|]. rewrite bool_decide_eq_false_2 by done.
    unfold num_of_Z, num_div. by rewrite inject_Z_of_nat_nonzero.
  - rewrite Hdom. apply dominant_ref_elem. by apply Hl.
Qed.
Lemma first_reaching_count M seen h x :
  first_reaching M seen h = Some x -> (M <= count (seen ++ h) x)%nat.
Proof.
  revert seen. induction h as [|y h IH]; intros seen; cbn [first_reaching]; [done|].
  case_bool_decide as Hc.
  - intros [= <-]. rewrite <- Hc. unfold count.
    replace (seen ++ y :: h)%list with ((seen ++ [y]) ++ h)%list by by rewrite <- app_assoc.
    rewrite (count_occ_app string_dec (seen ++ [y]) h). lia.
  - intros Hx. replace (seen ++ y :: h)%list with ((seen ++ [y]) ++ h)%list by by rewrite <- app_assoc.
    by apply IH.
Qed.

(** The dominant condition of a non-empty history occurs as often as the
    most frequent one, at least once. *)
Lemma dominant_ref_count h :
  h ≠ [] -> count h (dominant_ref h) = max_count h /\ max_count h ≠ 0%nat.
Proof.
  intros Hh. unfold dominant_ref. destruct (first_reaching_max h Hh) as [x Hx]. rewrite Hx.
  change (default EmptyString (Some x)) with x.
  pose proof (first_reaching_count _ _ _ _ Hx) as Hge. cbn [app] in Hge.
  pose proof (count_le_max h x). pose proof (first_reaching_elem _ _ _ _ Hx) as Hin.
  assert (count h x ≠ 0%nat).
  { unfold count. apply list_elem_of_In in Hin. apply (count_occ_In string_dec) in Hin. lia. }
  lia.
Qed.
End StatsRefinement.

(** ** Keys that [Object.prototype] defines

    [weatherFrequency] is a plain object, so a condition named like a
    member of [Object.prototype] reads the inherited member before it has
    an own property, and [__proto__] is never an own property at all. *)

Module PrototypeKeys.
Import StatsSpec StatsFacts WeatherStats.

Lemma add_all_snoc_stats h d s : add_all (h ++ [d]) s = add_stats d (add_all h s).
Proof. unfold add_all. by rewrite fold_left_app. Qed.

Lemma weatherFrequency_add_stats d s :
  weatherFrequency (add_stats d s) = bump_frequency (weatherFrequency s) (WeatherData.condition d).
Proof. destruct d. unfold add_stats. by destruct (js_gt _ _). Qed.

Lemma bump_frequency_other f c k : c ≠ k -> bump_frequency f c !! k = f !! k.
Proof.
  intros Hne. unfold bump_frequency, obj_set.
  destruct (truthy _); case_bool_decide; [done | by rewrite lookup_insert_ne | done | by rewrite lookup_insert_ne].
Qed.

(** Writing a number to [__proto__] changes nothing. *)
Lemma bump_frequency_proto f : bump_frequency f "__proto__" = f.
Proof. unfold bump_frequency, obj_set. by destruct (truthy _). Qed.

(** Any other key gets an own number. *)
Lemma bump_frequency_own f c : c ≠ "__proto__" -> exists n, obj_get (bump_frequency f c) c = JNum n.
Proof.
  intros Hc. unfold bump_frequency, obj_set. rewrite bool_decide_eq_false_2 by done.
  destruct (truthy _); unfold obj_get; rewrite lookup_insert_eq; eauto.
Qed.

(** [Object.prototype] is not greater than any number: its primitive is
    the text "[object Object]", whose [ToNumber] is [NaN]. *)
Lemma js_gt_proto n : js_gt (proto_get "__proto__") (JNum n) = false.
Proof. destruct n; reflexivity. Qed.

(** An inherited method is truthy and its [ToNumber] is [NaN]. *)
Lemma inherited_member k :
  k ∈ object_prototype_keys -> k ≠ "__proto__" ->
  truthy (proto_get k) = true /\ to_number (proto_get k) = NaN.
Proof.
  intros Hk Hp. apply list_elem_of_In in Hk. cbn [object_prototype_keys In] in Hk.
  repeat destruct Hk as [<-|Hk]; try done; vm_compute; auto.
Qed.

(** The entry a history leaves for an inherited key [k]. *)
Definition inherited_entry (n : nat) : option num :=
  match n with O => None | 1%nat => Some NaN | S m => Some (num_of_Z (Z.of_nat m)) end.

Lemma bump_inherited f k n :
  k ∈ object_prototype_keys -> k ≠ "__proto__" -> f !! k = inherited_entry n ->
  bump_frequency f k !! k = inherited_entry (S n).
Proof.
  intros Hk Hp Hf. destruct (inherited_member k Hk Hp) as [Ht Hn].
  unfold bump_frequency, obj_set, obj_get. rewrite Hf, bool_decide_eq_false_2 by done.
  destruct n as [|[|n]]; cbn [inherited_entry].
  - by rewrite Ht, Hn, lookup_insert_eq.
  - cbn [truthy]. by rewrite lookup_insert_eq.
  - rewrite truthy_num_of_Z. replace (Z.of_nat (S n) =? 0)%Z with false by (symmetry; apply Z.eqb_neq; lia).
    cbn [negb]. rewrite lookup_insert_eq. cbn [to_number to_primitive].
    replace (Fin 1) with (num_of_Z 1) by reflexivity. rewrite num_add_of_Z. do 2 f_equal. lia.
Qed.

(** [__proto__] is never an own key, the dominant condition is never
    [__proto__], and the cached frequency is always a number. *)
Definition proto_free (s : t) : Prop :=
  weatherFrequency s !! "__proto__" = None /\ dominantWeather s ≠ "__proto__" /\
  exists n, dominantWeatherFrequency s = JNum n.

Lemma add_stats_proto_noop d s :
  WeatherData.condition d = "__proto__" -> proto_free s ->
  weatherFrequency (add_stats d s) = weatherFrequency s /\
  dominantWeather (add_stats d s) = dominantWeather s /\
  dominantWeatherFrequency (add_stats d s) = dominantWeatherFrequency s.
Proof.
  destruct d as [t mx mn c]. cbn [WeatherData.condition]. intros -> (Hf & _ & n & Hn).
  assert (Hv : obj_get (weatherFrequency s) "__proto__" = proto_get "__proto__")
    by (unfold obj_get; by rewrite Hf).
  unfold add_stats. rewrite bump_frequency_proto, Hv, Hn, js_gt_proto. by cbn.
Qed.

Lemma add_stats_proto_free d s : proto_free s -> proto_free (add_stats d s).
Proof.
  intros Hs. destruct (decide (WeatherData.condition d = "__proto__")) as [Hc|Hc].
  - unfold proto_free. destruct (add_stats_proto_noop d s Hc Hs) as (-> & -> & ->). exact Hs.
  - destruct Hs as (Hf & Hd & n & Hn). destruct (bump_frequency_own (weatherFrequency s) _ Hc) as [v Hv].
    destruct d as [t mx mn c]. cbn [WeatherData.condition] in *. unfold add_stats. rewrite Hv.
    destruct (js_gt _ _); unfold proto_free; cbn [weatherFrequency dominantWeather dominantWeatherFrequency];
      (split; [by rewrite bump_frequency_other|]); eauto.
Qed.

Lemma add_all_proto_free h c : proto_free (add_all h (create c)).
Proof.
  induction h as [|d h IH] using rev_ind.
  - split_and!; [done | done | by eexists].
  - rewrite add_all_snoc_stats. by apply add_stats_proto_free.
Qed.

Lemma add_all_inherited c h k :
  k ∈ object_prototype_keys -> k ≠ "__proto__" ->
  weatherFrequency (add_all h (create c)) !! k = inherited_entry (count (conds h) k).
Proof.
  intros Hk Hp. induction h as [|d h IH] using rev_ind; [done|].
  rewrite add_all_snoc_stats, weatherFrequency_add_stats. unfold conds. rewrite map_app. cbn [map]. rewrite count_snoc.
  fold (conds h). case_bool_decide as Hc.
  - rewrite <- Hc in *. rewrite Nat.add_1_r. by apply bump_inherited.
  - rewrite Nat.add_0_r, bump_frequency_other by done. exact IH.
Qed.
End PrototypeKeys.

(** ** Properties of [WeatherStats] *)

Module StatsProps.
Import StatsSpec StatsFacts StatsStep StatsRefinement WeatherStats StatsSamples.

(** C1. Refinement: after any sequence of [add_stats] calls on valid
    observations (finite temperatures, a condition that is not a key of
    [Object.prototype]), the state of a fresh [WeatherStats] is the
    reference aggregate of the history: the list of temperatures, their
    sum, the greatest [maxTemperature], the least [minTemperature], the
    frequency of every condition, the first-reached dominant condition and
    its frequency. *)
Theorem add_all_refines_spec (c : string) (h : list WeatherData.t) :
  Forall (fun d => obs_ok d = true) h ->
  stats_inv h (add_all h (create c)).
Proof. intros Hok. apply (add_all_inv h (create c) []); [done | apply create_inv]. Qed.

Lemma add_all_refines_spec_witness :
  Forall (fun d => obs_ok d = true)
    [WeatherData.mk (num_of_Z 10) (num_of_Z 12) (num_of_Z 8) "Clear"] /\
  stats_inv [WeatherData.mk (num_of_Z 10) (num_of_Z 12) (num_of_Z 8) "Clear"]
    (add_all [WeatherData.mk (num_of_Z 10) (num_of_Z 12) (num_of_Z 8) "Clear"]
       (create "Delhi")).
Proof.
  split; [repeat constructor|]. apply add_all_refines_spec. repeat constructor.
Defined.

(** C8. The summary's [maxTemperature] is the greatest [maxTemperature]
    ever passed to [add_stats] and its [minTemperature] the least
    [minTemperature] ([-Infinity] and [Infinity] before any call). *)
Theorem daily_summary_extrema (c : string) (h : list WeatherData.t) :
  Forall (fun d => obs_ok d = true) h ->
  let sm := getDailySummary (add_all h (create c)) in
  is_max (map WeatherData.maxTemperature h) (DailySummary.maxTemperature sm) /\
  is_min (map WeatherData.minTemperature h) (DailySummary.minTemperature sm).
Proof.
  intros Hok. destruct (add_all_inv h (create c) [] Hok (create_inv c)). simpl. auto.
Qed.

Lemma daily_summary_extrema_witness :
  Forall (fun d => obs_ok d = true) sample_history /\
  is_max (map WeatherData.maxTemperature sample_history)
    (DailySummary.maxTemperature (getDailySummary (add_all sample_history (create "Delhi")))).
Proof.
  split; [repeat constructor|].
  apply (daily_summary_extrema "Delhi"). repeat constructor.
Defined.

(** C9. The summary's [avgTemperature] is the sum of the temperatures
    passed to [add_stats] divided by the number of calls, and [0] when
    there was no call. *)
Theorem daily_summary_average (c : string) (h : list WeatherData.t) :
  Forall (fun d => obs_ok d = true) h ->
  DailySummary.avgTemperature (getDailySummary (add_all h (create c))) =
  match h with
  | [] => Fin 0
  | _ => Fin (Qsum (map (fun d => qval (WeatherData.temperature d)) h)
              / inject_Z (Z.of_nat (List.length h)))
  end.
Proof.
  intros Hok. destruct (add_all_inv h (create c) [] Hok (create_inv c)) as [Ht Hs _ _ _ _ _].
  simpl. unfold getAverageTemperature. rewrite Ht, Hs, length_map.
  destruct h as [|d h']; [done|].
  rewrite bool_decide_eq_false_2 by done.
  unfold num_of_Z, num_div. by rewrite inject_Z_of_nat_nonzero.
Qed.

Lemma daily_summary_average_witness :
  Forall (fun d => obs_ok d = true) sample_history /\
  DailySummary.avgTemperature (getDailySummary (add_all sample_history (create "Delhi")))
  = Fin (Qsum [10; 20]%Q / 2).
Proof.
  split; [repeat constructor|].
  rewrite (daily_summary_average "Delhi"); [reflexivity | repeat constructor].
Defined.

(** C2. The dominant condition kept incrementally by [add_stats] (a
    condition replaces the incumbent only when its count strictly exceeds
    [dominantWeatherFrequency]) is the reference one computed from the
    whole history: the condition that first reached the highest
    frequency, reported with that frequency. *)
Theorem daily_summary_dominant (c : string) (h : list WeatherData.t) :
  Forall (fun d => obs_ok d = true) h ->
  let sm := getDailySummary (add_all h (create c)) in
  DailySummary.dominantWeather sm = dominant_ref (conds h) /\
  DailySummary.dominantWeatherFrequency sm
    = JNum (num_of_Z (Z.of_nat (max_count (conds h)))).
Proof.
  intros Hok. destruct (add_all_inv h (create c) [] Hok (create_inv c)). simpl. auto.
Qed.

Lemma daily_summary_dominant_witness :
  Forall (fun d => obs_ok d = true) sample_history /\
  DailySummary.dominantWeather (getDailySummary (add_all sample_history (create "Delhi")))
  = dominant_ref (conds sample_history).
Proof.
  split; [repeat constructor|].
  apply (daily_summary_dominant "Delhi"). repeat constructor.
Defined.

(** Tie-break: after the conditions A, B, A, B, both with frequency 2,
    the dominant condition is A, the first to reach frequency 2. *)
Theorem dominant_tie_first_reached :
  DailySummary.dominantWeather
    (getDailySummary (add_all [obs 10 "A"; obs 11 "B"; obs 12 "A"; obs 13 "B"] (create "Delhi")))
  = "A".
Proof. vm_compute. reflexivity. Qed.

(** A snapshot taken right after one [add_stats] with temperature 10,
    maximum 12, minimum 8 and condition "Clear" reports maximum 12,
    minimum 8, average 10, dominant "Clear" with frequency 1. *)
Theorem summary_after_one_record :
  getDailySummary (add_all [WeatherData.mk (num_of_Z 10) (num_of_Z 12) (num_of_Z 8) "Clear"]
                     (create "Delhi"))
  = {| DailySummary.city := "Delhi";
       DailySummary.maxTemperature := num_of_Z 12;
       DailySummary.minTemperature := num_of_Z 8;
       DailySummary.avgTemperature := num_of_Z 10;
       DailySummary.dominantWeather := "Clear";
       DailySummary.dominantWeatherFrequency := JNum (num_of_Z 1) |}.
Proof. vm_compute. reflexivity. Qed.

Lemma add_stats_maxTemperature d s :
  maxTemperature (add_stats d s) =
  if js_gt (JNum (WeatherData.maxTemperature d)) (JNum (maxTemperature s))
  then WeatherData.maxTemperature d else maxTemperature s.
Proof. destruct d. unfold add_stats. cbv zeta. by destruct (js_gt (obj_get _ _) _). Qed.

Lemma add_stats_minTemperature d s :
  minTemperature (add_stats d s) =
  if js_lt (JNum (WeatherData.minTemperature d)) (JNum (minTemperature s))
  then WeatherData.minTemperature d else minTemperature s.
Proof. destruct d. unfold add_stats. cbv zeta. by destruct (js_gt (obj_get _ _) _). Qed.

(** Whatever the observation (NaN and infinities included), one
    [add_stats] call either keeps [maxTemperature] or raises it strictly,
    and either keeps [minTemperature] or lowers it strictly. *)
Theorem extrema_monotone (d : WeatherData.t) (s : t) :
  (maxTemperature (add_stats d s) = maxTemperature s \/
   is_less_than (JNum (maxTemperature s)) (JNum (maxTemperature (add_stats d s))) = Some true) /\
  (minTemperature (add_stats d s) = minTemperature s \/
   is_less_than (JNum (minTemperature (add_stats d s))) (JNum (minTemperature s)) = Some true).
Proof.
  rewrite add_stats_maxTemperature, add_stats_minTemperature. unfold js_gt, js_lt.
  split.
  - destruct (is_less_than (JNum (maxTemperature s)) _) as [[]|] eqn:E; simpl; auto.
  - destruct (is_less_than _ (JNum (minTemperature s))) as [[]|] eqn:E; simpl; auto.
Qed.

(** C27. A condition named [__proto__] is never counted, whatever the
    history: the assignment [weatherFrequency["__proto__"] = ...] goes to
    the prototype setter, which ignores a number, so the table never has a
    [__proto__] entry and [__proto__] never becomes the dominant
    condition; an observation with that condition leaves the table, the
    dominant condition and its frequency as they were. *)
Theorem proto_condition_never_counted (c : string) (h : list WeatherData.t) :
  weatherFrequency (add_all h (create c)) !! "__proto__" = None /\
  dominantWeather (add_all h (create c)) ≠ "__proto__" /\
  (forall d, WeatherData.condition d = "__proto__" ->
     weatherFrequency (add_stats d (add_all h (create c))) = weatherFrequency (add_all h (create c)) /\
     dominantWeather (add_stats d (add_all h (create c))) = dominantWeather (add_all h (create c)) /\
     dominantWeatherFrequency (add_stats d (add_all h (create c)))
       = dominantWeatherFrequency (add_all h (create c))).
Proof.
  pose proof (PrototypeKeys.add_all_proto_free h c) as Hs.
  split_and!; [apply Hs | apply Hs |]. intros d Hc. by apply PrototypeKeys.add_stats_proto_noop.
Qed.

Lemma proto_condition_never_counted_witness :
  WeatherData.condition (obs 9 "__proto__") = "__proto__" /\
  dominantWeather (add_stats (obs 9 "__proto__") (add_all [obs 10 "Clear"; obs 11 "__proto__"] (create "Delhi")))
    = dominantWeather (add_all [obs 10 "Clear"; obs 11 "__proto__"] (create "Delhi")).
Proof.
  split; [reflexivity|].
  apply (proj2 (proj2 (proj2 (proto_condition_never_counted "Delhi" [obs 10 "Clear"; obs 11 "__proto__"]))
                 (obs 9 "__proto__") eq_refl)).
Defined.

(** C28. A condition named like an inherited member of
    [Object.prototype] ([toString], [constructor], [valueOf], ...) is
    miscounted in every history: its first observation reads the
    inherited function, which is truthy, and stores [function + 1 = NaN];
    the next reads [NaN], which is falsy, and stores [1]; from then on it
    counts up.  After [n] observations the table holds nothing for [n = 0],
    [NaN] for [n = 1] and [n - 1] for [n >= 2]: one short. *)
Theorem toString_condition_miscounted (c k : string) (h : list WeatherData.t) :
  k ∈ object_prototype_keys -> k ≠ "__proto__" ->
  weatherFrequency (add_all h (create c)) !! k =
    match count (conds h) k with
    | O => None
    | 1%nat => Some NaN
    | S n => Some (num_of_Z (Z.of_nat n))
    end.
Proof. intros Hk Hp. exact (PrototypeKeys.add_all_inherited c h k Hk Hp). Qed.

Lemma toString_condition_miscounted_witness :
  "toString" ∈ object_prototype_keys /\ "toString" ≠ "__proto__" /\
  weatherFrequency (add_all [obs 10 "toString"; obs 11 "Clear"; obs 12 "toString"] (create "Delhi")) !! "toString"
    = Some (num_of_Z 1).
Proof.
  assert (Hk : "toString" ∈ object_prototype_keys) by (apply list_elem_of_In; simpl; tauto).
  split_and!; [exact Hk | done |].
  rewrite (toString_condition_miscounted "Delhi" "toString" _ Hk ltac:(done)). reflexivity.
Defined.
(** C15. The cached incumbent is the maximum of the frequency table:
    every count in [weatherFrequency] is at most [dominantWeatherFrequency],
    which is the highest frequency of the history, and once an
    observation was recorded the table holds exactly that count for
    [dominantWeather]. *)
Theorem dominant_count_is_table_max (c : string) (h : list WeatherData.t) :
  Forall (fun d => obs_ok d = true) h ->
  (forall k v, weatherFrequency (add_all h (create c)) !! k = Some v ->
               (qval v <= inject_Z (Z.of_nat (max_count (conds h))))%Q) /\
  dominantWeatherFrequency (add_all h (create c)) = JNum (num_of_Z (Z.of_nat (max_count (conds h)))) /\
  (h ≠ [] -> weatherFrequency (add_all h (create c)) !! dominantWeather (add_all h (create c))
             = Some (num_of_Z (Z.of_nat (max_count (conds h))))).
Proof.
  intros Hok. destruct (add_all_inv h (create c) [] Hok (create_inv c)) as [_ _ _ _ Hf Hd Hdf].
  cbn [app] in *. split_and!; [|done|].
  - intros k v. rewrite Hf. unfold freq_entry. pose proof (count_le_max (conds h) k).
    destruct (count (conds h) k) as [|n] eqn:E; [done|]. intros [= <-]. cbn.
    rewrite <- Zle_Qle. lia.
  - intros Hh. rewrite Hf, Hd. unfold freq_entry.
    destruct (dominant_ref_count (conds h)) as [Hc Hnz]; [by destruct h|].
    rewrite Hc. by destruct (max_count (conds h)).
Qed.

Lemma dominant_count_is_table_max_witness :
  Forall (fun d => obs_ok d = true) sample_history /\
  dominantWeatherFrequency (add_all sample_history (create "Delhi"))
    = JNum (num_of_Z (Z.of_nat (max_count (conds sample_history)))).
Proof.
  split; [repeat constructor|]. apply (dominant_count_is_table_max "Delhi"). repeat constructor.
Defined.
End StatsProps.
