(* ===== verification/Units.v ===== *)
(** * Units: temperature conversions and the temperature-type enumeration

    Models [src/utils/utils.js] ([kelvinToCelsius], [celsiusToFahrenheit];
    [logErrorToFile]: the line it appends to [cron_error.log], the file
    being its contents as a string) and [src/utils/enums.js] ([TemperatureType] and
    [getTemperatureType]). *)

From S2P Require Import Prelude JsValue Dates.
From Stdlib Require Import Ascii String.
Open Scope string_scope.

(** [kelvinToCelsius = (temp) => temp - 273.15] (utils.js line 4). *)
Definition kelvinToCelsius (temp : num) : num := num_sub temp (Fin (27315 # 100)).

(** [celsiusToFahrenheit = (temp) => (temp * 9/5) + 32] (utils.js line 6);
    [*] and [/] associate to the left. *)
Definition celsiusToFahrenheit (temp : num) : num :=
  num_add (num_div (num_mul temp (num_of_Z 9)) (num_of_Z 5)) (num_of_Z 32).

Module TemperatureType.
(** The static fields [Celsius] and [Fahrenheit] (enums.js lines 3-4). *)
Definition Celsius : string := "celsius".
Definition Fahrenheit : string := "fahrenheit".

(** [String.prototype.toLowerCase] on ASCII strings. *)
Definition ascii_to_lower (c : ascii) : ascii :=
  let n := nat_of_ascii c in
  if (65 <=? n)%nat && (n <=? 90)%nat then ascii_of_nat (n + 32) else c.

Definition to_lower (s : string) : string :=
  string_of_list_ascii (map ascii_to_lower (list_ascii_of_string s)).

(** [getTemperatureType(typeStr)] (enums.js lines 10-21); [None] is the
    [null] returned for an unknown type. *)
Definition getTemperatureType (typeStr : string) : option string :=
  let normalizedType := to_lower typeStr in
  if String.eqb normalizedType Celsius then Some Celsius
  else if String.eqb normalizedType Fahrenheit then Some Fahrenheit
  else None.
End TemperatureType.

(** ** [logErrorToFile] (utils.js lines 12-16) *)

(** The line feed that ends each line of the log. *)
Definition newline : string := String (ascii_of_nat 10) EmptyString.

(** [`${error.message || error}`]: the message, or, when it is the empty
    string, the error converted to a string, which for an error with an
    empty message is its name. *)
Definition error_text (e : js_exn) : string :=
  match e with
  | Error m => if String.eqb m EmptyString then "Error" else m
  | TypeError m => if String.eqb m EmptyString then "TypeError" else m
  end.

(** [errorMessage] (line 14), written at time [now]. *)
Definition error_line (now : Z) (e : js_exn) : string :=
  toISOString now ++ " - Error: " ++ error_text e ++ newline.

(** [fs.appendFileSync(logFilePath, errorMessage, 'utf8')] (line 15): the
    file's new contents. *)
Definition logErrorToFile (now : Z) (e : js_exn) (file : string) : string :=
  file ++ error_line now e.

Module UnitsProps.
Import TemperatureType.

Lemma getTemperatureType_cases typeStr t :
  getTemperatureType typeStr = Some t -> t = Celsius \/ t = Fahrenheit.
Proof.
  unfold getTemperatureType.
  destruct (String.eqb _ Celsius); [intros [= <-]; by left|].
  destruct (String.eqb _ Fahrenheit); [intros [= <-]; by right | done].
Qed.

(** C37. [getTemperatureType] accepts a string exactly when its lower-case
    form is ["celsius"] or ["fahrenheit"], and returns that lower-case
    form: the match is case-insensitive and nothing else is accepted. *)
Theorem getTemperatureType_spec typeStr t :
  getTemperatureType typeStr = Some t <->
  (t = Celsius \/ t = Fahrenheit) /\ to_lower typeStr = t.
Proof.
  unfold getTemperatureType.
  destruct (String.eqb_spec (to_lower typeStr) Celsius) as [->|Hc];
    [|destruct (String.eqb_spec (to_lower typeStr) Fahrenheit) as [->|Hf]];
    split; intros H; try (injection H as <-); intuition congruence.
Qed.
Lemma error_text_nonempty e : error_text e <> EmptyString.
Proof.
  destruct e as [m|m]; simpl; destruct (String.eqb_spec m EmptyString); done.
Qed.

(** C17. Every call of [logErrorToFile] at a time of the years 1970 to 9999
    appends exactly one line to the file: a 24-character timestamp,
    [" - Error: "], a non-empty text and a line feed; what the file held
    is kept as its prefix. *)
Theorem logErrorToFile_appends_one_line now e file :
  (0 <= now <= max_four_digit_time)%Z ->
  exists ts, logErrorToFile now e file = (file ++ ts ++ " - Error: " ++ error_text e ++ newline)%string /\
             String.length ts = 24%nat /\ error_text e <> EmptyString.
Proof.
  intros Hn. exists (toISOString now). split_and!.
  - reflexivity.
  - by apply toISOString_length.
  - apply error_text_nonempty.
Qed.

Lemma logErrorToFile_appends_one_line_witness :
  (0 <= 1731110400000 <= max_four_digit_time)%Z /\
  exists ts, logErrorToFile 1731110400000 (TypeError "x") EmptyString
             = (EmptyString ++ ts ++ " - Error: " ++ error_text (TypeError "x") ++ newline)%string /\
             String.length ts = 24%nat /\ error_text (TypeError "x") <> EmptyString.
Proof.
  split; [vm_compute; split; discriminate|]. apply logErrorToFile_appends_one_line.
  vm_compute. split; discriminate.
Defined.
End UnitsProps.
