(* ===== verification/WeatherTriggers.v ===== *)
(** * WeatherTrigger: one threshold rule

    Models [src/services/weather_triggers.js]: the class [WeatherTrigger]
    with its three fields and [isTriggered].  The operator is the string the
    user typed; the threshold is any JavaScript value (the application
    passes the string read from the prompt), and the comparison is the
    JavaScript one of [JsValue]: strings compare by code units, a number and
    a string compare after [ToNumber], and [==] in the rule is the strict
    [===] of the source. *)

From S2P Require Import Prelude JsValue.
From Stdlib Require Import Ascii String.
Open Scope string_scope.

Module WeatherTrigger.
Record t := mk {
  attribute : string;
  operator : string;
  threshold : jsval;
}.

(** [new WeatherTrigger(attribute, operator, threshold)] (lines 2-6). *)
Definition create (attribute operator : string) (threshold : jsval) : t :=
  mk attribute operator threshold.

(** The five operators of the [switch]. *)
Definition supported_operators : list string := [">"; ">="; "<"; "<="; "=="].

(** [isTriggered(value)] (lines 13-28): the [switch] on [this.operator],
    whose [default] throws [Error("Unsupported operator: " + operator)]. *)
Definition isTriggered (tr : t) (value : jsval) : outcome bool :=
  let op := operator tr in
  if String.eqb op ">" then Return (js_gt value (threshold tr))
  else if String.eqb op ">=" then Return (js_ge value (threshold tr))
  else if String.eqb op "<" then Return (js_lt value (threshold tr))
  else if String.eqb op "<=" then Return (js_le value (threshold tr))
  else if String.eqb op "==" then Return (strict_eq value (threshold tr))
  else Throw (Error ("Unsupported operator: " ++ op)).

(** The comparison an operator denotes, [None] for an unsupported one. *)
Definition operator_sem (op : string) : option (jsval -> jsval -> bool) :=
  if String.eqb op ">" then Some js_gt
  else if String.eqb op ">=" then Some js_ge
  else if String.eqb op "<" then Some js_lt
  else if String.eqb op "<=" then Some js_le
  else if String.eqb op "==" then Some strict_eq
  else None.
End WeatherTrigger.

(** ** Properties of [isTriggered] *)

Module TriggerProps.
Import WeatherTrigger.

Lemma isTriggered_sem tr v f :
  operator_sem (operator tr) = Some f -> isTriggered tr v = Return (f v (threshold tr)).
Proof.
  unfold operator_sem, isTriggered.
  repeat (destruct (String.eqb _ _); [by intros [= <-]|]). done.
Qed.

Lemma operator_sem_None op : operator_sem op = None <-> op ∉ supported_operators.
Proof.
  unfold operator_sem, supported_operators.
  repeat (match goal with |- context [String.eqb op ?s] =>
            destruct (String.eqb_spec op s) as [->|?];
            [split; [intros Hc; discriminate Hc | intros H; exfalso; apply H; set_solver]|]
          end).
  split; [|intros; reflexivity]. intros _.
  repeat (apply not_elem_of_cons; split; [done|]). apply not_elem_of_nil.
Qed.

Lemma isTriggered_unsupported tr v :
  operator tr ∉ supported_operators ->
  isTriggered tr v = Throw (Error ("Unsupported operator: " ++ operator tr)).
Proof.
  rewrite <- operator_sem_None. intros E. unfold operator_sem, isTriggered in *.
  repeat (destruct (String.eqb _ _); [done|]). done.
Qed.

(** C6. [isTriggered] throws exactly for an operator outside
    [>], [>=], [<], [<=], [==], and what it throws is
    [Error("Unsupported operator: " + operator)]. *)
Theorem isTriggered_throws_iff (tr : t) (v : jsval) :
  (forall e, isTriggered tr v = Throw e -> e = Error ("Unsupported operator: " ++ operator tr)) /\
  (isTriggered tr v = Throw (Error ("Unsupported operator: " ++ operator tr))
   <-> operator tr ∉ supported_operators).
Proof.
  rewrite <- operator_sem_None.
  destruct (operator_sem (operator tr)) as [f|] eqn:E.
  - rewrite (isTriggered_sem _ _ f E). split; [done|]. split; done.
  - unfold operator_sem, isTriggered in *.
    repeat (destruct (String.eqb _ _); [done|]). split; [by intros e [= <-] | done].
Qed.

Lemma isTriggered_throws_iff_witness :
  ("!=" ∉ supported_operators) /\
  isTriggered (create "temperature" "!=" (JStr "30")) (JNum (num_of_Z 35))
    = Throw (Error ("Unsupported operator: " ++ "!=")).
Proof.
  split; [apply (bool_decide_unpack _); vm_compute; reflexivity|].
  apply (proj2 (proj2 (isTriggered_throws_iff (create "temperature" "!=" (JStr "30")) (JNum (num_of_Z 35))))).
  apply (bool_decide_unpack _). vm_compute. reflexivity.
Defined.

(** The rule [temperature > 30] fires on a temperature of 35 and not
    on 25, with the threshold given as the number 30 or as the text
    "30" the prompt returns. *)
Theorem temperature_gt_30 :
  isTriggered (create "temperature" ">" (JNum (num_of_Z 30))) (JNum (num_of_Z 35)) = Return true /\
  isTriggered (create "temperature" ">" (JNum (num_of_Z 30))) (JNum (num_of_Z 25)) = Return false /\
  isTriggered (create "temperature" ">" (JStr "30")) (JNum (num_of_Z 35)) = Return true /\
  isTriggered (create "temperature" ">" (JStr "30")) (JNum (num_of_Z 25)) = Return false.
Proof. vm_compute. repeat split. Qed.

Lemma isTriggered_op tr v op f :
  operator tr = op -> operator_sem op = Some f -> isTriggered tr v = Return (f v (threshold tr)).
Proof. intros <-. apply isTriggered_sem. Qed.

(** C24. A threshold typed as a string of decimal digits behaves as the
    number those digits denote: for a finite temperature [x] and the
    threshold [n] the text denotes, [>] fires iff [n < x], [>=] iff not
    [x < n], [<] iff [x < n] and [<=] iff not [n < x]. *)
Theorem digit_threshold_compares_numerically (a : string) (ds : list Z) (x : Q) :
  ds ≠ [] -> Forall is_digit ds ->
  let th := JStr (decimal_digits_string ds) in
  let n := inject_Z (digits_to_Z 10 ds) in
  isTriggered (create a ">" th) (JNum (Fin x)) = Return (Qltb n x) /\
  isTriggered (create a ">=" th) (JNum (Fin x)) = Return (negb (Qltb x n)) /\
  isTriggered (create a "<" th) (JNum (Fin x)) = Return (Qltb x n) /\
  isTriggered (create a "<=" th) (JNum (Fin x)) = Return (negb (Qltb n x)).
Proof.
  intros Hne Hds. cbv zeta.
  assert (Hs : string_to_number (decimal_digits_string ds) = Fin (inject_Z (digits_to_Z 10 ds)))
    by (by rewrite string_to_number_digits).
  repeat split; (erewrite isTriggered_op; [|reflexivity|reflexivity]);
    unfold js_gt, js_ge, js_lt, js_le; simpl threshold;
    rewrite ?is_less_than_str_num, ?is_less_than_num_str, Hs; simpl;
    by destruct (Qltb _ _).
Qed.

Lemma digit_threshold_compares_numerically_witness :
  [3; 0]%Z ≠ [] /\ Forall is_digit [3; 0]%Z /\
  isTriggered (create "temperature" ">" (JStr (decimal_digits_string [3; 0]%Z)))
    (JNum (Fin 35)) = Return (Qltb (inject_Z (digits_to_Z 10 [3; 0]%Z)) 35).
Proof.
  assert (Hd : Forall is_digit [3; 0]%Z) by (repeat constructor; unfold is_digit; lia).
  split; [done|]. split; [done|].
  apply (digit_threshold_compares_numerically "temperature" [3; 0]%Z 35); done.
Defined.

(** C25. A rule [==] whose threshold is a string never fires on a
    numeric attribute: the comparison is the strict [===], and the
    application always passes the threshold as the string read from the
    prompt, so an equality rule on the temperature can never fire. *)
Theorem eq_string_threshold_never_fires_on_number (a s : string) (x : num) :
  isTriggered (create a "==" (JStr s)) (JNum x) = Return false.
Proof. reflexivity. Qed.

(** C38. A threshold text that is not a number (its [ToNumber] is NaN,
    e.g. "thirty") makes every relational rule silently false on a
    numeric value: none of [>], [>=], [<], [<=] fires and nothing reports
    the bad threshold. *)
Theorem nan_threshold_never_fires (a s : string) (x : num) :
  string_to_number s = NaN ->
  forall op, op ∈ [">"; ">="; "<"; "<="] ->
  isTriggered (create a op (JStr s)) (JNum x) = Return false.
Proof.
  intros Hs op Hop.
  assert (Hx : forall b, num_less NaN x = Some b -> False) by done.
  assert (Hx' : forall b, num_less x NaN = Some b -> False) by (destruct x; done).
  repeat (apply elem_of_cons in Hop as [->|Hop];
    [unfold isTriggered; simpl; unfold js_gt, js_ge, js_lt, js_le;
     rewrite ?is_less_than_str_num, ?is_less_than_num_str, Hs; destruct x; done|]).
  set_solver.
Qed.

Lemma nan_threshold_never_fires_witness :
  string_to_number "thirty" = NaN /\
  isTriggered (create "temperature" "<" (JStr "thirty")) (JNum (num_of_Z 12)) = Return false.
Proof.
  assert (H : string_to_number "thirty" = NaN) by reflexivity.
  split; [done|]. apply (nan_threshold_never_fires _ _ _ H). set_solver.
Defined.
(** C26. Complementary rules: with the same threshold, the rules [>] and
    [<=] evaluate without error, and [<=] fires exactly when [>] does not
    if and only if the value and the threshold are comparable (neither
    converts to [NaN]); when they are not, neither rule fires. *)
Theorem le_complements_gt_iff_comparable (a : string) (th v : jsval) :
  exists b1 b2, isTriggered (create a ">" th) v = Return b1 /\
                isTriggered (create a "<=" th) v = Return b2 /\
                (b2 = negb b1 <-> is_less_than th v <> None) /\
                (is_less_than th v = None -> b1 = false /\ b2 = false).
Proof.
  exists (js_gt v th), (js_le v th). split_and!; [reflexivity | reflexivity | |];
    unfold js_gt, js_le; destruct (is_less_than th v) as [[|]|]; cbn; split; try done.
  all: intros H; discriminate H || (exfalso; by apply H).
Qed.

Lemma le_complements_gt_iff_comparable_witness :
  is_less_than (JStr "thirty") (JNum (num_of_Z 35)) = None /\
  exists b1 b2, isTriggered (create "temperature" ">" (JStr "thirty")) (JNum (num_of_Z 35)) = Return b1 /\
                isTriggered (create "temperature" "<=" (JStr "thirty")) (JNum (num_of_Z 35)) = Return b2 /\
                (b2 = negb b1 <-> is_less_than (JStr "thirty") (JNum (num_of_Z 35)) <> None) /\
                (is_less_than (JStr "thirty") (JNum (num_of_Z 35)) = None -> b1 = false /\ b2 = false).
Proof.
  split; [vm_compute; reflexivity|]. apply le_complements_gt_iff_comparable.
Defined.
End TriggerProps.
