(* ===== verification/WeatherManager.v ===== *)
(** * WeatherManager: the composition root of the core

    Models [src/services/weather_manager.js]: a [WeatherManager] owns one
    [WeatherStats] and the array of [WeatherTrigger]s, and keeps the
    temperature type chosen at start-up.  [addWeatherData] converts the
    three temperatures, records them ([add_stats]) and then evaluates every
    trigger against the converted observation ([checkWeatherTriggers]),
    printing the fired ones.  The methods run in the effect monad [eff] of
    [Prelude]: the manager is the state, the console lines are the output,
    and a [throw] escapes after the writes already done. *)

From S2P Require Import Prelude JsValue WeatherStats Units WeatherTriggers.
From Stdlib Require Import Ascii String.
Open Scope string_scope.

(** The entry pushed for a fired trigger: the template
    [`${attribute} ${operator} ${threshold} (Current: ${value})`] (line 47)
    kept as its four parts; the text formatting of numbers is not modelled. *)
Record triggered_condition := mk_triggered {
  tc_attribute : string;
  tc_operator : string;
  tc_threshold : jsval;
  tc_current : jsval;
}.

(** The console lines [addWeatherData] prints. *)
Inductive manager_out :=
| InvalidAttribute (attribute : string)             (* console.error, line 50 *)
| TriggersMet (fired : list triggered_condition).   (* console.log, lines 54-55 *)

Module WeatherManager.
Record t := mk {
  weatherStats : WeatherStats.t;
  triggers : list WeatherTrigger.t;
  temperatureType : string;
}.

(** [new WeatherManager(city, temperatureType)] (lines 7-11). *)
Definition create (city temperatureType : string) : t :=
  mk (WeatherStats.create city) [] temperatureType.

(** [addTrigger(attribute, operator, threshold)] (lines 17-19): push a new
    trigger at the end of the array. *)
Definition addTrigger (attribute operator : string) (threshold : jsval) (m : t) : t :=
  mk (weatherStats m) (triggers m ++ [WeatherTrigger.create attribute operator threshold])%list
     (temperatureType m).

(** [format_temperature(temperature)] (lines 66-71). *)
Definition format_temperature (m : t) (temperature : num) : num :=
  if String.eqb (temperatureType m) TemperatureType.Celsius
  then kelvinToCelsius temperature else temperature.

(** The observation after the three assignments of lines 26-28. *)
Definition format_data (m : t) (d : WeatherData.t) : WeatherData.t :=
  WeatherData.mk (format_temperature m (WeatherData.temperature d))
                 (format_temperature m (WeatherData.maxTemperature d))
                 (format_temperature m (WeatherData.minTemperature d))
                 (WeatherData.condition d).

(** [weatherData[k]] on the object literal built by the polling job, whose
    own properties are the four fields. *)
Definition weather_data_get (d : WeatherData.t) (k : string) : jsval :=
  if String.eqb k "temperature" then JNum (WeatherData.temperature d)
  else if String.eqb k "maxTemperature" then JNum (WeatherData.maxTemperature d)
  else if String.eqb k "minTemperature" then JNum (WeatherData.minTemperature d)
  else if String.eqb k "condition" then JStr (WeatherData.condition d)
  else proto_get k.

(** One iteration of the loop of [checkWeatherTriggers] (lines 42-51);
    [acc] is [triggeredConditions]. *)
Definition check_trigger {S} (d : WeatherData.t) (tr : WeatherTrigger.t)
    (acc : list triggered_condition) : eff S manager_out (list triggered_condition) :=
  let value := weather_data_get d (WeatherTrigger.attribute tr) in
  if negb (strict_eq value JUndef) then
    match WeatherTrigger.isTriggered tr value with
    | Return true =>
        mret (acc ++ [mk_triggered (WeatherTrigger.attribute tr) (WeatherTrigger.operator tr)
                                   (WeatherTrigger.threshold tr) value])%list
    | Return false => mret acc
    | Throw e => eff_throw e
    end
  else eff_emit (InvalidAttribute (WeatherTrigger.attribute tr)) ;; mret acc.

Fixpoint check_loop {S} (d : WeatherData.t) (trs : list WeatherTrigger.t)
    (acc : list triggered_condition) : eff S manager_out (list triggered_condition) :=
  match trs with
  | [] => mret acc
  | tr :: trs' => acc' ← check_trigger d tr acc; check_loop d trs' acc'
  end.

(** [checkWeatherTriggers(weatherData)] (lines 38-56). *)
Definition checkWeatherTriggers (d : WeatherData.t) : eff t manager_out unit :=
  m ← eff_get;
  fired ← check_loop d (triggers m) [];
  eff_emit (TriggersMet fired).

(** [addWeatherData(weatherData)] (lines 25-32). *)
Definition addWeatherData (d : WeatherData.t) : eff t manager_out unit :=
  m ← eff_get;
  let d' := format_data m d in
  eff_put (mk (WeatherStats.add_stats d' (weatherStats m)) (triggers m) (temperatureType m)) ;;
  checkWeatherTriggers d'.

(** [getDailySummary()] (lines 58-60) and [getCity()] (lines 62-64). *)
Definition getDailySummary (m : t) : DailySummary.t :=
  WeatherStats.getDailySummary (weatherStats m).
Definition getCity (m : t) : string := WeatherStats.city (weatherStats m).
End WeatherManager.

(** ** What [checkWeatherTriggers] promises

    The fired rules, in insertion order, and the rules whose attribute is
    absent, each reported once. *)
Module ManagerSpec.
Import WeatherManager.

Definition value_of (d : WeatherData.t) (tr : WeatherTrigger.t) : jsval :=
  weather_data_get d (WeatherTrigger.attribute tr).

Definition defined (v : jsval) : bool := negb (strict_eq v JUndef).

(** A rule the loop handles without throwing: its attribute is absent from
    the observation or its operator is one of the five supported. *)
Definition trigger_ok (d : WeatherData.t) (tr : WeatherTrigger.t) : bool :=
  negb (defined (value_of d tr))
  || bool_decide (WeatherTrigger.operator tr ∈ WeatherTrigger.supported_operators).

Definition fires (d : WeatherData.t) (tr : WeatherTrigger.t) : bool :=
  defined (value_of d tr) &&
  match WeatherTrigger.operator_sem (WeatherTrigger.operator tr) with
  | Some f => f (value_of d tr) (WeatherTrigger.threshold tr)
  | None => false
  end.

Definition fired_ref (d : WeatherData.t) (trs : list WeatherTrigger.t) : list triggered_condition :=
  map (fun tr => mk_triggered (WeatherTrigger.attribute tr) (WeatherTrigger.operator tr)
                              (WeatherTrigger.threshold tr) (value_of d tr))
      (List.filter (fires d) trs).

Definition invalid_ref (d : WeatherData.t) (trs : list WeatherTrigger.t) : list manager_out :=
  map (fun tr => InvalidAttribute (WeatherTrigger.attribute tr))
      (List.filter (fun tr => negb (defined (value_of d tr))) trs).
End ManagerSpec.


(** ** The loop of [checkWeatherTriggers] *)

Module ManagerFacts.
Import WeatherManager ManagerSpec WeatherTrigger TriggerProps.

Lemma check_trigger_ok {S} d tr acc (s : S) :
  trigger_ok d tr = true ->
  check_trigger d tr acc s =
  (s, if defined (value_of d tr) then [] else [InvalidAttribute (attribute tr)],
   Return (if fires d tr then acc ++ [mk_triggered (attribute tr) (operator tr)
                                       (threshold tr) (value_of d tr)] else acc)%list).
Proof.
  unfold trigger_ok, fires, check_trigger. fold (value_of d tr). fold (defined (value_of d tr)).
  destruct (defined (value_of d tr)); simpl; [|by eff_unfold].
  intros Hop. apply bool_decide_eq_true in Hop.
  destruct (operator_sem (operator tr)) as [f|] eqn:E.
  - rewrite (isTriggered_sem _ _ f E). by destruct (f _ _).
  - by apply operator_sem_None in E.
Qed.

Lemma check_loop_ok {S} d trs acc (s : S) :
  Forall (fun tr => trigger_ok d tr = true) trs ->
  check_loop d trs acc s = (s, invalid_ref d trs, Return (acc ++ fired_ref d trs)%list).
Proof.
  revert acc. induction trs as [|tr trs IH]; intros acc Hok; simpl.
  - by rewrite app_nil_r.
  - apply Forall_cons in Hok as [Htr Hok].
    eff_unfold. rewrite check_trigger_ok by done. rewrite IH by done.
    unfold invalid_ref, fired_ref. simpl.
    destruct (defined (value_of d tr)), (fires d tr); simpl;
      by rewrite <- ?app_assoc.
Qed.

Lemma check_loop_abort {S} d pre bad post acc (s : S) :
  Forall (fun tr => trigger_ok d tr = true) pre ->
  defined (value_of d bad) = true -> operator bad ∉ supported_operators ->
  check_loop d (pre ++ bad :: post) acc s =
  (s, invalid_ref d pre, Throw (Error ("Unsupported operator: " ++ operator bad))).
Proof.
  intros Hok Hdef Hop. revert acc. induction pre as [|tr pre IH]; intros acc; simpl.
  - eff_unfold. unfold check_trigger. fold (value_of d bad).
    unfold defined in Hdef. rewrite Hdef. simpl.
    by rewrite isTriggered_unsupported.
  - apply Forall_cons in Hok as [Htr Hok].
    eff_unfold. rewrite check_trigger_ok by done. rewrite IH by done.
    unfold invalid_ref. simpl. by destruct (defined (value_of d tr)).
Qed.

Lemma check_trigger_state {S} d tr acc (s : S) : (check_trigger d tr acc s).1.1 = s.
Proof.
  unfold check_trigger. eff_unfold.
  destruct (negb _); [destruct (isTriggered _ _) as [[]|]|]; done.
Qed.

Lemma check_loop_state {S} d trs acc (s : S) : (check_loop d trs acc s).1.1 = s.
Proof.
  revert acc s. induction trs as [|tr trs IH]; intros acc s; [done|]. simpl. eff_unfold.
  pose proof (check_trigger_state d tr acc s) as Hs.
  destruct (check_trigger d tr acc s) as [[s1 o1] [a|e]]; simpl in *; subst; [|done].
  specialize (IH a s). destruct (check_loop d trs a s) as [[s2 o2] r]. simpl in *. done.
Qed.

(** Whatever the trigger pass does, the state [addWeatherData] leaves is
    the manager with the converted observation recorded. *)
Lemma addWeatherData_state d m :
  (addWeatherData d m).1.1 =
  WeatherManager.mk (WeatherStats.add_stats (format_data m d) (weatherStats m)) (triggers m) (temperatureType m).
Proof.
  unfold addWeatherData, checkWeatherTriggers. eff_unfold.
  cbn -[check_loop WeatherStats.add_stats format_data].
  pose proof (check_loop_state (format_data m d) (triggers m) []
    (WeatherManager.mk (WeatherStats.add_stats (format_data m d) (weatherStats m)) (triggers m)
        (temperatureType m))) as Hs.
  destruct (check_loop _ _ _ _) as [[s1 o1] [a|e]]; simpl in *; by subst.
Qed.
End ManagerFacts.

(** ** Properties of [WeatherManager] *)

Module ManagerProps.
Import WeatherManager ManagerSpec ManagerFacts.

(** C5. [addWeatherData] records the converted observation in the
    statistics and, when every rule can be evaluated (its attribute is
    absent or its operator supported), prints one [Invalid attribute]
    error per rule with an absent attribute and then the list of fired
    rules, in the order the rules were added, and returns normally. *)
Theorem addWeatherData_spec (d : WeatherData.t) (m : t) :
  Forall (fun tr => trigger_ok (format_data m d) tr = true) (triggers m) ->
  addWeatherData d m =
  (mk (WeatherStats.add_stats (format_data m d) (weatherStats m)) (triggers m) (temperatureType m),
   invalid_ref (format_data m d) (triggers m)
     ++ [TriggersMet (fired_ref (format_data m d) (triggers m))],
   Return tt)%list.
Proof.
  intros Hok. unfold addWeatherData, checkWeatherTriggers. eff_unfold.
  cbn -[check_loop WeatherStats.add_stats format_data].
  rewrite check_loop_ok by done. cbn -[WeatherStats.add_stats format_data]. done.
Qed.

Lemma addWeatherData_spec_witness :
  let m := addTrigger "condition" "==" (JStr "Clear")
             (addTrigger "temperature" ">" (JStr "30") (create "Delhi" "celsius")) in
  let d := WeatherData.mk (Fin (30615 # 100)) (Fin (30715 # 100)) (Fin (30515 # 100)) "Clear" in
  Forall (fun tr => trigger_ok (format_data m d) tr = true) (triggers m) /\
  (addWeatherData d m).2 = Return tt.
Proof.
  cbv zeta. split; [repeat constructor|].
  rewrite addWeatherData_spec; [reflexivity | repeat constructor].
Defined.

(** C23. An unsupported operator aborts the whole trigger pass: when the
    first rule that cannot be evaluated has a present attribute and an
    operator outside the five, [addWeatherData] has already recorded the
    observation, prints the [Invalid attribute] errors of the rules before
    it and nothing else (no [Triggers Met] line, no later rule evaluated),
    and throws [Error("Unsupported operator: ...")] to its caller. *)
Theorem addWeatherData_unsupported_aborts (d : WeatherData.t) (m : t)
    (pre post : list WeatherTrigger.t) (bad : WeatherTrigger.t) :
  triggers m = (pre ++ bad :: post)%list ->
  Forall (fun tr => trigger_ok (format_data m d) tr = true) pre ->
  defined (value_of (format_data m d) bad) = true ->
  WeatherTrigger.operator bad ∉ WeatherTrigger.supported_operators ->
  addWeatherData d m =
  (mk (WeatherStats.add_stats (format_data m d) (weatherStats m)) (triggers m) (temperatureType m),
   invalid_ref (format_data m d) pre,
   Throw (Error ("Unsupported operator: " ++ WeatherTrigger.operator bad))).
Proof.
  intros Htr Hok Hdef Hop. unfold addWeatherData, checkWeatherTriggers. eff_unfold.
  cbn -[check_loop WeatherStats.add_stats format_data]. rewrite Htr.
  rewrite check_loop_abort by done. cbn -[WeatherStats.add_stats format_data].
  done.
Qed.

Lemma addWeatherData_unsupported_aborts_witness :
  let good := WeatherTrigger.create "temperature" ">" (JStr "30") in
  let bad := WeatherTrigger.create "temperature" "!=" (JStr "5") in
  let later := WeatherTrigger.create "condition" "==" (JStr "Clear") in
  let m := mk (WeatherStats.create "Delhi") [good; bad; later] "celsius" in
  let d := WeatherData.mk (Fin (30615 # 100)) (Fin (30715 # 100)) (Fin (30515 # 100)) "Clear" in
  triggers m = ([good] ++ bad :: [later])%list /\
  Forall (fun tr => trigger_ok (format_data m d) tr = true) [good] /\
  defined (value_of (format_data m d) bad) = true /\
  (WeatherTrigger.operator bad ∉ WeatherTrigger.supported_operators) /\
  (addWeatherData d m).2 = Throw (Error "Unsupported operator: !=").
Proof.
  cbv zeta.
  assert (Hop : "!=" ∉ WeatherTrigger.supported_operators).
  { unfold WeatherTrigger.supported_operators.
    repeat (apply not_elem_of_cons; split; [done|]). apply not_elem_of_nil. }
  split; [done|]. split; [repeat constructor|]. split; [reflexivity|]. split; [done|].
  rewrite (addWeatherData_unsupported_aborts _ _
    [WeatherTrigger.create "temperature" ">" (JStr "30")]
    [WeatherTrigger.create "condition" "==" (JStr "Clear")]
    (WeatherTrigger.create "temperature" "!=" (JStr "5")));
    [reflexivity | reflexivity | repeat constructor | reflexivity | exact Hop].
Defined.

(** The configuration is immutable: whatever the observation and
    whether or not the trigger pass throws, [addWeatherData] leaves the
    triggers, the temperature type and the city unchanged. *)
Theorem addWeatherData_preserves_config (d : WeatherData.t) (m : t) :
  let m' := (addWeatherData d m).1.1 in
  triggers m' = triggers m /\ temperatureType m' = temperatureType m /\
  getCity m' = getCity m.
Proof.
  cbv zeta. rewrite addWeatherData_state. unfold getCity. cbn [weatherStats triggers temperatureType].
  by rewrite StatsRefinement.add_stats_city.
Qed.

(** Unit conversion: in [celsius] mode a provider temperature of
    300.15 K is stored as 27 (equal to 27 under [===]); in [fahrenheit]
    mode 300.15 is stored unchanged. *)
Theorem format_temperature_modes :
  num_eqb (format_temperature (create "Delhi" "celsius") (Fin (30015 # 100))) (num_of_Z 27) = true /\
  format_temperature (create "Delhi" "fahrenheit") (Fin (30015 # 100)) = Fin (30015 # 100).
Proof. split; reflexivity. Qed.

(** C29. In [fahrenheit] mode nothing is converted: every temperature the
    manager records and compares is the provider's Kelvin value
    ([celsiusToFahrenheit] exists in [utils.js] but is never called). *)
Theorem fahrenheit_mode_keeps_kelvin (d : WeatherData.t) (m : t) :
  temperatureType m = TemperatureType.Fahrenheit -> format_data m d = d.
Proof.
  intros H. unfold format_data, format_temperature. rewrite H. by destruct d.
Qed.

Lemma fahrenheit_mode_keeps_kelvin_witness :
  temperatureType (create "Delhi" "fahrenheit") = TemperatureType.Fahrenheit /\
  format_data (create "Delhi" "fahrenheit") (WeatherData.mk (Fin 300) (Fin 301) (Fin 299) "Clear")
  = WeatherData.mk (Fin 300) (Fin 301) (Fin 299) "Clear".
Proof. split; [reflexivity | apply fahrenheit_mode_keeps_kelvin; reflexivity]. Defined.
End ManagerProps.
