(* ===== verification/Http.v ===== *)
(** * Http: the HTTP client and the provider client

    Models [src/services/http_manager.js] ([buildUrlWithParams] with the
    [application/x-www-form-urlencoded] serializer of [URLSearchParams],
    [fetchData] with its retry loop and [validateStatus]) and
    [src/services/openweather_manager.js] ([get_weather]).  Strings are the
    UTF-8 byte sequences the URL standard encodes byte by byte.  The network
    is an argument [net : string -> nat -> wire]: the answer to the [i]-th
    request for a URL; [axios.get] turns an answer into data or an error
    object as axios's [settle] does. *)

From S2P Require Import Prelude JsValue.
From Stdlib Require Import Ascii String DecimalString DecimalN.

(** ** The provider's response *)

Module ApiResponse.
Record main_t := mk_main { temp : num; temp_max : num; temp_min : num }.
(** The JSON body fields the application reads: [main] and the [main] of
    each [weather] entry. *)
Record t := mk { main : option main_t; weather : list string }.
End ApiResponse.

(** ** [URLSearchParams] serialization and parsing *)

Module UrlEncoding.
(** The bytes the urlencoded serializer leaves alone: ASCII alphanumerics
    and [*-._]. *)
Definition is_form_safe (c : ascii) : bool :=
  let n := nat_of_ascii c in
  (((48 <=? n) && (n <=? 57)) || ((65 <=? n) && (n <=? 90)) ||
   ((97 <=? n) && (n <=? 122)) || bool_decide (n ∈ [42; 45; 46; 95]))%nat.

Definition hex_digits : list ascii := list_ascii_of_string "0123456789ABCDEF".
Definition hex_char (n : nat) : ascii := nth n hex_digits "0"%char.

Definition hex_value (c : ascii) : option nat :=
  let n := nat_of_ascii c in
  (if (48 <=? n) && (n <=? 57) then Some (n - 48)
   else if (65 <=? n) && (n <=? 70) then Some (n - 55)
   else if (97 <=? n) && (n <=? 102) then Some (n - 87)
   else None)%nat.

(** One byte of the serializer: kept, space to [+], else [%XX]. *)
Definition encode_byte (c : ascii) : list ascii :=
  if is_form_safe c then [c]
  else if Ascii.eqb c " "%char then ["+"%char]
  else let n := nat_of_ascii c in ["%"%char; hex_char (n / 16)%nat; hex_char (n mod 16)%nat].

Fixpoint form_encode (l : list ascii) : list ascii :=
  match l with
  | [] => []
  | c :: t => (encode_byte c ++ form_encode t)%list
  end.

(** The parser's byte decoding: [+] to space over the whole sequence,
    then percent-decoding, where a [%] not followed by two hex digits is
    kept as it is. *)
Definition plus_to_space (c : ascii) : ascii := if Ascii.eqb c "+"%char then " "%char else c.

Fixpoint percent_decode (l : list ascii) : list ascii :=
  match l with
  | [] => []
  | c :: t =>
      if Ascii.eqb c "%"%char then
        match t with
        | h1 :: h2 :: t' =>
            match hex_value h1, hex_value h2 with
            | Some a, Some b => ascii_of_nat (16 * a + b)%nat :: percent_decode t'
            | _, _ => c :: percent_decode t
            end
        | _ => c :: percent_decode t
        end
      else c :: percent_decode t
  end.

Definition form_decode (l : list ascii) : list ascii := percent_decode (map plus_to_space l).

Fixpoint join_with (sep : ascii) (xs : list (list ascii)) : list ascii :=
  match xs with
  | [] => []
  | [x] => x
  | x :: xs' => (x ++ sep :: join_with sep xs')%list
  end.

(** Strictly splitting on a byte. *)
Fixpoint split_on (sep : ascii) (l : list ascii) : list (list ascii) :=
  match l with
  | [] => [[]]
  | c :: t =>
      if Ascii.eqb c sep then [] :: split_on sep t
      else match split_on sep t with
           | [] => [[c]]
           | w :: ws => (c :: w) :: ws
           end
  end.

(** The bytes before the first [sep] and, if there is one, those after. *)
Fixpoint break_on (sep : ascii) (l : list ascii) : list ascii * option (list ascii) :=
  match l with
  | [] => ([], None)
  | c :: t =>
      if Ascii.eqb c sep then ([], Some t)
      else let '(a, b) := break_on sep t in (c :: a, b)
  end.

(** The urlencoded serializer: [name=value] pairs joined by [&]. *)
Definition serialize (ps : list (string * string)) : string :=
  string_of_list_ascii
    (join_with "&"%char (map (fun '(k, v) => (form_encode (list_ascii_of_string k) ++
                                           "="%char :: form_encode (list_ascii_of_string v))%list) ps)).

(** The urlencoded parser: split on [&], skip empty sequences, split each
    at its first [=], decode both sides. *)
Definition parse_pair (seq : list ascii) : string * string :=
  let '(n, v) := break_on "="%char seq in
  (string_of_list_ascii (form_decode n),
   string_of_list_ascii (form_decode (default [] v))).

Definition form_parse (s : string) : list (string * string) :=
  map parse_pair (List.filter (fun w => negb (bool_decide (w = []))) (split_on "&"%char (list_ascii_of_string s))).

(** The query of a URL: what follows its first [?]. *)
Definition url_query (href : string) : string :=
  string_of_list_ascii (default [] (break_on "?"%char (list_ascii_of_string href)).2).
End UrlEncoding.

(** [buildUrlWithParams(baseUrl, queryParams)] (http_manager.js lines
    14-20): setting [url.search] to the serialized parameters appends [?]
    and them, or nothing when they serialize to the empty string.  The base
    is taken in serialized form without query or fragment, as the one call
    site's [BASE_API_ENDPOINT] is. *)
Definition buildUrlWithParams (baseUrl : string) (queryParams : list (string * string)) : string :=
  let s := UrlEncoding.serialize queryParams in
  if String.eqb s EmptyString then baseUrl else (baseUrl ++ "?" ++ s)%string.

(** ** [fetchData] *)

(** The fields of an axios error the handler reads: [code], [message],
    [response] (status and status text) and whether a [request] was sent. *)
Record axios_error := mk_axios_error {
  code : option string;
  message : string;
  response : option (Z * string);
  request : bool
}.

(** What the network answers to one request: an HTTP response, or a
    transport failure already shaped as axios reports it (a timeout has
    code [ECONNABORTED]; a failure of the XHR adapter has message
    [Network Error]). *)
Inductive wire :=
| HttpResponse (status : Z) (statusText : string) (data : ApiResponse.t)
| TransportError (err : axios_error).

Inductive axios_result :=
| AxiosData (data : ApiResponse.t)
| AxiosError (err : axios_error).

(** The [validateStatus] option (http_manager.js lines 37-40). *)
Definition validateStatus (status : Z) : bool := (200 <=? status)%Z && (status <? 300)%Z.

Definition status_string (status : Z) : string :=
  NilEmpty.string_of_uint (N.to_uint (Z.to_N status)).

(** The error axios's [settle] rejects a response with when [validateStatus]
    refuses its status: the code it picks for [4xx] and [5xx] (none
    otherwise), the message naming the status, the response and the
    request. *)
Definition settle_error (st : Z) (txt : string) : axios_error :=
  mk_axios_error
    (if (400 <=? st)%Z && (st <? 500)%Z then Some "ERR_BAD_REQUEST"
     else if (500 <=? st)%Z && (st <? 600)%Z then Some "ERR_BAD_RESPONSE" else None)
    ("Request failed with status code " ++ status_string st)%string (Some (st, txt)) true.

(** [axios.get(url, config)]: data for a status [validateStatus] accepts,
    the [settle] error otherwise; a transport failure is its own error. *)
Definition axios_get (w : wire) : axios_result :=
  match w with
  | HttpResponse st txt d => if validateStatus st then AxiosData d else AxiosError (settle_error st txt)
  | TransportError e => AxiosError e
  end.

(** The console lines of the HTTP layer. *)
Inductive http_log :=
| WarnRetry (retries_left : nat)                  (* line 51 *)
| ErrStatus (status : Z) (statusText : string)    (* lines 55-57 *)
| ErrNoResponse                                   (* line 60 *)
| ErrUnexpected (msg : string)                    (* line 63 *)
| CriticalFailure (msg : string).                 (* openweather_manager.js line 24 *)

Definition MAX_RETRIES : nat := 3.

(** The retry condition of line 49 without its [retries > 0] conjunct. *)
Definition is_transient (err : axios_error) : bool :=
  match code err with Some c => String.eqb c "ECONNABORTED" | None => false end
  || String.eqb (message err) "Network Error".

(** Lines 53-69: the log line chosen by the error's shape, then the
    wrapping [Error]. *)
Definition fetch_failure (err : axios_error) : list http_log * outcome ApiResponse.t :=
  let line := match response err with
              | Some (st, txt) => ErrStatus st txt
              | None => if request err then ErrNoResponse else ErrUnexpected (message err)
              end in
  ([line], Throw (Error ("Failed to fetch data after multiple attempts due to: " ++ message err)%string)).

(** [fetchData(url, retries)] (lines 29-71), where [net i] answers the
    [i]-th request: the log lines, the outcome, and the number of requests
    made.  Each retry is one more call on [retries - 1]. *)
Fixpoint fetchData (net : nat -> wire) (i retries : nat) : list http_log * outcome ApiResponse.t * nat :=
  match axios_get (net i) with
  | AxiosData d => ([], Return d, 1%nat)
  | AxiosError err =>
      match retries with
      | S r =>
          if is_transient err then
            let '(l, o, n) := fetchData net (S i) r in (WarnRetry retries :: l, o, S n)
          else let '(l, o) := fetch_failure err in (l, o, 1%nat)
      | O => let '(l, o) := fetch_failure err in (l, o, 1%nat)
      end
  end.

(** [BASE_API_ENDPOINT] (openweather_manager.js line 3). *)
Definition BASE_API_ENDPOINT : string := "https://api.openweathermap.org/data/2.5/weather".

(** The query object of lines 10-13; an unset environment variable is
    [undefined], which [URLSearchParams] turns into the string
    ["undefined"]. *)
Definition weather_query (city : string) (api_key : option string) : list (string * string) :=
  [("q", city); ("APPID", default "undefined" api_key)].

(** [get_weather(city)] (openweather_manager.js lines 7-26): the URL
    requested, the log lines, and the value the promise resolves to;
    [None] is the [undefined] of a caught failure. *)
Definition get_weather (city : string) (api_key : option string) (net : string -> nat -> wire)
    : string * list http_log * option ApiResponse.t :=
  let finalUrl := buildUrlWithParams BASE_API_ENDPOINT (weather_query city api_key) in
  let '(l, o, _) := fetchData (net finalUrl) 0 MAX_RETRIES in
  match o with
  | Return data => (finalUrl, l, Some data)
  | Throw e => (finalUrl, (l ++ [CriticalFailure (exn_message e)])%list, None)
  end.

(** ** Shapes of failed requests *)

Module FetchSpec.
(** The [i]-th request fails with an error that line 49 retries. *)
Definition transient_at (net : nat -> wire) (j : nat) : Prop :=
  exists e, axios_get (net j) = AxiosError e /\ is_transient e = true.

End FetchSpec.

(** ** Facts on the urlencoded format *)

Module UrlFacts.
Import UrlEncoding.

Lemma hex_char_roundtrip n :
  (n < 16)%nat -> hex_value (hex_char n) = Some n /\ plus_to_space (hex_char n) = hex_char n.
Proof.
  intros Hn. do 16 (destruct n as [|n]; [vm_compute; auto|]). lia.
Qed.

Lemma hex_char_safe n : is_form_safe (hex_char n) = true.
Proof.
  unfold hex_char. destruct (List.nth_in_or_default n hex_digits "0"%char) as [Hin| Hd].
  - revert Hin. generalize (nth n hex_digits "0"%char).
    intros c Hin. repeat (destruct Hin as [<-|Hin]; [reflexivity|]). destruct Hin.
  - by rewrite Hd.
Qed.

Lemma safe_not_special c :
  is_form_safe c = true -> Ascii.eqb c "+"%char = false /\ Ascii.eqb c "%"%char = false.
Proof.
  intros H. split; apply Ascii.eqb_neq; intros ->; discriminate H.
Qed.

Lemma decode_encode_byte c R :
  percent_decode (map plus_to_space (encode_byte c) ++ R) = c :: percent_decode R.
Proof.
  unfold encode_byte. destruct (is_form_safe c) eqn:Hs.
  - destruct (safe_not_special c Hs) as [Hp Hpc].
    cbn [map app percent_decode]. unfold plus_to_space. by rewrite Hp, Hpc.
  - destruct (Ascii.eqb_spec c " "%char) as [->|_]; [reflexivity|].
    pose proof (nat_ascii_bounded c) as Hb.
    destruct (hex_char_roundtrip (nat_of_ascii c / 16)) as [H1 H1']; [apply Nat.Div0.div_lt_upper_bound; lia|].
    destruct (hex_char_roundtrip (nat_of_ascii c mod 16)) as [H2 H2']; [apply Nat.mod_upper_bound; lia|].
    cbn [map app]. rewrite H1', H2'. cbn [percent_decode plus_to_space]. rewrite H1, H2.
    f_equal. rewrite <- (Nat.div_mod_eq (nat_of_ascii c) 16). apply ascii_nat_embedding.
Qed.

Lemma form_decode_encode l : form_decode (form_encode l) = l.
Proof.
  unfold form_decode. induction l as [|c l IH]; [reflexivity|].
  cbn [form_encode]. by rewrite map_app, decode_encode_byte, IH.
Qed.

(** Every byte the serializer writes is a safe byte, [+] or [%]. *)
Lemma form_encode_bytes l x :
  x ∈ form_encode l -> is_form_safe x = true \/ x = "+"%char \/ x = "%"%char.
Proof.
  induction l as [|c l IH]; cbn [form_encode]; [intros Hx; by apply elem_of_nil in Hx|].
  rewrite elem_of_app. intros [Hx|Hx]; [|auto]. unfold encode_byte in Hx.
  destruct (is_form_safe c) eqn:Hs; [apply list_elem_of_singleton in Hx; subst; auto|].
  destruct (Ascii.eqb c " "%char); [apply list_elem_of_singleton in Hx; auto|].
  repeat (apply elem_of_cons in Hx as [->|Hx]; [auto using hex_char_safe|]). by apply elem_of_nil in Hx.
Qed.

Lemma form_encode_no_sep l sep :
  is_form_safe sep = false -> sep <> "+"%char -> sep <> "%"%char -> sep ∉ form_encode l.
Proof.
  intros H1 H2 H3 Hin. destruct (form_encode_bytes l sep Hin) as [H|[H|H]]; congruence.
Qed.

Lemma split_on_no_sep sep x : sep ∉ x -> split_on sep x = [x].
Proof.
  induction x as [|c x IH]; intros Hx; [reflexivity|]. apply not_elem_of_cons in Hx as [Hc Hx].
  cbn. rewrite (proj2 (Ascii.eqb_neq c sep)) by congruence. by rewrite IH.
Qed.

Lemma split_on_app_sep sep x r : sep ∉ x -> split_on sep (x ++ sep :: r) = x :: split_on sep r.
Proof.
  induction x as [|c x IH]; intros Hx; cbn.
  - by rewrite Ascii.eqb_refl.
  - apply not_elem_of_cons in Hx as [Hc Hx].
    rewrite (proj2 (Ascii.eqb_neq c sep)) by congruence. by rewrite IH.
Qed.

Lemma split_join sep xs :
  xs <> [] -> Forall (fun x => sep ∉ x) xs -> split_on sep (join_with sep xs) = xs.
Proof.
  induction xs as [|x [|y xs] IH]; intros Hne Hf; [done| |].
  - apply Forall_cons in Hf as [Hx _]. by apply split_on_no_sep.
  - apply Forall_cons in Hf as [Hx Hf].
    change (split_on sep ((x ++ sep :: join_with sep (y :: xs))%list) = x :: y :: xs).
    rewrite split_on_app_sep by done. by rewrite IH.
Qed.

Lemma break_on_app_sep sep a b : sep ∉ a -> break_on sep (a ++ sep :: b) = (a, Some b).
Proof.
  induction a as [|c a IH]; intros Ha; cbn; [by rewrite Ascii.eqb_refl|].
  apply not_elem_of_cons in Ha as [Hc Ha].
  rewrite (proj2 (Ascii.eqb_neq c sep)) by congruence. by rewrite IH.
Qed.

Lemma break_on_no_sep sep a : sep ∉ a -> break_on sep a = (a, None).
Proof.
  induction a as [|c a IH]; intros Ha; cbn; [done|].
  apply not_elem_of_cons in Ha as [Hc Ha].
  rewrite (proj2 (Ascii.eqb_neq c sep)) by congruence. by rewrite IH.
Qed.

Lemma list_ascii_of_string_append s1 s2 :
  list_ascii_of_string (s1 ++ s2)%string = (list_ascii_of_string s1 ++ list_ascii_of_string s2)%list.
Proof. induction s1 as [|c s1 IH]; simpl; [reflexivity|]. by rewrite IH. Qed.

Lemma parse_pair_encoded k v :
  parse_pair (form_encode (list_ascii_of_string k) ++ "="%char :: form_encode (list_ascii_of_string v))%list
  = (k, v).
Proof.
  unfold parse_pair. rewrite break_on_app_sep by (apply form_encode_no_sep; [reflexivity|discriminate..]).
  cbv [default from_option id]. rewrite !form_decode_encode. by rewrite !string_of_list_ascii_of_string.
Qed.

Lemma filter_nonempty_id (xs : list (list ascii)) :
  Forall (fun w => w <> []) xs -> List.filter (fun w => negb (bool_decide (w = []))) xs = xs.
Proof.
  induction 1 as [|w xs Hw _ IH]; [done|]. cbn. by rewrite bool_decide_eq_false_2, IH.
Qed.

(** The parser inverts the serializer: no value can forge a parameter. *)
Lemma form_parse_serialize ps : form_parse (serialize ps) = ps.
Proof.
  unfold form_parse, serialize. rewrite list_ascii_of_string_of_list_ascii.
  destruct ps as [|p ps]; [reflexivity|].
  rewrite split_join, filter_nonempty_id.
  - rewrite map_map. erewrite map_ext; [apply map_id|]. intros [k v]. apply parse_pair_encoded.
  - apply List.Forall_forall. intros w Hw; apply List.in_map_iff in Hw as [[k v] [<- _]].
    destruct (form_encode _); discriminate.
  - discriminate.
  - apply List.Forall_forall. intros w Hw; apply List.in_map_iff in Hw as [[k v] [<- _]].
    rewrite not_elem_of_app, not_elem_of_cons.
    split; [|split]; [apply form_encode_no_sep; [reflexivity|discriminate..]|done|].
    apply form_encode_no_sep; [reflexivity|discriminate..].
Qed.

(** The query of a URL built on a base without [?] is the serialized
    parameters. *)
Lemma url_query_build base ps :
  "?"%char ∉ list_ascii_of_string base -> url_query (buildUrlWithParams base ps) = serialize ps.
Proof.
  intros Hb. unfold url_query, buildUrlWithParams.
  destruct (String.eqb_spec (serialize ps) EmptyString) as [He|_].
  - rewrite break_on_no_sep by done. by rewrite He.
  - change ("?" ++ serialize ps)%string with (String "?"%char (serialize ps)).
    rewrite list_ascii_of_string_append. cbn [list_ascii_of_string].
    rewrite break_on_app_sep by done. apply string_of_list_ascii_of_string.
Qed.
End UrlFacts.

(** ** Facts on [fetchData] *)

Module FetchFacts.
Import FetchSpec.

Section Step.
Variable net : nat -> wire.

Lemma fetchData_data i r d :
  axios_get (net i) = AxiosData d -> fetchData net i r = ([], Return d, 1%nat).
Proof. intros H. destruct r; cbn [fetchData]; by rewrite H. Qed.

Lemma fetchData_final i r e :
  axios_get (net i) = AxiosError e -> (r = O \/ is_transient e = false) ->
  fetchData net i r = ((fetch_failure e).1, (fetch_failure e).2, 1%nat).
Proof.
  intros H Hr. destruct r as [|r]; cbn [fetchData]; rewrite H;
    [|destruct Hr as [? | ->]; [done|]]; by destruct (fetch_failure e).
Qed.

Lemma fetchData_retry i r e :
  axios_get (net i) = AxiosError e -> is_transient e = true ->
  fetchData net i (S r) =
    let '(l, o, n) := fetchData net (S i) r in (WarnRetry (S r) :: l, o, S n).
Proof. intros H Ht. cbn [fetchData]. by rewrite H, Ht. Qed.
End Step.

Lemma fetch_failure_throws e :
  (fetch_failure e).2 = Throw (Error ("Failed to fetch data after multiple attempts due to: " ++ message e)%string).
Proof. reflexivity. Qed.

(** The outcome of [fetchData] is data exactly when some attempt within
    the retry budget succeeds after only retried failures. *)
Lemma fetchData_success net i r d :
  (fetchData net i r).1.2 = Return d <->
  exists k, (k <= r)%nat /\ (forall j, (j < k)%nat -> transient_at net (i + j)) /\
            axios_get (net (i + k)%nat) = AxiosData d.
Proof.
  revert i. induction r as [|r IH]; intros i;
    destruct (axios_get (net i)) as [d'|e] eqn:Hi.
  1,3: rewrite (fetchData_data _ _ _ _ Hi); cbn [fst snd]; split;
    [intros [= ->]; exists O; rewrite Nat.add_0_r; split_and!; [lia|lia|done]|].
  1,2: intros (k & _ & Hj & Hk); destruct k as [|k];
    [rewrite Nat.add_0_r, Hi in Hk; congruence|];
    destruct (Hj O) as (e & He & _); [lia|]; rewrite Nat.add_0_r in He; congruence.
  - rewrite fetchData_final with (e := e) by auto. cbn [fst snd]. rewrite fetch_failure_throws.
    split; [intros ?; discriminate|].
    intros (k & Hk & _ & Hd). assert (k = O) as -> by lia. rewrite Nat.add_0_r in Hd. congruence.
  - destruct (is_transient e) eqn:Ht.
    + rewrite fetchData_retry with (e := e) by done.
      destruct (fetchData net (S i) r) as [[l o] n] eqn:E. cbn [fst snd].
      specialize (IH (S i)). rewrite E in IH. cbn [fst snd] in IH. rewrite IH. split.
      * intros (k & Hk & Hj & Hd). exists (S k).
        replace (i + S k)%nat with (S i + k)%nat by lia. split_and!; [lia| |done].
        intros [|j] Hjk; [exists e; rewrite Nat.add_0_r; done|].
        replace (i + S j)%nat with (S i + j)%nat by lia. apply Hj. lia.
      * intros (k & Hk & Hj & Hd). destruct k as [|k]; [rewrite Nat.add_0_r in Hd; congruence|].
        exists k. replace (i + S k)%nat with (S i + k)%nat in Hd by lia. split_and!; [lia| |done].
        intros j Hjk. replace (S i + j)%nat with (i + S j)%nat by lia. apply Hj. lia.
    + rewrite fetchData_final with (e := e) by auto. cbn [fst snd]. rewrite fetch_failure_throws.
      split; [intros ?; discriminate|]. intros (k & _ & Hj & Hd). destruct k as [|k]; [rewrite Nat.add_0_r in Hd; congruence|].
      destruct (Hj O) as (e' & He' & Ht'); [lia|]. rewrite Nat.add_0_r, Hi in He'. congruence.
Qed.
(** [get_weather] resolves to the data of a first request that succeeds. *)
Lemma get_weather_first_data city key net d :
  axios_get (net (buildUrlWithParams BASE_API_ENDPOINT (weather_query city key)) O) = AxiosData d ->
  (get_weather city key net).2 = Some d.
Proof. intros H. unfold get_weather. by rewrite (fetchData_data _ _ _ _ H). Qed.

(** [get_weather] resolves to [undefined] when every allowed request
    fails with an error that is retried. *)
Lemma get_weather_all_transient city key (net : string -> nat -> wire) :
  (forall j, (j <= MAX_RETRIES)%nat ->
     transient_at (net (buildUrlWithParams BASE_API_ENDPOINT (weather_query city key))) j) ->
  (get_weather city key net).2 = None.
Proof.
  intros Ht. unfold get_weather.
  destruct (fetchData (net (buildUrlWithParams BASE_API_ENDPOINT (weather_query city key))) 0 MAX_RETRIES)
    as [[l o] n] eqn:E.
  destruct o as [d|e]; [|reflexivity]. exfalso.
  destruct (proj1 (fetchData_success (net (buildUrlWithParams BASE_API_ENDPOINT (weather_query city key)))
                    0 MAX_RETRIES d)) as (k & Hk & _ & Hd); [by rewrite E|].
  destruct (Ht k Hk) as (e & He & _). cbn in Hd. congruence.
Qed.
End FetchFacts.

(** ** Properties of the HTTP layer *)

Module HttpProps.
Import UrlEncoding UrlFacts FetchSpec FetchFacts.

Lemma get_weather_url city key net :
  (get_weather city key net).1.1 = buildUrlWithParams BASE_API_ENDPOINT (weather_query city key).
Proof.
  unfold get_weather. destruct (fetchData _ 0 MAX_RETRIES) as [[l o] n]. by destruct o.
Qed.

Lemma base_no_query : "?"%char ∉ list_ascii_of_string BASE_API_ENDPOINT.
Proof. apply (bool_decide_unpack _). vm_compute. reflexivity. Qed.


Lemma settle_error_not_transient st txt : is_transient (settle_error st txt) = false.
Proof.
  unfold is_transient, settle_error. cbn [code message].
  destruct ((400 <=? st)%Z && (st <? 500)%Z), ((500 <=? st)%Z && (st <? 600)%Z); reflexivity.
Qed.

(** C7. [get_weather] resolves to the data [d] exactly when one of the
    first [MAX_RETRIES + 1] requests for its URL answers [d] with a 2xx
    status and every request before it timed out or failed with
    [Network Error]; otherwise it resolves to [undefined]. *)
Theorem get_weather_result city key net d :
  (get_weather city key net).2 = Some d <->
  exists k, (k <= MAX_RETRIES)%nat /\
    (forall j, (j < k)%nat ->
       transient_at (net (buildUrlWithParams BASE_API_ENDPOINT (weather_query city key))) j) /\
    axios_get (net (buildUrlWithParams BASE_API_ENDPOINT (weather_query city key)) k) = AxiosData d.
Proof.
  rewrite <- (fetchData_success _ 0). unfold get_weather.
  destruct (fetchData _ 0 MAX_RETRIES) as [[l o] n]. cbn [fst snd].
  destruct o as [d'|e]; simpl; split; congruence.
Qed.

(** C19. [fetchData] terminates after at least one and at most
    [retries + 1] requests; with the default [MAX_RETRIES] that is four. *)
Theorem fetchData_request_bound net i r : (1 <= (fetchData net i r).2 <= S r)%nat.
Proof.
  revert i. induction r as [|r IH]; intros i; destruct (axios_get (net i)) as [d|e] eqn:Hi.
  1,3: by rewrite (fetchData_data _ _ _ _ Hi); cbn; lia.
  - rewrite (fetchData_final _ _ _ _ Hi) by auto. cbn. lia.
  - destruct (is_transient e) eqn:Ht.
    + rewrite (fetchData_retry _ _ _ _ Hi Ht). specialize (IH (S i)).
      destruct (fetchData net (S i) r) as [[l o] n]. cbn in *. lia.
    + rewrite (fetchData_final _ _ _ _ Hi) by auto. cbn. lia.
Qed.

(** C21. A response with a status outside [200..299] is never retried:
    one request, the status logged, and an [Error] naming the status. *)
Theorem status_error_not_retried net i r st txt d :
  net i = HttpResponse st txt d -> validateStatus st = false ->
  fetchData net i r =
    ([ErrStatus st txt],
     Throw (Error ("Failed to fetch data after multiple attempts due to: Request failed with status code "
                   ++ status_string st)%string), 1%nat).
Proof.
  intros Hn Hv. rewrite (fetchData_final _ _ r (settle_error st txt)).
  - reflexivity.
  - unfold axios_get. by rewrite Hn, Hv.
  - right. apply settle_error_not_transient.
Qed.

Lemma status_error_not_retried_witness :
  validateStatus 503 = false /\
  fetchData (fun _ => HttpResponse 503 "Service Unavailable" (ApiResponse.mk None [])) 0 MAX_RETRIES =
    ([ErrStatus 503 "Service Unavailable"],
     Throw (Error "Failed to fetch data after multiple attempts due to: Request failed with status code 503"),
     1%nat).
Proof.
  split; [reflexivity|].
  apply (status_error_not_retried _ 0 MAX_RETRIES 503 "Service Unavailable" (ApiResponse.mk None []));
    reflexivity.
Defined.

(** C20. The query string of the URL [get_weather] requests parses back
    to exactly [q = city] and [APPID = key] (the string [undefined] when
    the key is unset), whatever bytes the city holds. *)
Theorem get_weather_url_roundtrip city key net :
  form_parse (url_query (get_weather city key net).1.1) = weather_query city key.
Proof.
  rewrite get_weather_url, url_query_build by apply base_no_query. apply form_parse_serialize.
Qed.
(** C22. A connection reset, which axios's Node adapter reports with
    code [ECONNRESET] and the system's message rather than
    [Network Error], is not retried: one request and the wrapped
    error. *)
Theorem connection_reset_not_retried net i r :
  net i = TransportError (mk_axios_error (Some "ECONNRESET") "read ECONNRESET" None true) ->
  fetchData net i r =
    ([ErrNoResponse], Throw (Error "Failed to fetch data after multiple attempts due to: read ECONNRESET"),
     1%nat).
Proof.
  intros Hn. rewrite (fetchData_final _ _ r (mk_axios_error (Some "ECONNRESET") "read ECONNRESET" None true)).
  - reflexivity.
  - unfold axios_get. by rewrite Hn.
  - by right.
Qed.

Lemma connection_reset_not_retried_witness :
  fetchData (fun _ => TransportError (mk_axios_error (Some "ECONNRESET") "read ECONNRESET" None true))
    0 MAX_RETRIES =
    ([ErrNoResponse], Throw (Error "Failed to fetch data after multiple attempts due to: read ECONNRESET"),
     1%nat).
Proof. by apply (connection_reset_not_retried _ 0 MAX_RETRIES). Defined.
End HttpProps.
