(* ===== verification/Schema.v ===== *)
(** * The persisted daily summary

    Models [src/models/weather_stats_schema.js]: the [WeatherSummary]
    Mongoose model and what [WeatherSummary.create(doc)] stores.  The schema
    declares six required fields; Mongoose's strict mode drops the fields
    the schema does not declare, casts the others, and rejects the document
    when a required field is missing (for a [String], also when it is
    empty) or a [Number] is [NaN].  Dates are time values in milliseconds
    since the epoch; the indexes only speed up queries and are not
    modelled. *)

From S2P Require Import Prelude JsValue WeatherStats.
From Stdlib Require Import Ascii String.
Open Scope string_scope.

(** The object the save job passes to [create]: the summary of
    [getDailySummary()] with the field [date] added (save cron line 13). *)
Record stats_to_save := mk_stats_to_save {
  sts_summary : DailySummary.t;
  sts_date : Z;
}.

Module WeatherSummary.
(** A stored document: the six fields of the schema (lines 4-31). *)
Record t := mk {
  city : string;
  date : Z;
  maxTemperature : num;
  minTemperature : num;
  avgTemperature : num;
  dominantWeather : string;
}.

(** The required [String] validator rejects the empty string. *)
Definition string_ok (s : string) : bool := negb (String.eqb s EmptyString).

(** Casting to [Number] rejects [NaN]; the infinities are numbers. *)
Definition number_ok (n : num) : bool := match n with NaN => false | _ => true end.

(** Every required path of the document passes its validator. *)
Definition valid (doc : stats_to_save) : bool :=
  let s := sts_summary doc in
  string_ok (DailySummary.city s) && number_ok (DailySummary.maxTemperature s)
  && number_ok (DailySummary.minTemperature s) && number_ok (DailySummary.avgTemperature s)
  && string_ok (DailySummary.dominantWeather s).

(** [WeatherSummary.create(doc)]: the strict projection onto the schema,
    stored when it validates, rejected with a [ValidationError]
    otherwise. *)
Definition create (doc : stats_to_save) : outcome t :=
  let s := sts_summary doc in
  if valid doc
  then Return (mk (DailySummary.city s) (sts_date doc) (DailySummary.maxTemperature s)
                  (DailySummary.minTemperature s) (DailySummary.avgTemperature s)
                  (DailySummary.dominantWeather s))
  else Throw (Error "WeatherSummary validation failed").
End WeatherSummary.

Lemma create_empty_dominant doc :
  DailySummary.dominantWeather (sts_summary doc) = EmptyString ->
  WeatherSummary.create doc = Throw (Error "WeatherSummary validation failed").
Proof.
  intros H. unfold WeatherSummary.create, WeatherSummary.valid, WeatherSummary.string_ok at 2.
  by rewrite H, andb_false_r.
Qed.

(** The summary of a non-empty history of valid observations with
    non-empty conditions, for a non-empty city, passes the schema. *)
Lemma summary_of_history_valid c h t :
  c <> EmptyString -> h <> [] ->
  Forall (fun d => StatsSpec.obs_ok d = true /\ WeatherData.condition d <> EmptyString) h ->
  WeatherSummary.valid
    (mk_stats_to_save (WeatherStats.getDailySummary (WeatherStats.add_all h (WeatherStats.create c))) t) = true.
Proof.
  intros Hc Hh Hok.
  destruct (StatsRefinement.summary_of_history_fields c h) as (Hcity & Hmax & Hmin & Havg & Hdom); [done| |].
  { eapply Forall_impl; [exact Hok|]. by intros d [Hd _]. }
  unfold WeatherSummary.valid, WeatherSummary.string_ok, WeatherSummary.number_ok. cbn [sts_summary].
  rewrite Hcity. apply list_elem_of_In, List.in_map_iff in Hdom as (d & Hd & Hin).
  rewrite List.Forall_forall in Hok. destruct (Hok d Hin) as [_ Hne]. rewrite <- Hd.
  repeat match goal with |- context [match ?n with NaN => _ | _ => _ end] =>
    destruct n; try discriminate end.
  all: by rewrite (proj2 (String.eqb_neq _ _) Hc), (proj2 (String.eqb_neq _ _) Hne).
Qed.

