(* ===== verification/Crons.v ===== *)
(** * The two scheduled jobs and their interleaving

    Models [src/cron/weather_cron.js] ([createWeatherCron]: the polling job
    with its module-level flag [isJobRunning]) and
    [src/cron/weather_save_cron.js] ([saveWeatherCronJob]: the persistence
    job).  Both handlers are [async] functions run by Node's single-threaded
    event loop: a handler runs without interruption up to its [await], and
    the rest of it runs later, when the awaited promise settles, possibly
    after other handlers.  Each handler is therefore split at its [await]
    into a tick ([poll_tick], [save_tick]) and a continuation
    ([poll_resume], [save_resume]); the pending continuations are part of
    the global state, and [handle] runs one event (a timer firing or a
    promise settling) to completion.  Every interleaving of the two jobs is
    a sequence of events, and [reachable] is the set of states they reach;
    [exec] replays a given sequence, so a particular interleaving can be
    evaluated.
    The settlement of the fetch carries the value [get_weather] resolves to
    ([Http.get_weather]: data, or [undefined] after a failure); the events
    range over every value of the modelled response type, an optional
    [main] with three numbers and a list of condition strings.  A body
    without [temp] or whose conditions are not strings is not
    representable, so the theorems cover every network behaviour that
    yields such bodies, not arbitrary JSON.  The retries of [fetchData] happen while the handler is suspended
    and touch no state the jobs share, so they are folded into that one
    event. *)

From S2P Require Import Prelude JsValue Dates Schedule WeatherStats Units WeatherTriggers WeatherManager Http Schema.
From Stdlib Require Import Ascii String.
Open Scope string_scope.
Local Open Scope Z_scope.

(** [new Date(new Date().setDate(new Date().getDate() - 1))] (save cron
    line 11): [tA] is the time of the [Date] whose [setDate] is called and
    [tB] the time of the one whose [getDate] is read; the receiver is
    evaluated before the argument, so [tA <= tB]. *)
Definition yesterday (tA tB : Z) : Z := setDate tA (getDate tB - 1).


(** The object literal of lines 28-33, evaluated field by field; reading a
    property of [undefined] throws a [TypeError].  [None] is the
    [undefined] that [get_weather] returns after a failed fetch. *)
Definition observation_of (r : option ApiResponse.t) : outcome WeatherData.t :=
  match r with
  | None => Throw (TypeError "Cannot read properties of undefined (reading 'main')")
  | Some resp =>
      match ApiResponse.main resp with
      | None => Throw (TypeError "Cannot read properties of undefined (reading 'temp')")
      | Some mn =>
          match ApiResponse.weather resp with
          | [] => Throw (TypeError "Cannot read properties of undefined (reading 'main')")
          | c :: _ => Return (WeatherData.mk (ApiResponse.temp mn) (ApiResponse.temp_max mn)
                                             (ApiResponse.temp_min mn) c)
          end
      end
  end.

(** ** The global state *)

(** The console lines the two jobs print. *)
Inductive cron_out :=
| PollSkipped                               (* console.warn, line 15 *)
| PollStarted                               (* line 22 *)
| PollFetched (r : option ApiResponse.t)    (* line 25 *)
| PollManager (o : manager_out)             (* printed by addWeatherData *)
| PollSummary (s : DailySummary.t)          (* line 36 *)
| PollError (e : js_exn)                    (* line 39 *)
| PollFinished                              (* line 43 *)
| SaveStarting                              (* save cron line 8 *)
| SaveSaved (city : string) (date : Z)      (* line 18 *)
| SaveFailed (e : js_exn).                  (* line 21 *)

Record sys := mk_sys {
  manager : WeatherManager.t;        (* the one WeatherManager both jobs share *)
  isJobRunning : bool;               (* the module-level flag of weather_cron.js *)
  polls : list string;               (* polling handlers suspended at their await: the city asked *)
  saves : list stats_to_save;        (* save handlers suspended at WeatherSummary.create *)
  db : list WeatherSummary.t;        (* the documents stored, oldest first *)
  error_file : string;               (* the contents of cron_error.log *)
}.

Definition set_manager (m : WeatherManager.t) (s : sys) : sys :=
  mk_sys m (isJobRunning s) (polls s) (saves s) (db s) (error_file s).
Definition set_running (b : bool) (s : sys) : sys :=
  mk_sys (manager s) b (polls s) (saves s) (db s) (error_file s).
Definition set_polls (p : list string) (s : sys) : sys :=
  mk_sys (manager s) (isJobRunning s) p (saves s) (db s) (error_file s).
Definition set_saves (l : list stats_to_save) (s : sys) : sys :=
  mk_sys (manager s) (isJobRunning s) (polls s) l (db s) (error_file s).
Definition set_db (l : list WeatherSummary.t) (s : sys) : sys :=
  mk_sys (manager s) (isJobRunning s) (polls s) (saves s) l (error_file s).
Definition set_error_file (l : string) (s : sys) : sys :=
  mk_sys (manager s) (isJobRunning s) (polls s) (saves s) (db s) l.

(** ** The polling job (weather_cron.js lines 13-44) *)

(** The handler up to its [await] (lines 14-24): skip when a previous run
    is still in flight, otherwise raise the flag and ask for the weather of
    the manager's city. *)
Definition poll_tick : eff sys cron_out unit :=
  s ← eff_get;
  if isJobRunning s then eff_emit PollSkipped
  else
    eff_modify (set_running true) ;;
    eff_emit PollStarted ;;
    eff_modify (fun s' => set_polls (polls s' ++ [WeatherManager.getCity (manager s')])%list s').

(** The rest of the [try] block (lines 25-36), run with the response. *)
Definition poll_body (r : option ApiResponse.t) : eff sys cron_out unit :=
  eff_emit (PollFetched r) ;;
  d ← eff_lift (observation_of r);
  eff_focus manager set_manager (eff_map_out PollManager (WeatherManager.addWeatherData d)) ;;
  s ← eff_get;
  eff_emit (PollSummary (WeatherManager.getDailySummary (manager s))).

(** [catch (error)] (lines 38-40): print it and append it to the error log. *)
Definition poll_catch (now : Z) (e : js_exn) : eff sys cron_out unit :=
  eff_emit (PollError e) ;;
  eff_modify (fun s => set_error_file (logErrorToFile now e (error_file s)) s).

(** [finally] (lines 41-44): lower the flag. *)
Definition poll_release : eff sys cron_out unit :=
  eff_modify (set_running false) ;; eff_emit PollFinished.

Definition poll_resume (now : Z) (r : option ApiResponse.t) : eff sys cron_out unit :=
  eff_finally (eff_catch (poll_body r) (poll_catch now)) poll_release.

(** ** The persistence job (weather_save_cron.js lines 6-23) *)

(** The handler up to its [await] (lines 8-16): the date of yesterday, the
    summary of the shared manager with that date, and the call to
    [WeatherSummary.create]. *)
Definition save_tick (tA tB : Z) : eff sys cron_out unit :=
  eff_emit SaveStarting ;;
  s ← eff_get;
  let statsToSave := mk_stats_to_save (WeatherManager.getDailySummary (manager s)) (yesterday tA tB) in
  eff_modify (set_saves (saves s ++ [statsToSave])%list).

(** The rest (lines 16-22), when the database answers; [db_up] is false
    when the connection fails. *)
Definition save_resume (doc : stats_to_save) (db_up : bool) : eff sys cron_out unit :=
  eff_catch
    (rec ← eff_lift (if db_up then WeatherSummary.create doc
                     else Throw (Error "MongoNetworkError"));
     eff_modify (fun s => set_db (db s ++ [rec])%list s) ;;
     eff_emit (SaveSaved (WeatherSummary.city rec) (sts_date doc)))
    (fun e => eff_emit (SaveFailed e)).

(** ** Events of the event loop *)

Inductive event :=
| PollTick                                  (* the */1 timer fires *)
| PollResponse (now : Z) (r : option ApiResponse.t)   (* get_weather settles at time now *)
| SaveTick (tA tB : Z)                      (* the */3 timer fires at time tA <= tB *)
| SaveResponse (i : nat) (db_up : bool).    (* the i-th pending create settles *)

Definition run (m : eff sys cron_out unit) (s : sys) : sys * list cron_out :=
  let '(s', o, _) := m s in (s', o).

(** One event run to completion; [None] when the event cannot happen (no
    handler is waiting for that promise). *)
Definition handle (e : event) (s : sys) : option (sys * list cron_out) :=
  match e with
  | PollTick => Some (run poll_tick s)
  | PollResponse now r =>
      match polls s with
      | [] => None
      | _ :: rest => Some (run (poll_resume now r) (set_polls rest s))
      end
  | SaveTick tA tB => Some (run (save_tick tA tB) s)
  | SaveResponse i db_up =>
      match saves s !! i with
      | None => None
      | Some doc => Some (run (save_resume doc db_up) (set_saves (delete i (saves s)) s))
      end
  end.

(** The state after [app.js] started both jobs with the manager [m]. *)
Definition init (m : WeatherManager.t) : sys := mk_sys m false [] [] [] EmptyString.

Inductive reachable (m0 : WeatherManager.t) : sys -> Prop :=
| reach_init : reachable m0 (init m0)
| reach_step s e s' o : reachable m0 s -> handle e s = Some (s', o) -> reachable m0 s'.

(** A finite run of the event loop: the events in order, each run to
    completion; [None] as soon as one cannot happen. *)
Fixpoint exec (es : list event) (s : sys) : option (sys * list cron_out) :=
  match es with
  | [] => Some (s, [])
  | e :: es' =>
      match handle e s with
      | None => None
      | Some (s1, o1) =>
          match exec es' s1 with
          | None => None
          | Some (s2, o2) => Some (s2, (o1 ++ o2)%list)
          end
      end
  end.

(** The number of persistence timer firings in a run. *)
Fixpoint save_ticks (es : list event) : nat :=
  match es with
  | [] => O
  | SaveTick _ _ :: es' => S (save_ticks es')
  | _ :: es' => save_ticks es'
  end.

(** A timed run: each event with the instant its timer fired (the instant
    is only read for timer events), and the instants of the persistence
    firings. *)
Definition save_tick_time (te : Z * event) : list Z :=
  match te.2 with SaveTick _ _ => [te.1] | _ => [] end.

Definition save_tick_times (tr : list (Z * event)) : list Z := flat_map save_tick_time tr.

(** ** The invariants the jobs keep, and a sample state *)

Module CronSpec.
(** The flag is up exactly while a polling handler is suspended, and at
    most one is. *)
Definition poll_inv (s : sys) : Prop :=
  (isJobRunning s = true <-> polls s ≠ []) /\ (List.length (polls s) <= 1)%nat.

(** The statistics are those of some history [h] of recorded
    observations, and every pending or stored summary is the summary of a
    prefix of [h]: a snapshot always shows a state the statistics were in,
    never a half-updated one. *)
Definition snapshot_inv (c0 : string) (s : sys) : Prop :=
  exists h : list WeatherData.t,
    WeatherManager.weatherStats (manager s) = WeatherStats.add_all h (WeatherStats.create c0) /\
    Forall (fun doc => exists k, sts_summary doc =
              WeatherStats.getDailySummary (WeatherStats.add_all (take k h) (WeatherStats.create c0)))
           (saves s) /\
    Forall (fun rec => exists k t, WeatherSummary.create (mk_stats_to_save
              (WeatherStats.getDailySummary (WeatherStats.add_all (take k h) (WeatherStats.create c0))) t)
              = Return rec)
           (db s).
(** The contents of [cron_error.log] after a sequence of [logErrorToFile]
    calls, one whole line per call, oldest first. *)
Fixpoint log_lines (l : list (Z * js_exn)) : string :=
  match l with
  | [] => EmptyString
  | (t, e) :: l' => (error_line t e ++ log_lines l')%string
  end.

(** One polling cycle whose fetch answers 300 K (max 301, min 299) and
    "Clear". *)
Definition sample_poll_events : list event :=
  [PollTick; PollResponse 0 (Some (ApiResponse.mk
     (Some (ApiResponse.mk_main (num_of_Z 300) (num_of_Z 301) (num_of_Z 299))) ["Clear"]))].

Definition sample_saving_state : sys :=
  mk_sys (WeatherManager.mk (WeatherStats.add_all StatsSamples.sample_history (WeatherStats.create "Delhi"))
            [] "celsius") false [] [] [] EmptyString.
End CronSpec.

(** ** Each handler on every branch *)

Module CronFacts.

Lemma poll_tick_spec s :
  poll_tick s =
  if isJobRunning s then (s, [PollSkipped], Return tt)
  else (set_polls (polls s ++ [WeatherManager.getCity (manager s)])%list (set_running true s),
        [PollStarted], Return tt).
Proof. unfold poll_tick. eff_unfold. by destruct (isJobRunning s). Qed.

(** The continuation of the polling job: the flag is always lowered, the
    error (if any) is logged, and the job never rejects. *)
Lemma poll_resume_spec now r s :
  poll_resume now r s =
  match observation_of r with
  | Throw e =>
      (mk_sys (manager s) false (polls s) (saves s) (db s) (logErrorToFile now e (error_file s)),
       [PollFetched r; PollError e; PollFinished], Return tt)
  | Return d =>
      match WeatherManager.addWeatherData d (manager s) with
      | (m', o, Return _) =>
          (mk_sys m' false (polls s) (saves s) (db s) (error_file s),
           (PollFetched r :: map PollManager o
              ++ [PollSummary (WeatherManager.getDailySummary m'); PollFinished])%list,
           Return tt)
      | (m', o, Throw e) =>
          (mk_sys m' false (polls s) (saves s) (db s) (logErrorToFile now e (error_file s)),
           (PollFetched r :: map PollManager o ++ [PollError e; PollFinished])%list,
           Return tt)
      end
  end.
Proof.
  unfold poll_resume, poll_body, poll_catch, poll_release. eff_unfold.
  destruct (observation_of r) as [d|e]; cbn -[WeatherManager.addWeatherData]; [|done].
  destruct (WeatherManager.addWeatherData d (manager s)) as [[m' o] [u|e]];
    cbn; by rewrite ?app_nil_r, <- ?app_assoc.
Qed.

Lemma save_tick_spec tA tB s :
  save_tick tA tB s =
  (set_saves (saves s ++ [mk_stats_to_save (WeatherManager.getDailySummary (manager s))
                            (yesterday tA tB)])%list s,
   [SaveStarting], Return tt).
Proof. reflexivity. Qed.

Lemma save_resume_spec doc db_up s :
  save_resume doc db_up s =
  match (if db_up then WeatherSummary.create doc else Throw (Error "MongoNetworkError")) with
  | Return rec => (set_db (db s ++ [rec])%list s,
                   [SaveSaved (WeatherSummary.city rec) (sts_date doc)], Return tt)
  | Throw e => (s, [SaveFailed e], Return tt)
  end.
Proof.
  unfold save_resume. eff_unfold.
  by destruct (if db_up then WeatherSummary.create doc else _) as [rec|e].
Qed.
(** After a tick that starts a fetch, the settlement of that fetch runs
    the continuation on the state the tick left. *)
Lemma handle_after_tick s now r :
  isJobRunning s = false ->
  handle (PollResponse now r) (run poll_tick s).1 =
  Some (run (poll_resume now r)
          (set_polls (tail (polls s ++ [WeatherManager.getCity (manager s)])%list) (set_running true s))).
Proof.
  intros Hr. unfold run. rewrite poll_tick_spec, Hr.
  cbn [handle polls set_polls set_running]. by destruct (polls s).
Qed.
Lemma exec_cons e es s s1 o1 :
  handle e s = Some (s1, o1) ->
  exec (e :: es) s = match exec es s1 with
                     | None => None
                     | Some (s2, o2) => Some (s2, (o1 ++ o2)%list)
                     end.
Proof. intros H. cbn [exec]. by rewrite H. Qed.

(** A persistence timer always starts a run, whatever is pending. *)
Lemma handle_save_tick tA tB s :
  handle (SaveTick tA tB) s =
  Some (set_saves (saves s ++ [mk_stats_to_save (WeatherManager.getDailySummary (manager s))
                                 (yesterday tA tB)])%list s, [SaveStarting]).
Proof. cbn [handle]. unfold run. by rewrite save_tick_spec. Qed.

(** The database accepting the pending run [i] stores its document. *)
Lemma handle_save_stored i doc rec s :
  saves s !! i = Some doc -> WeatherSummary.create doc = Return rec ->
  handle (SaveResponse i true) s =
  Some (set_db (db s ++ [rec])%list (set_saves (delete i (saves s)) s),
        [SaveSaved (WeatherSummary.city rec) (sts_date doc)]).
Proof. intros Hi Hc. cbn [handle]. rewrite Hi. unfold run. by rewrite save_resume_spec, Hc. Qed.

Lemma length_save_tick_times tr :
  List.length (save_tick_times tr) = save_ticks (map snd tr).
Proof.
  unfold save_tick_times. induction tr as [|[t []] tr IH]; cbn [flat_map map snd save_tick_time save_ticks Datatypes.length app]; lia.
Qed.

(** One event adds at most one run, stored or pending, and only a
    persistence timer adds one. *)
Lemma handle_runs e s s' o :
  handle e s = Some (s', o) ->
  (List.length (db s') + List.length (saves s') <=
   List.length (db s) + List.length (saves s) + save_ticks [e])%nat.
Proof.
  intros He. destruct e as [|now r|tA tB|i up]; cbn [handle save_ticks] in *.
  - injection He as He. unfold run in He. rewrite poll_tick_spec in He.
    destruct (isJobRunning s); injection He as <- <-; cbn; lia.
  - destruct (polls s) as [|c cs]; [done|]. injection He as He.
    unfold run in He. rewrite poll_resume_spec in He.
    destruct (observation_of r) as [d|err];
      [destruct (WeatherManager.addWeatherData d (manager _)) as [[m' o'] [u|err]]|];
      injection He as <- <-; cbn; lia.
  - unfold run in He. rewrite save_tick_spec in He.
    injection He as <- <-. cbn. rewrite length_app. cbn. lia.
  - destruct (saves s !! i) as [doc|] eqn:Hi; [|done]. injection He as He.
    unfold run in He. rewrite save_resume_spec in He.
    pose proof (lookup_lt_Some _ _ _ Hi). pose proof (length_delete (saves s) i ltac:(eauto)).
    destruct up; [destruct (WeatherSummary.create doc)|];
      injection He as <- <-; cbn; rewrite ?length_app; cbn; lia.
Qed.

Lemma exec_runs es s s' o :
  exec es s = Some (s', o) ->
  (List.length (db s') + List.length (saves s') <=
   List.length (db s) + List.length (saves s) + save_ticks es)%nat.
Proof.
  revert s o. induction es as [|e es IH]; intros s o He; cbn [exec] in He.
  - injection He as <- _. cbn. lia.
  - destruct (handle e s) as [[s1 o1]|] eqn:H1; [|done].
    destruct (exec es s1) as [[s2 o2]|] eqn:H2; [|done]. injection He as <- _.
    pose proof (handle_runs e s s1 o1 H1). pose proof (IH s1 o2 H2).
    destruct e; cbn [save_ticks] in *; lia.
Qed.

(** A run from a reachable state ends in a reachable state. *)
Lemma exec_reachable m0 es s s' o :
  reachable m0 s -> exec es s = Some (s', o) -> reachable m0 s'.
Proof.
  revert s o. induction es as [|e es IH]; intros s o Hs He; cbn [exec] in He.
  - by injection He as <- _.
  - destruct (handle e s) as [[s1 o1]|] eqn:H1; [|done].
    destruct (exec es s1) as [[s2 o2]|] eqn:H2; [|done]. injection He as <- _.
    apply (IH s1 o2); [econstructor; eauto | done].
Qed.

Lemma log_lines_snoc l now e :
  CronSpec.log_lines (l ++ [(now, e)])%list = logErrorToFile now e (CronSpec.log_lines l).
Proof.
  unfold logErrorToFile. induction l as [|[t e'] l IH]; cbn [app CronSpec.log_lines].
  - by rewrite !string_app_nil_r.
  - by rewrite IH, string_app_assoc.
Qed.

(** One event either leaves the log as it is or appends one error line,
    written at the time the settled fetch resumed. *)
Lemma handle_error_file e s s' o :
  handle e s = Some (s', o) ->
  error_file s' = error_file s \/
  exists now r err, e = PollResponse now r /\ error_file s' = logErrorToFile now err (error_file s).
Proof.
  intros He. destruct e as [|now r|tA tB|i up]; simpl in He.
  - injection He as He. unfold run in He. rewrite poll_tick_spec in He.
    destruct (isJobRunning s); injection He as <- <-; by left.
  - destruct (polls s) as [|c cs]; [done|]. injection He as He.
    unfold run in He. rewrite poll_resume_spec in He.
    destruct (observation_of r) as [d|err];
      [destruct (WeatherManager.addWeatherData d (manager _)) as [[m' o'] [u|err]]|];
      injection He as <- <-; [by left| |]; right; by exists now, r, err.
  - injection He as He. unfold run in He. rewrite ?save_tick_spec in He. subst. by left.
  - destruct (saves s !! i) as [doc|] eqn:Hi; [|done]. injection He as He.
    unfold run in He. rewrite save_resume_spec in He.
    destruct up; [destruct (WeatherSummary.create doc)|]; injection He as He; subst; by left.
Qed.
End CronFacts.

(** ** Invariants of the interleaved jobs *)

Module CronInvariants.
Import CronSpec CronFacts.


Lemma poll_inv_init m0 : poll_inv (init m0).
Proof. split; [split; [done | by intros []] | simpl; lia]. Qed.

Lemma handle_poll_inv e s s' o :
  poll_inv s -> handle e s = Some (s', o) -> poll_inv s'.
Proof.
  intros [Hrun Hlen] He. destruct e as [|now r|tA tB|i up]; simpl in He.
  - injection He as He. unfold run in He. rewrite poll_tick_spec in He.
    destruct (isJobRunning s) eqn:Hr; injection He as <- <-; [split; [by rewrite Hr | done]|].
    destruct (polls s) as [|c cs] eqn:Hp; [|by assert (false = true) by (apply Hrun; done)].
    split; [split; [done | auto] | simpl; lia].
  - destruct (polls s) as [|c cs] eqn:Hp; [done|]. injection He as He.
    unfold run in He. rewrite poll_resume_spec in He.
    assert (cs = []) as -> by (destruct cs; [done | simpl in Hlen; lia]).
    destruct (observation_of r) as [d|err];
      [destruct (WeatherManager.addWeatherData d (manager _)) as [[m' o'] [u|err]]|];
      injection He as <- <-; (split; [split; [done | by intros []] | simpl; lia]).
  - injection He as He. unfold run in He. rewrite ?save_tick_spec in He.
    subst. by split.
  - destruct (saves s !! i) as [doc|]; [|done]. injection He as He.
    unfold run in He. rewrite save_resume_spec in He.
    destruct (if up then WeatherSummary.create doc else _); injection He as <- <-; by split.
Qed.

Lemma reachable_poll_inv m0 s : reachable m0 s -> poll_inv s.
Proof. induction 1; [apply poll_inv_init | eapply handle_poll_inv; eauto]. Qed.


Lemma add_all_snoc h d s :
  WeatherStats.add_all (h ++ [d]) s = WeatherStats.add_stats d (WeatherStats.add_all h s).
Proof. unfold WeatherStats.add_all. by rewrite fold_left_app. Qed.

Lemma take_snoc_prefix {A} (h : list A) x k : exists k', take k h = take k' (h ++ [x]).
Proof.
  exists (min k (List.length h)). rewrite take_app_le by lia.
  destruct (Nat.le_ge_cases k (List.length h)).
  - by rewrite Nat.min_l.
  - rewrite Nat.min_r, !take_ge by lia; done.
Qed.

Lemma snapshot_inv_extend c0 s h d :
  Forall (fun doc => exists k, sts_summary doc =
            WeatherStats.getDailySummary (WeatherStats.add_all (take k h) (WeatherStats.create c0)))
         (saves s) ->
  Forall (fun rec => exists k t, WeatherSummary.create (mk_stats_to_save
            (WeatherStats.getDailySummary (WeatherStats.add_all (take k h) (WeatherStats.create c0))) t)
            = Return rec)
         (db s) ->
  Forall (fun doc => exists k, sts_summary doc =
            WeatherStats.getDailySummary (WeatherStats.add_all (take k (h ++ [d])) (WeatherStats.create c0)))
         (saves s) /\
  Forall (fun rec => exists k t, WeatherSummary.create (mk_stats_to_save
            (WeatherStats.getDailySummary (WeatherStats.add_all (take k (h ++ [d])) (WeatherStats.create c0))) t)
            = Return rec)
         (db s).
Proof.
  intros Hs Hd. split.
  - eapply Forall_impl; [exact Hs|]. intros doc [k Hk].
    destruct (take_snoc_prefix h d k) as [k' Hk']. exists k'. by rewrite <- Hk'.
  - eapply Forall_impl; [exact Hd|]. intros rec (k & t & Hk).
    destruct (take_snoc_prefix h d k) as [k' Hk']. exists k', t. by rewrite <- Hk'.
Qed.

Lemma handle_snapshot_inv c0 e s s' o :
  snapshot_inv c0 s -> handle e s = Some (s', o) -> snapshot_inv c0 s'.
Proof.
  intros (h & Hst & Hs & Hd) He. destruct e as [|now r|tA tB|i up]; simpl in He.
  - injection He as He. unfold run in He. rewrite poll_tick_spec in He.
    destruct (isJobRunning s); injection He as <- <-; by exists h.
  - destruct (polls s) as [|c cs]; [done|]. injection He as He.
    unfold run in He. rewrite poll_resume_spec in He.
    cbn [manager saves db error_file set_polls] in He.
    destruct (observation_of r) as [d|err]; [|injection He as <- <-; by exists h].
    pose proof (ManagerFacts.addWeatherData_state d (manager s)) as Hm.
    destruct (WeatherManager.addWeatherData d (manager s)) as [[m' o'] [u|err]];
      simpl in Hm; subst m'; injection He as <- <-;
      exists (h ++ [WeatherManager.format_data (manager s) d])%list; simpl;
      (split; [by rewrite add_all_snoc, <- Hst|]); by apply snapshot_inv_extend.
  - injection He as <- <-. exists h. simpl. split; [done|]. split; [|done].
    apply Forall_app. split; [done|]. constructor; [|done].
    exists (List.length h). simpl. unfold WeatherManager.getDailySummary.
    by rewrite Hst, take_ge.
  - destruct (saves s !! i) as [doc|] eqn:Hi; [|done]. injection He as He.
    unfold run in He. rewrite save_resume_spec in He.
    assert (Hdoc : exists k, sts_summary doc = WeatherStats.getDailySummary
              (WeatherStats.add_all (take k h) (WeatherStats.create c0))).
    { rewrite Forall_lookup in Hs. by apply (Hs i). }
    assert (Hs' : Forall (fun doc => exists k, sts_summary doc = WeatherStats.getDailySummary
              (WeatherStats.add_all (take k h) (WeatherStats.create c0))) (delete i (saves s))).
    { rewrite Forall_forall in Hs |- *. intros x Hx. apply Hs.
      by apply list_elem_of_delete_inv in Hx. }
    destruct (if up then WeatherSummary.create doc else _) as [rec|err] eqn:Ec;
      injection He as <- <-; exists h; (split; [done|]); simpl; (split; [done|]); [|done].
    apply Forall_app. split; [done|]. constructor; [|done].
    destruct Hdoc as [k Hk]. exists k, (sts_date doc). rewrite <- Hk.
    destruct up; [|done]. by destruct doc.
Qed.

(** C11. Snapshot consistency: starting from a fresh [WeatherStats], in
    every interleaving of the two jobs the statistics are those of the
    observations recorded so far, and every summary waiting for the
    database or stored in it is the summary of a prefix of that history
    (the stored document being its validated projection): a snapshot
    never shows a half-applied [add_stats]. *)
Theorem persisted_summaries_are_snapshots (c0 : string) (m0 : WeatherManager.t) (s : sys) :
  WeatherManager.weatherStats m0 = WeatherStats.create c0 ->
  reachable m0 s -> snapshot_inv c0 s.
Proof.
  intros H0. induction 1 as [|s e s' o _ IH He]; [by exists []|].
  eapply handle_snapshot_inv; eauto.
Qed.

Lemma persisted_summaries_are_snapshots_witness :
  WeatherManager.weatherStats (WeatherManager.create "Delhi" "celsius") = WeatherStats.create "Delhi" /\
  reachable (WeatherManager.create "Delhi" "celsius") (init (WeatherManager.create "Delhi" "celsius")) /\
  snapshot_inv "Delhi" (init (WeatherManager.create "Delhi" "celsius")).
Proof.
  split; [reflexivity|]. split; [constructor|].
  apply persisted_summaries_are_snapshots with (m0 := WeatherManager.create "Delhi" "celsius");
    [reflexivity | constructor].
Defined.
(** The store changes only when a pending [create] succeeds, by appending
    the document it returns. *)
(** In every reachable state the error log is a sequence of whole
    lines. *)
Lemma reachable_error_log m0 s :
  reachable m0 s -> exists l, error_file s = log_lines l.
Proof.
  induction 1 as [|s e s' o _ [l Hl] He]; [by exists []|].
  destruct (handle_error_file e s s' o He) as [-> | (now & r & err & _ & ->)].
  - by exists l.
  - exists (l ++ [(now, err)])%list. by rewrite log_lines_snoc, Hl.
Qed.
(** C14. [cron_error.log] only ever holds whole lines: in every
    interleaving its contents are the lines of the errors logged so far,
    oldest first, and the next event either leaves it unchanged or
    appends exactly one line, the one [logErrorToFile] writes when a
    settled fetch resumes; the log is never truncated or rewritten. *)
Theorem error_log_is_whole_lines (m0 : WeatherManager.t) (s : sys) :
  reachable m0 s ->
  exists l, error_file s = log_lines l /\
    forall e s' o, handle e s = Some (s', o) ->
      error_file s' = log_lines l \/
      exists now r err, e = PollResponse now r /\ error_file s' = log_lines (l ++ [(now, err)])%list.
Proof.
  intros Hs. destruct (reachable_error_log m0 s Hs) as [l Hl]. exists l. split; [done|].
  intros e s' o He. rewrite <- Hl.
  destruct (handle_error_file e s s' o He) as [| (now & r & err & -> & Hf)]; [by left|].
  right. exists now, r, err. by rewrite log_lines_snoc, <- Hl.
Qed.

Lemma error_log_is_whole_lines_witness :
  exists s2, reachable (WeatherManager.create "Delhi" "celsius") s2 /\ isJobRunning s2 = false /\
    error_file s2 = log_lines [(0%Z, TypeError "Cannot read properties of undefined (reading 'main')")] /\
    exists l, error_file s2 = log_lines l.
Proof.
  eexists. assert (Hr : reachable (WeatherManager.create "Delhi" "celsius")
    (run (poll_resume 0 None) (set_polls [] (set_running true (init (WeatherManager.create "Delhi" "celsius"))))).1).
  { set (m := WeatherManager.create "Delhi" "celsius").
    eapply (reach_step _ (run poll_tick (init m)).1 (PollResponse 0 None));
      [eapply (reach_step _ (init m) PollTick); [apply reach_init | reflexivity] | reflexivity]. }
  split; [exact Hr|]. split; [reflexivity|]. split; [vm_compute; reflexivity|].
  destruct (error_log_is_whole_lines _ _ Hr) as [l [Hl _]]. by exists l.
Defined.
End CronInvariants.

(** ** Properties of the two jobs *)

Module CronProps.
Import CronSpec CronFacts CronInvariants.

(** C3. Non-reentrancy: in every interleaving of timer firings, fetch
    completions and database completions, at most one polling handler is
    suspended at its [await], and [isJobRunning] is set exactly while one
    is. *)
Theorem at_most_one_fetch_in_flight (m0 : WeatherManager.t) (s : sys) :
  reachable m0 s ->
  (List.length (polls s) <= 1)%nat /\ (isJobRunning s = true <-> polls s ≠ []).
Proof. intros H. destruct (reachable_poll_inv m0 s H). auto. Qed.

Lemma at_most_one_fetch_in_flight_witness :
  reachable (WeatherManager.create "Delhi" "celsius") (init (WeatherManager.create "Delhi" "celsius")) /\
  (List.length (polls (init (WeatherManager.create "Delhi" "celsius"))) <= 1)%nat.
Proof.
  split; [constructor|].
  apply (at_most_one_fetch_in_flight (WeatherManager.create "Delhi" "celsius")). constructor.
Defined.

(** C18. A timer firing while a fetch is still outstanding is dropped
    entirely: the state is unchanged (no second fetch, no [add_stats])
    and only the warning is printed. *)
Theorem tick_while_in_flight_is_dropped (m0 : WeatherManager.t) (s : sys) :
  reachable m0 s -> polls s ≠ [] -> handle PollTick s = Some (s, [PollSkipped]).
Proof.
  intros Hr Hp. destruct (reachable_poll_inv m0 s Hr) as [Hrun _].
  simpl. unfold run. rewrite poll_tick_spec. by rewrite (proj2 Hrun Hp).
Qed.

Lemma tick_while_in_flight_is_dropped_witness :
  let m0 := WeatherManager.create "Delhi" "celsius" in
  let s1 := (run poll_tick (init m0)).1 in
  reachable m0 s1 /\ polls s1 ≠ [] /\ handle PollTick s1 = Some (s1, [PollSkipped]).
Proof.
  cbv zeta.
  assert (Hr : reachable (WeatherManager.create "Delhi" "celsius")
                 (run poll_tick (init (WeatherManager.create "Delhi" "celsius"))).1).
  { eapply (reach_step _ _ PollTick); [constructor | reflexivity]. }
  assert (Hp : polls (run poll_tick (init (WeatherManager.create "Delhi" "celsius"))).1 ≠ [])
    by (vm_compute; discriminate).
  split; [done|]. split; [done|].
  exact (tick_while_in_flight_is_dropped _ _ Hr Hp).
Defined.

(** C4. Release: whenever the flag is up, the completion of the
    outstanding fetch (whatever it returns, including a failure) runs the
    continuation, which lowers the flag, leaves no fetch in flight and
    ends by printing [finished], so the next firing is eligible. *)
Theorem fetch_completion_releases (m0 : WeatherManager.t) (s : sys) (now : Z) (r : option ApiResponse.t) :
  reachable m0 s -> isJobRunning s = true ->
  exists s' o, handle (PollResponse now r) s = Some (s', o) /\ isJobRunning s' = false /\
               polls s' = [] /\ exists o', o = (o' ++ [PollFinished])%list.
Proof.
  intros Hr Hrun. destruct (reachable_poll_inv m0 s Hr) as [Hiff Hlen].
  apply Hiff in Hrun. simpl.
  destruct (polls s) as [|c [|c' cs]] eqn:Hp; [done| |simpl in Hlen; lia].
  unfold run. rewrite poll_resume_spec. cbn [manager saves db error_file set_polls polls].
  destruct (observation_of r) as [d|err];
    [destruct (WeatherManager.addWeatherData d (manager s)) as [[m' o'] [u|err]]|];
    eexists _, _; (split; [reflexivity|]); simpl; (split; [done|]); (split; [done|]).
  - exists (PollFetched r :: map PollManager o' ++
              [PollSummary (WeatherManager.getDailySummary m')])%list.
    simpl. by rewrite <- app_assoc.
  - exists (PollFetched r :: map PollManager o' ++ [PollError err])%list.
    simpl. by rewrite <- app_assoc.
  - by exists [PollFetched r; PollError err].
Qed.

Lemma fetch_completion_releases_witness :
  let m0 := WeatherManager.create "Delhi" "celsius" in
  let s1 := (run poll_tick (init m0)).1 in
  reachable m0 s1 /\ isJobRunning s1 = true /\
  exists s' o, handle (PollResponse 0 None) s1 = Some (s', o) /\ isJobRunning s' = false /\
               polls s' = [] /\ exists o', o = (o' ++ [PollFinished])%list.
Proof.
  cbv zeta.
  assert (Hr : reachable (WeatherManager.create "Delhi" "celsius")
                 (run poll_tick (init (WeatherManager.create "Delhi" "celsius"))).1).
  { eapply (reach_step _ _ PollTick); [constructor | reflexivity]. }
  split; [done|]. split; [reflexivity|].
  exact (fetch_completion_releases _ _ 0 None Hr eq_refl).
Defined.

(** C12. Error containment: whatever the response, the polling
    continuation returns normally (the job never rejects), lowers the
    flag, and either logs nothing or appends exactly the error it caught
    to [cron_error.log] after printing it. *)
Theorem poll_handler_contains_errors (now : Z) (r : option ApiResponse.t) (s : sys) :
  (poll_resume now r s).2 = Return tt /\ isJobRunning (poll_resume now r s).1.1 = false /\
  (error_file (poll_resume now r s).1.1 = error_file s \/
   exists e, error_file (poll_resume now r s).1.1 = logErrorToFile now e (error_file s) /\
             PollError e ∈ (poll_resume now r s).1.2).
Proof.
  rewrite poll_resume_spec.
  destruct (observation_of r) as [d|err];
    [destruct (WeatherManager.addWeatherData d (manager s)) as [[m' o'] [u|err]]|];
    simpl; (split; [done|]); (split; [done|]); [by left | right; exists err; split; [done|] ..].
  - apply elem_of_cons. right. apply elem_of_app. right. set_solver.
  - set_solver.
Qed.

(** C30. A failed fetch is not logged as such: [get_weather] catches the
    fetch error and returns [undefined], so the polling job logs the
    [TypeError] of reading [main] of [undefined] and leaves the
    statistics untouched. *)
Theorem failed_fetch_logs_type_error (now : Z) (s : sys) :
  manager (poll_resume now None s).1.1 = manager s /\
  error_file (poll_resume now None s).1.1
    = logErrorToFile now (TypeError "Cannot read properties of undefined (reading 'main')") (error_file s).
Proof. rewrite poll_resume_spec. by split. Qed.

Lemma getDate_Day t1 t2 : Day t1 = Day t2 -> getDate t1 = getDate t2.
Proof. unfold getDate. by intros ->. Qed.

(** C32. When both [new Date()] calls fall on the same day, the saved date
    is exactly one day (86 400 000 ms) before the firing, on the previous
    calendar day. *)
Theorem yesterday_same_day (tA tB : Z) :
  Day tA = Day tB ->
  yesterday tA tB = tA - msPerDay /\ Day (yesterday tA tB) = Day tA - 1.
Proof.
  intros H. unfold yesterday, setDate. rewrite (getDate_Day tB tA) by done.
  replace (tA + (getDate tA - 1 - getDate tA) * msPerDay) with (tA + (-1) * msPerDay) by lia.
  split; [lia|]. unfold Day. rewrite Z.div_add; [lia | unfold msPerDay; lia].
Qed.

Lemma yesterday_same_day_witness :
  Day 1706659199999 = Day 1706659199999 /\ yesterday 1706659199999 1706659199999 = 1706659199999 - msPerDay.
Proof. split; [reflexivity | apply yesterday_same_day; reflexivity]. Defined.

(** C33. When midnight falls between the two [new Date()] calls (the
    receiver is taken on day [D], [getDate()] is read on [D + 1]), the
    saved date is never the day before [D]: mid-month it is the firing
    instant itself, on day [D]; when the second call lands on the 1st of
    a month, the job calls [setDate(0)] on the receiver and saves the last
    day of the month before [D]'s, [getDate(D)] (at least 28) days back. *)
Theorem yesterday_midnight_race (tA tB : Z) :
  Day tB = Day tA + 1 ->
  (getDate tB <> 1 -> yesterday tA tB = tA) /\
  (getDate tB = 1 -> yesterday tA tB = tA - getDate tA * msPerDay /\ 28 <= getDate tA).
Proof.
  intros H. pose proof (getDate_bounds tA). unfold yesterday, setDate.
  destruct (getDate_next_day tA tB H) as [E|[E1 E2]]; rewrite ?E, ?E1; split; intros Hb; lia.
Qed.

Lemma yesterday_midnight_race_witness :
  Day 1706745600000 = Day 1706745599999 + 1 /\
  yesterday 1706745599999 1706745600000 = 1706745599999 - 31 * msPerDay /\
  Day 1705363200000 = Day 1705363199999 + 1 /\
  yesterday 1705363199999 1705363200000 = 1705363199999.
Proof.
  assert (H1 : Day 1706745600000 = Day 1706745599999 + 1) by reflexivity.
  assert (H2 : Day 1705363200000 = Day 1705363199999 + 1) by reflexivity.
  split_and!; [exact H1 | | exact H2 |].
  - rewrite (proj1 (proj2 (yesterday_midnight_race _ _ H1) ltac:(reflexivity))). reflexivity.
  - apply (proj1 (yesterday_midnight_race _ _ H2)). vm_compute. discriminate.
Defined.

(** C31. Before the first observation is recorded, a persistence run
    stores nothing: the summary's [dominantWeather] is the empty string,
    which the schema's required validator rejects (or the database is
    down), so the job prints the error and the store is unchanged. *)
Theorem save_before_first_observation_stores_nothing (m0 : WeatherManager.t) (c0 : string)
    (tA tB : Z) (db_up : bool) :
  WeatherManager.weatherStats m0 = WeatherStats.create c0 ->
  exists e, handle (SaveResponse 0 db_up) (run (save_tick tA tB) (init m0)).1
            = Some (init m0, [SaveFailed e]).
Proof.
  intros H0. simpl. unfold run. rewrite save_resume_spec.
  unfold WeatherManager.getDailySummary. rewrite H0.
  destruct db_up; [rewrite create_empty_dominant by reflexivity|]; eexists; reflexivity.
Qed.

Lemma save_before_first_observation_stores_nothing_witness :
  WeatherManager.weatherStats (WeatherManager.create "Delhi" "celsius") = WeatherStats.create "Delhi" /\
  exists e, handle (SaveResponse 0 true)
              (run (save_tick 0 0) (init (WeatherManager.create "Delhi" "celsius"))).1
            = Some (init (WeatherManager.create "Delhi" "celsius"), [SaveFailed e]).
Proof.
  split; [reflexivity|]. apply save_before_first_observation_stores_nothing with (c0 := "Delhi").
  reflexivity.
Defined.
(** C10. A persistence run with the database up, after a non-empty
    history of valid observations with non-empty conditions for a
    non-empty city, stores one document: the city, yesterday's date and
    the summary's maximum, minimum, average and dominant condition (its
    frequency is not part of the schema), and prints that it saved it. *)
Theorem save_stores_summary (s : sys) (tA tB : Z) (c : string) (h : list WeatherData.t) :
  WeatherManager.weatherStats (manager s) = WeatherStats.add_all h (WeatherStats.create c) ->
  c <> EmptyString -> h <> [] ->
  Forall (fun d => StatsSpec.obs_ok d = true /\ WeatherData.condition d <> EmptyString) h ->
  exists s1 s2,
    handle (SaveTick tA tB) s = Some (s1, [SaveStarting]) /\
    handle (SaveResponse (List.length (saves s)) true) s1 = Some (s2, [SaveSaved c (yesterday tA tB)]) /\
    saves s2 = saves s /\
    db s2 = (db s ++ [WeatherSummary.mk c (yesterday tA tB)
        (DailySummary.maxTemperature (WeatherStats.getDailySummary (WeatherStats.add_all h (WeatherStats.create c))))
        (DailySummary.minTemperature (WeatherStats.getDailySummary (WeatherStats.add_all h (WeatherStats.create c))))
        (DailySummary.avgTemperature (WeatherStats.getDailySummary (WeatherStats.add_all h (WeatherStats.create c))))
        (DailySummary.dominantWeather (WeatherStats.getDailySummary (WeatherStats.add_all h (WeatherStats.create c))))])%list.
Proof.
  intros Hm Hc Hh Hok.
  set (doc := mk_stats_to_save (WeatherManager.getDailySummary (manager s)) (yesterday tA tB)).
  assert (Hcr : WeatherSummary.create doc = Return (WeatherSummary.mk c (yesterday tA tB)
    (DailySummary.maxTemperature (WeatherStats.getDailySummary (WeatherStats.add_all h (WeatherStats.create c))))
    (DailySummary.minTemperature (WeatherStats.getDailySummary (WeatherStats.add_all h (WeatherStats.create c))))
    (DailySummary.avgTemperature (WeatherStats.getDailySummary (WeatherStats.add_all h (WeatherStats.create c))))
    (DailySummary.dominantWeather (WeatherStats.getDailySummary (WeatherStats.add_all h (WeatherStats.create c)))))).
  { unfold doc, WeatherManager.getDailySummary, WeatherSummary.create. rewrite Hm.
    rewrite summary_of_history_valid by done. cbn [sts_summary sts_date].
    rewrite (proj1 (StatsRefinement.summary_of_history_fields c h Hh
                      (Forall_impl _ _ _ Hok (fun d Hd => proj1 Hd)))).
    reflexivity. }
  exists (set_saves (saves s ++ [doc])%list s). eexists. split; [|split].
  - cbn [handle]. unfold run. by rewrite save_tick_spec.
  - cbn [handle saves set_saves]. rewrite list_lookup_middle by done.
    unfold run. rewrite save_resume_spec, Hcr. reflexivity.
  - cbn [set_db saves db]. by rewrite delete_middle, app_nil_r.
Qed.

Lemma save_stores_summary_witness :
  "Delhi" <> EmptyString /\ StatsSamples.sample_history <> [] /\
  exists s1 s2,
    handle (SaveTick 0 0) sample_saving_state = Some (s1, [SaveStarting]) /\
    handle (SaveResponse 0 true) s1 = Some (s2, [SaveSaved "Delhi" (yesterday 0 0)]) /\
    saves s2 = [] /\
    db s2 = [WeatherSummary.mk "Delhi" (yesterday 0 0)
        (DailySummary.maxTemperature (WeatherStats.getDailySummary
           (WeatherStats.add_all StatsSamples.sample_history (WeatherStats.create "Delhi"))))
        (DailySummary.minTemperature (WeatherStats.getDailySummary
           (WeatherStats.add_all StatsSamples.sample_history (WeatherStats.create "Delhi"))))
        (DailySummary.avgTemperature (WeatherStats.getDailySummary
           (WeatherStats.add_all StatsSamples.sample_history (WeatherStats.create "Delhi"))))
        (DailySummary.dominantWeather (WeatherStats.getDailySummary
           (WeatherStats.add_all StatsSamples.sample_history (WeatherStats.create "Delhi"))))].
Proof.
  split; [discriminate|]. split; [discriminate|].
  apply (save_stores_summary sample_saving_state 0 0 "Delhi" StatsSamples.sample_history);
    [reflexivity | discriminate | discriminate |].
  repeat (constructor; [split; [reflexivity | discriminate] |]). constructor.
Defined.
(** C13. One polling cycle against the provider, composing the job with
    [get_weather]: when the first request for the city's URL answers a
    body with [main] and a [weather] entry, the cycle records that
    observation (converted to the manager's unit) in the statistics and
    lowers the flag; when every allowed request times out or fails with
    [Network Error], it leaves the manager unchanged, lowers the flag and
    appends the [TypeError] line to [cron_error.log]. *)
Theorem poll_cycle_with_provider (s : sys) (now : Z) (key : option string) (net : string -> nat -> wire) :
  isJobRunning s = false ->
  (forall mn c cs,
     axios_get (net (buildUrlWithParams BASE_API_ENDPOINT
                       (weather_query (WeatherManager.getCity (manager s)) key)) O)
       = AxiosData (ApiResponse.mk (Some mn) (c :: cs)) ->
     exists s2 o,
       handle (PollResponse now (get_weather (WeatherManager.getCity (manager s)) key net).2)
              (run poll_tick s).1 = Some (s2, o) /\
       isJobRunning s2 = false /\
       WeatherManager.weatherStats (manager s2) =
         WeatherStats.add_stats
           (WeatherManager.format_data (manager s)
              (WeatherData.mk (ApiResponse.temp mn) (ApiResponse.temp_max mn) (ApiResponse.temp_min mn) c))
           (WeatherManager.weatherStats (manager s))) /\
  ((forall j, (j <= MAX_RETRIES)%nat ->
      FetchSpec.transient_at (net (buildUrlWithParams BASE_API_ENDPOINT
                                     (weather_query (WeatherManager.getCity (manager s)) key))) j) ->
   exists s2 o,
     handle (PollResponse now (get_weather (WeatherManager.getCity (manager s)) key net).2)
            (run poll_tick s).1 = Some (s2, o) /\
     isJobRunning s2 = false /\ manager s2 = manager s /\
     error_file s2 = logErrorToFile now (TypeError "Cannot read properties of undefined (reading 'main')")
                                    (error_file s)).
Proof.
  intros Hr. split.
  - intros mn c cs Hd. rewrite handle_after_tick by exact Hr.
    rewrite (FetchFacts.get_weather_first_data _ _ _ _ Hd). unfold run. rewrite poll_resume_spec.
    cbn [observation_of ApiResponse.main ApiResponse.weather manager set_polls set_running].
    pose proof (ManagerFacts.addWeatherData_state
                  (WeatherData.mk (ApiResponse.temp mn) (ApiResponse.temp_max mn) (ApiResponse.temp_min mn) c)
                  (manager s)) as Hm.
    destruct (WeatherManager.addWeatherData _ (manager s)) as [[m' o'] [u|e]];
      cbn in Hm; subst m'; eexists _, _; (split; [reflexivity|]); split; reflexivity.
  - intros Ht. rewrite handle_after_tick by exact Hr.
    rewrite (FetchFacts.get_weather_all_transient _ _ _ Ht). unfold run. rewrite poll_resume_spec.
    cbn [observation_of]. eexists _, _. split_and!; reflexivity.
Qed.

Lemma poll_cycle_with_provider_witness :
  isJobRunning (init (WeatherManager.create "Delhi" "celsius")) = false /\
  exists s2 o,
    handle (PollResponse 0 (get_weather "Delhi" None
              (fun _ _ => HttpResponse 200 "OK"
                 (ApiResponse.mk (Some (ApiResponse.mk_main (num_of_Z 300) (num_of_Z 301) (num_of_Z 299))) ["Clear"]))).2)
           (run poll_tick (init (WeatherManager.create "Delhi" "celsius"))).1 = Some (s2, o) /\
    isJobRunning s2 = false /\
    WeatherManager.weatherStats (manager s2) =
      WeatherStats.add_stats
        (WeatherManager.format_data (WeatherManager.create "Delhi" "celsius")
           (WeatherData.mk (num_of_Z 300) (num_of_Z 301) (num_of_Z 299) "Clear"))
        (WeatherStats.create "Delhi").
Proof.
  split; [reflexivity|].
  exact (proj1 (poll_cycle_with_provider (init (WeatherManager.create "Delhi" "celsius")) 0 None
           (fun _ _ => HttpResponse 200 "OK"
              (ApiResponse.mk (Some (ApiResponse.mk_main (num_of_Z 300) (num_of_Z 301) (num_of_Z 299))) ["Clear"]))
           eq_refl) _ "Clear" [] eq_refl).
Defined.
(** C39. The persistence job has no guard against overlapping runs: from
    any state with no save pending, two timer firings start two runs, and
    when the database answers the later one first, the later-dated
    summary is stored before the earlier one and both runs complete. *)
Theorem overlapping_saves_store_out_of_order (s : sys) (tA tB tA' tB' : Z) (r1 r2 : WeatherSummary.t) :
  saves s = [] ->
  WeatherSummary.create (mk_stats_to_save (WeatherManager.getDailySummary (manager s)) (yesterday tA tB)) = Return r1 ->
  WeatherSummary.create (mk_stats_to_save (WeatherManager.getDailySummary (manager s)) (yesterday tA' tB')) = Return r2 ->
  exists s' o,
    exec [SaveTick tA tB; SaveTick tA' tB'; SaveResponse 1 true; SaveResponse 0 true] s = Some (s', o) /\
    db s' = (db s ++ [r2; r1])%list /\ saves s' = [] /\ manager s' = manager s.
Proof.
  intros Hs H1 H2.
  erewrite exec_cons by apply handle_save_tick. erewrite exec_cons by apply handle_save_tick.
  erewrite exec_cons by (apply handle_save_stored; [cbn; by rewrite Hs | exact H2]).
  erewrite exec_cons by (apply handle_save_stored; [cbn; by rewrite Hs | exact H1]).
  cbn [exec]. eexists _, _. split; [reflexivity|]. cbn. rewrite Hs. by rewrite <- app_assoc.
Qed.

Lemma overlapping_saves_store_out_of_order_witness :
  exists s0 o0 s' o r1 r2,
    exec CronSpec.sample_poll_events (init (WeatherManager.create "Delhi" "celsius")) = Some (s0, o0) /\
    reachable (WeatherManager.create "Delhi" "celsius") s0 /\
    exec [SaveTick (2 * msPerDay) (2 * msPerDay); SaveTick (3 * msPerDay) (3 * msPerDay);
          SaveResponse 1 true; SaveResponse 0 true] s0 = Some (s', o) /\
    db s' = [r2; r1] /\ (WeatherSummary.date r1 < WeatherSummary.date r2)%Z.
Proof.
  set (m := WeatherManager.create "Delhi" "celsius").
  set (s0 := (run (poll_resume 0 (Some (ApiResponse.mk (Some (ApiResponse.mk_main (num_of_Z 300)
                (num_of_Z 301) (num_of_Z 299))) ["Clear"])))
              (set_polls [] (set_running true (init m)))).1).
  assert (E0 : exists o0, exec CronSpec.sample_poll_events (init m) = Some (s0, o0))
    by (eexists; reflexivity).
  destruct E0 as [o0 E0].
  destruct (overlapping_saves_store_out_of_order s0 (2 * msPerDay) (2 * msPerDay)
              (3 * msPerDay) (3 * msPerDay) _ _ eq_refl eq_refl eq_refl) as (s' & o & He & Hdb & _).
  exists s0, o0, s', o. eexists _, _. split; [exact E0|]. split; [exact (exec_reachable m _ _ _ _ (reach_init m) E0)|].
  split; [exact He|]. split; [exact Hdb|]. vm_compute. reflexivity.
Defined.
(** C36. Composing the persistence task's schedule with the event loop: in
    any run from start-up that lies within one UTC day and in which
    node-cron fires the persistence timer at distinct instants it
    schedules, at most 480 runs start, so at most 480 documents are
    stored (or pending) that day; the job stores one document per run,
    not one per day. *)
Theorem persistence_runs_per_day_bounded (m0 : WeatherManager.t) (tr : list (Z * event)) (d : Z)
    (s' : sys) (o : list cron_out) :
  exec (map snd tr) (init m0) = Some (s', o) ->
  NoDup (save_tick_times tr) ->
  Forall (fun t => task_fires saveWeatherCronJob_task t = true /\ d * msPerDay <= t < (d + 1) * msPerDay)
         (save_tick_times tr) ->
  (List.length (db s') + List.length (saves s') <= 480)%nat.
Proof.
  intros He Hnd Hts. pose proof (exec_runs _ _ _ _ He) as Hr. cbn in Hr.
  pose proof (task_fire_times_bound saveWeatherCronJob_task d _ eq_refl eq_refl Hnd Hts) as Hb.
  rewrite saveWeatherCronJob_task_firings, length_save_tick_times in Hb. lia.
Qed.

Lemma persistence_runs_per_day_bounded_witness :
  exists s' o,
    exec (map snd [(20000 * msPerDay, SaveTick (20000 * msPerDay) (20000 * msPerDay)); (20000 * msPerDay, PollTick);
                   (20000 * msPerDay + 180000, SaveTick (20000 * msPerDay + 180001) (20000 * msPerDay + 180001));
                   (20000 * msPerDay + 190000, SaveResponse 0 false)])
         (init (WeatherManager.create "Delhi" "celsius")) = Some (s', o) /\
    (List.length (db s') + List.length (saves s') <= 480)%nat.
Proof.
  set (tr := [(20000 * msPerDay, SaveTick (20000 * msPerDay) (20000 * msPerDay)); (20000 * msPerDay, PollTick);
              (20000 * msPerDay + 180000, SaveTick (20000 * msPerDay + 180001) (20000 * msPerDay + 180001));
              (20000 * msPerDay + 190000, SaveResponse 0 false)]).
  destruct (exec (map snd tr) (init (WeatherManager.create "Delhi" "celsius"))) as [[s' o]|] eqn:E;
    [|vm_compute in E; discriminate].
  assert (Hnd : NoDup (save_tick_times tr)) by (apply (bool_decide_unpack _); vm_compute; reflexivity).
  assert (Hts : Forall (fun t => task_fires saveWeatherCronJob_task t = true /\
                         20000 * msPerDay <= t < (20000 + 1) * msPerDay) (save_tick_times tr))
    by (apply (bool_decide_unpack _); vm_compute; reflexivity).
  exists s', o. split; [reflexivity|].
  exact (persistence_runs_per_day_bounded _ tr 20000 s' o E Hnd Hts).
Defined.
End CronProps.
