(* ===== verification/App.v ===== *)
(** * App: the start-up sequence of [app.js]

    [askMultipleQuestions] (app.js lines 23-64) reads the configuration
    from the terminal, one line per question, and [main] (lines 69-85)
    connects to the database, builds the manager and starts both jobs.  The
    terminal is the list of lines the user types; a question asked after the
    last line never resolves, which is [None].  [connectToDB]
    (utils/mongo_db.js lines 6-14) is given the outcome of
    [mongoose.connect]: [None] when it connects, [Some msg] when it rejects
    with the message [msg], in which case the process exits. *)

From S2P Require Import Prelude JsValue WeatherStats Units WeatherTriggers WeatherManager Crons.
From Stdlib Require Import String.
Open Scope string_scope.

(** [askQuestion(query)] (lines 18-20): the next line, if the user types
    one. *)
Definition askQuestion (lines : list string) : option (string * list string) :=
  match lines with
  | [] => None
  | l :: rest => Some (l, rest)
  end.

(** Lines 39-46 and 50-57: on the answer ["Y"] ask for an operator and a
    threshold and add the trigger; the threshold is the string typed. *)
Definition ask_trigger (attribute : string) (answer : string) (m : WeatherManager.t)
    (lines : list string) : option (WeatherManager.t * list string) :=
  if String.eqb answer "Y" then
    '(operator, lines) ← askQuestion lines;
    '(threshold, lines) ← askQuestion lines;
    Some (WeatherManager.addTrigger attribute operator (JStr threshold) m, lines)
  else Some (m, lines).

(** [askMultipleQuestions()] (lines 23-64); [rl.close()] has no effect on
    the model. *)
Definition askMultipleQuestions (lines : list string) : option (outcome WeatherManager.t) :=
  '(city, lines) ← askQuestion lines;
  '(temperature_type_str, lines) ← askQuestion lines;
  match TemperatureType.getTemperatureType temperature_type_str with
  | None =>
      Some (Throw (Error ("Invalid temperature type: " ++ temperature_type_str ++
                          ". It should be either celcius or fahrenheit.")))
  | Some temperature_type =>
      let weather_manager := WeatherManager.create city temperature_type in
      '(add_temp_triggers, lines) ← askQuestion lines;
      '(weather_manager, lines) ← ask_trigger "temperature" add_temp_triggers weather_manager lines;
      '(add_weather_condition_triggers, lines) ← askQuestion lines;
      '(weather_manager, _) ← ask_trigger "condition" add_weather_condition_triggers weather_manager lines;
      Some (Return weather_manager)
  end.

(** [connectToDB()] (utils/mongo_db.js lines 6-14): the console line and
    whether the process goes on ([process.exit(1)] otherwise). *)
Definition connectToDB (conn : option string) : string * bool :=
  match conn with
  | None => ("MongoDB connected successfully", true)
  | Some msg => ("Error: " ++ msg, false)
  end.

(** How the start-up ends. *)
Inductive startup :=
| Exited                  (* process.exit(1) in connectToDB *)
| Waiting                 (* a question is still open *)
| StartFailed (e : js_exn) (* console.error at line 83: no job is started *)
| Started (s : sys).      (* both jobs scheduled on the manager *)

(** The main [async] function (lines 69-85). *)
Definition main (conn : option string) (lines : list string) : startup :=
  let '(_, connected) := connectToDB conn in
  if negb connected then Exited
  else match askMultipleQuestions lines with
       | None => Waiting
       | Some (Throw e) => StartFailed e
       | Some (Return m) => Started (init m)
       end.

(** A sample session: Delhi in Celsius with one temperature rule. *)
Definition sample_answers : list string := ["Delhi"; "Celsius"; "Y"; ">"; "30"; "N"].
Definition sample_manager : WeatherManager.t :=
  WeatherManager.addTrigger "temperature" ">" (JStr "30") (WeatherManager.create "Delhi" "celsius").

Module AppFacts.
Lemma ask_trigger_cases attribute a m lines m' lines' :
  ask_trigger attribute a m lines = Some (m', lines') ->
  (a <> "Y" /\ m' = m /\ lines' = lines) \/
  (a = "Y" /\ exists operator threshold,
     m' = WeatherManager.addTrigger attribute operator (JStr threshold) m).
Proof.
  unfold ask_trigger. destruct (String.eqb_spec a "Y") as [->|Ha].
  - destruct lines as [|op [|th rest]]; cbn; try discriminate.
    intros [= <- _]. right. eauto.
  - intros [= <- <-]. by left.
Qed.

Lemma ask_trigger_not_Y attribute a m lines :
  a <> "Y" -> ask_trigger attribute a m lines = Some (m, lines).
Proof. intros Ha. unfold ask_trigger. by rewrite (proj2 (String.eqb_neq a "Y") Ha). Qed.
End AppFacts.

Module AppProps.
Import AppFacts.

(** C35. When the temperature type typed is neither [celsius] nor
    [fahrenheit] in any case, start-up fails with the [Error] of line 32
    and no job is started. *)
Theorem invalid_temperature_type_starts_nothing city tts rest :
  TemperatureType.getTemperatureType tts = None ->
  main None (city :: tts :: rest) =
    StartFailed (Error ("Invalid temperature type: " ++ tts ++
                        ". It should be either celcius or fahrenheit.")).
Proof. intros H. unfold main, askMultipleQuestions. cbn. by rewrite H. Qed.

Lemma invalid_temperature_type_starts_nothing_witness :
  TemperatureType.getTemperatureType "kelvin" = None /\
  main None ["Delhi"; "kelvin"] =
    StartFailed (Error "Invalid temperature type: kelvin. It should be either celcius or fahrenheit.").
Proof.
  split; [reflexivity|]. apply (invalid_temperature_type_starts_nothing "Delhi" "kelvin" []). reflexivity.
Defined.

(** C34. A successful start-up schedules both jobs on a fresh manager for
    the first line typed, with temperature type [celsius] or
    [fahrenheit], at most one temperature trigger followed by at most one
    condition trigger, and every threshold the string typed. *)
Theorem startup_configuration conn lines s :
  main conn lines = Started s ->
  exists m city, s = init m /\ head lines = Some city /\
    WeatherManager.weatherStats m = WeatherStats.create city /\
    (WeatherManager.temperatureType m = TemperatureType.Celsius \/
     WeatherManager.temperatureType m = TemperatureType.Fahrenheit) /\
    map WeatherTrigger.attribute (WeatherManager.triggers m)
      ∈ [[]; ["temperature"]; ["condition"]; ["temperature"; "condition"]] /\
    Forall (fun tr => exists th, WeatherTrigger.threshold tr = JStr th) (WeatherManager.triggers m).
Proof.
  unfold main. destruct conn; [discriminate|]. cbn [connectToDB]. unfold askMultipleQuestions.
  destruct lines as [|city [|tts rest]]; cbn; try discriminate.
  destruct (TemperatureType.getTemperatureType tts) as [t|] eqn:Ht; [|discriminate].
  apply UnitsProps.getTemperatureType_cases in Ht.
  destruct rest as [|a1 rest]; cbn; [discriminate|].
  destruct (ask_trigger "temperature" a1 _ rest) as [[m1 rest1]|] eqn:E1; cbn; [|discriminate].
  destruct rest1 as [|a2 rest2]; cbn; [discriminate|].
  destruct (ask_trigger "condition" a2 m1 rest2) as [[m2 rest3]|] eqn:E2; cbn; [|discriminate].
  intros [= <-]. exists m2, city. split_and!; [done|done|..].
  all: apply ask_trigger_cases in E1 as [(_ & -> & _)|(_ & op1 & th1 & ->)];
       apply ask_trigger_cases in E2 as [(_ & -> & _)|(_ & op2 & th2 & ->)]; cbn; try done.
  all: first [done | by repeat constructor; eauto | set_solver].
Qed.

Lemma startup_configuration_witness :
  main None sample_answers = Started (init sample_manager) /\
  exists m city, init sample_manager = init m /\ head sample_answers = Some city /\
    WeatherManager.weatherStats m = WeatherStats.create city /\
    (WeatherManager.temperatureType m = TemperatureType.Celsius \/
     WeatherManager.temperatureType m = TemperatureType.Fahrenheit) /\
    map WeatherTrigger.attribute (WeatherManager.triggers m)
      ∈ [[]; ["temperature"]; ["condition"]; ["temperature"; "condition"]] /\
    Forall (fun tr => exists th, WeatherTrigger.threshold tr = JStr th) (WeatherManager.triggers m).
Proof.
  split; [reflexivity|]. apply (startup_configuration None sample_answers (init sample_manager)).
  reflexivity.
Defined.

(** Only the exact answer [Y] adds a trigger: with any other answer
    to both questions ([y], [yes], ...) start-up schedules the jobs on a
    manager with no trigger. *)
Theorem only_Y_adds_triggers city tts t a1 a2 rest :
  TemperatureType.getTemperatureType tts = Some t -> a1 <> "Y" -> a2 <> "Y" ->
  main None (city :: tts :: a1 :: a2 :: rest) = Started (init (WeatherManager.create city t)).
Proof.
  intros Ht H1 H2. unfold main, askMultipleQuestions. cbn. rewrite Ht. cbn.
  rewrite ask_trigger_not_Y by exact H1. cbn. by rewrite ask_trigger_not_Y by exact H2.
Qed.

Lemma only_Y_adds_triggers_witness :
  main None ["Delhi"; "Celsius"; "y"; "yes"] = Started (init (WeatherManager.create "Delhi" "celsius")).
Proof.
  apply (only_Y_adds_triggers "Delhi" "Celsius" "celsius" "y" "yes" []);
    [reflexivity|intros H; discriminate H..].
Defined.
End AppProps.
